(** * GitHub Issue Assistant: a shallow embedding of the backend

    The backend has three modules: [github_client.py] (the Issue Retriever),
    [llm_analyzer.py] (the Analysis Engine) and [app.py] (the fingerprint
    cache and the request handler).  Part I embeds them, function by
    function and under the names of the source; Part II defines the words
    in which the properties of the specification are stated; Part III
    proves them.

    Conventions of the embedding.
    - A Python [str] is a [string], one [ascii] per character (code points
      below 256).
    - A Python exception is a value of [exn]; code that can raise returns a
      [result].
    - A decoded JSON document is a [json] value; a Python [dict] with string
      keys is an association list in insertion order.
    - The payloads of the hosting API are typed as the API documents them
      (strings, integers, lists of objects).
    - The clock, the hosting API and the language model are oracles; every
      call to the network is recorded in a trace of [event]s. *)

From Stdlib Require Import ZArith Lia String Ascii List Bool DecimalString.
From stdpp Require Import gmap strings list.

Local Open Scope string_scope.
Local Open Scope list_scope.
Local Open Scope Z_scope.

#[local] Set Warnings "-register-all".

(* ===================================================================== *)
(** * Part I: the embedding *)
(* ===================================================================== *)

(** ** Python built-ins used by the source *)

Module Py.

(** [str.isspace] on one character: the white space of [str.strip()]. *)
Definition is_space (c : ascii) : bool :=
  let n := nat_of_ascii c in
  (((9 <=? n) && (n <=? 13)) || ((28 <=? n) && (n <=? 32))
   || (n =? 133) || (n =? 160))%nat.

Fixpoint lstrip_by (p : ascii -> bool) (s : string) : string :=
  match s with
  | EmptyString => EmptyString
  | String c s' => if p c then lstrip_by p s' else s
  end.

Fixpoint rstrip_by (p : ascii -> bool) (s : string) : string :=
  match s with
  | EmptyString => EmptyString
  | String c s' =>
      match rstrip_by p s' with
      | EmptyString => if p c then EmptyString else String c EmptyString
      | t => String c t
      end
  end.

(** [s.strip()] *)
Definition strip (s : string) : string := rstrip_by is_space (lstrip_by is_space s).

(** [s.rstrip(c)] for a one-character argument *)
Definition rstrip_char (c : ascii) (s : string) : string := rstrip_by (Ascii.eqb c) s.

(** [s.startswith(p)] *)
Definition startswith (s p : string) : bool := String.prefix p s.

(** [s[:n]] *)
Fixpoint take (n : nat) (s : string) : string :=
  match n, s with
  | S n', String c s' => String c (take n' s')
  | _, _ => EmptyString
  end.

(** [s[n:]] *)
Fixpoint drop (n : nat) (s : string) : string :=
  match n, s with
  | S n', String _ s' => drop n' s'
  | _, _ => s
  end.

(** [s.split(sep)] for a one-character separator: never the empty list. *)
Fixpoint split (sep : ascii) (s : string) : list string :=
  match s with
  | EmptyString => [EmptyString]
  | String c s' =>
      if Ascii.eqb c sep then EmptyString :: split sep s'
      else match split sep s' with
           | l :: ls => String c l :: ls
           | [] => [String c EmptyString]
           end
  end.

(** [sep.join(ls)] *)
Definition join (sep : string) (ls : list string) : string := String.concat sep ls.

(** [s.replace(old, new)] for a non-empty [old]: occurrences are found from
    the left and do not overlap.  [skip] counts the characters of the
    occurrence just replaced that are still to be passed over. *)
Fixpoint replace_from (old new : string) (skip : nat) (s : string) : string :=
  match s with
  | EmptyString => EmptyString
  | String c s' =>
      match skip with
      | S k => replace_from old new k s'
      | O =>
          if String.prefix old s
          then new +:+ replace_from old new (String.length old - 1) s'
          else String c (replace_from old new 0 s')
      end
  end.

Definition replace (old new s : string) : string := replace_from old new 0 s.

(** [str(n)] for an [int] *)
Definition str_of_int (n : Z) : string := NilZero.string_of_int (Z.to_int n).

(** [lines[a:b]] for [0 <= a] and [0 <= b] *)
Definition slice {A : Type} (a b : nat) (l : list A) : list A :=
  firstn (b - a) (skipn a l).

(** The double quote, which the prompt needs. *)
Definition dq : string := String "034"%char EmptyString.

(** The line feed. *)
Definition nl : string := String "010"%char EmptyString.

End Py.

(** ** Exceptions and results *)

(** The exception classes that can reach the code under study.  The classes
    of [requests] are [RequestException] and its subclasses [Timeout] and
    [ConnectionError] (its subclass [HTTPError], which carries a response,
    is the [HttpStatusError] of [get_outcome] below); [JSONDecodeError] is
    the one of [json] and [ValidationError] the one of [pydantic], both
    subclasses of [ValueError]. *)
Inductive exn_class :=
| ValueError | JSONDecodeError | ValidationError
| TypeError | KeyError | AttributeError
| RequestException | Timeout | ConnectionError
| OtherException.

(** An exception: its class and [str(e)]. *)
Record exn := Exn { exn_cls : exn_class; exn_str : string }.

(** [isinstance(e, ValueError)] *)
Definition is_ValueError (e : exn) : bool :=
  match exn_cls e with
  | ValueError | JSONDecodeError | ValidationError => true
  | _ => false
  end.

(** [isinstance(e, requests.exceptions.RequestException)] *)
Definition is_RequestException (e : exn) : bool :=
  match exn_cls e with
  | RequestException | Timeout | ConnectionError => true
  | _ => false
  end.

Inductive result (A : Type) :=
| Return (a : A)
| Raise (e : exn).
Arguments Return {A} a.
Arguments Raise {A} e.

Definition rbind {A B : Type} (m : result A) (f : A -> result B) : result B :=
  match m with
  | Return a => f a
  | Raise e => Raise e
  end.

(** ** The outside world *)

(** A call that leaves the process. *)
Inductive event :=
| EvGetIssue (url : string)        (* GET .../issues/{n} *)
| EvGetComments (url : string)     (* GET .../issues/{n}/comments *)
| EvGenerate (prompt : string).    (* model.generate_content(prompt) *)

(** A computation that talks to the world: the calls it made, in order, and
    its result. *)
Definition IO (A : Type) : Type := list event * result A.

Definition ret {A : Type} (a : A) : IO A := ([], Return a).
Definition raise {A : Type} (e : exn) : IO A := ([], Raise e).

Definition bind {A B : Type} (m : IO A) (f : A -> IO B) : IO B :=
  match m with
  | (t, Return a) => let (t', r) := f a in (t ++ t', r)
  | (t, Raise e) => (t, Raise e)
  end.

(** [try: m except Exception as e: h e] *)
Definition try_except {A : Type} (m : IO A) (h : exn -> IO A) : IO A :=
  match m with
  | (t, Raise e) => let (t', r) := h e in (t ++ t', r)
  | ok => ok
  end.

Declare Scope io_scope.
Delimit Scope io_scope with io.
Notation "'do' x <- m ; k" := (bind m (fun x => k))
  (at level 10, x name, m at level 100, k at level 200) : io_scope.

(** What the three statements [session.get(url, timeout=10)],
    [response.raise_for_status()] and [response.json()] come to. *)
Inductive get_outcome (A : Type) :=
| Fetched (payload : A)                      (* all three ran *)
| HttpStatusError (status : Z) (msg : string)
    (* [raise_for_status] raised [HTTPError], as it does for the statuses
       400 to 599; [status] is [response.status_code], [msg] is [str(e)] *)
| Failed (e : exn).                          (* any other exception *)
Arguments Fetched {A} payload.
Arguments HttpStatusError {A} status msg.
Arguments Failed {A} e.

(** ** Regular expressions: the fragment of [re] that the patterns use *)

Module Re.

Inductive item :=
| Lit (s : string)       (* literal text, as in [github\.com/] *)
| OptLit (s : string)    (* [(?:s)?] and [c?]: greedy optional literal *)
| Group (lazy : bool)    (* [([^/]+)] and, lazy, [([^/]+?)] *)
| Eos.                   (* [$] *)

(** [$] without [re.MULTILINE]: the end of the string, or just before a
    line feed that ends the string. *)
Definition at_end (s : string) : bool :=
  match s with
  | EmptyString => true
  | String c EmptyString => Ascii.eqb c "010"
  | _ => false
  end.

(** A group of one or more characters other than [/], followed by what
    [k] matches.  [acc] is the text the group holds so far.  A greedy
    group first takes all it can and gives characters back one at a time;
    a lazy one tries to stop after each character. *)
Fixpoint grow (lazy : bool) (k : string -> option (list string))
  (acc s : string) : option (list string) :=
  match s with
  | EmptyString => None
  | String c s' =>
      if Ascii.eqb c "/" then None
      else
        let acc' := acc +:+ String c EmptyString in
        let stop := match k s' with
                    | Some g => Some (acc' :: g)
                    | None => None
                    end in
        if lazy
        then match stop with Some g => Some g | None => grow lazy k acc' s' end
        else match grow lazy k acc' s' with Some g => Some g | None => stop end
  end.

(** Backtracking match of the sequence [p] at the start of [s]: the groups
    of the first match in the order Python tries them. *)
Fixpoint match_here (p : list item) (s : string) : option (list string) :=
  match p with
  | [] => Some []
  | Lit l :: p' =>
      if String.prefix l s then match_here p' (Py.drop (String.length l) s) else None
  | OptLit l :: p' =>
      match (if String.prefix l s
             then match_here p' (Py.drop (String.length l) s) else None) with
      | Some g => Some g
      | None => match_here p' s
      end
  | Eos :: p' => if at_end s then match_here p' s else None
  | Group lazy :: p' => grow lazy (match_here p') EmptyString s
  end.

(** [re.search(p, s).groups()]: the leftmost position where [p] matches. *)
Fixpoint search (p : list item) (s : string) : option (list string) :=
  match match_here p s with
  | Some g => Some g
  | None =>
      match s with
      | EmptyString => None
      | String _ s' => search p s'
      end
  end.

End Re.

(** ** github_client.py *)

Module GitHubClient.

(** *** Payloads of the hosting API

    A key that the source reads with [.get(k, default)] is an [option]:
    [None] when the key is absent. *)

Record RawLabel := { label_name : option string }.

(** The [user] of a comment: absent, [null], or an object. *)
Inductive RawUser :=
| UserAbsent
| UserNull
| UserObject (login : option string).

Record RawComment := {
  rc_user : RawUser;
  rc_body : option string;
  rc_created_at : option string }.

(** [ri_body] is [None] when the key is absent or [null]. *)
Record RawIssue := {
  ri_title : option string;
  ri_body : option string;
  ri_state : option string;
  ri_labels : option (list RawLabel);
  ri_comments : option Z;
  ri_created_at : option string;
  ri_html_url : option string }.

(** *** The normalized record handed to the analysis engine

    The dictionaries that [get_issue_data] builds.  Each key is an
    [option] because [create_prompt] and the handler read it with [.get];
    [get_issue_data] sets them all.  The keys [body] and [created_at] of
    the issue are the fields [issue_body] and [issue_created_at]. *)

Record CommentRecord := {
  author : option string;
  body : option string;
  created_at : option string }.

Record IssueRecord := {
  title : option string;
  issue_body : option string;
  state : option string;
  labels : option (list string);
  comments_count : option Z;
  comments : option (list CommentRecord);
  issue_created_at : option string;
  html_url : option string }.

(** The hosting API as this client sees it. *)
Record Session := {
  get_issue : string -> get_outcome RawIssue;
  get_comments : string -> get_outcome (list RawComment) }.

Definition BASE_URL : string := "https://api.github.com".

(** [patterns] of [parse_repo_url] *)
Definition strict_pattern : list Re.item :=
  [Re.Lit "github.com/"; Re.Group false; Re.Lit "/"; Re.Group true;
   Re.OptLit ".git"; Re.OptLit "/"; Re.Eos].

Definition loose_pattern : list Re.item :=
  [Re.Lit "github.com/"; Re.Group false; Re.Lit "/"; Re.Group false].

Definition patterns : list (list Re.item) := [strict_pattern; loose_pattern].

Definition invalid_url (repo_url : string) : exn :=
  Exn ValueError ("Invalid GitHub repository URL: " +:+ repo_url +:+ ". "
                  +:+ "Expected format: https://github.com/owner/repo").

(** [repo.rstrip('/').replace('.git', '')] *)
Definition clean_repo (repo : string) : string :=
  Py.replace ".git" "" (Py.rstrip_char "/" repo).

(** The [for pattern in patterns] loop of [parse_repo_url]. *)
Fixpoint parse_with (ps : list (list Re.item)) (repo_url : string)
  : result (string * string) :=
  match ps with
  | [] => Raise (invalid_url repo_url)
  | pattern :: ps' =>
      match Re.search pattern repo_url with
      | Some [owner; repo] => Return (owner, clean_repo repo)
      | Some _ => Raise (Exn ValueError "too many or not enough values to unpack")
      | None => parse_with ps' repo_url
      end
  end.

Definition parse_repo_url (repo_url : string) : result (string * string) :=
  parse_with patterns repo_url.

Definition issue_url (owner repo : string) (issue_number : Z) : string :=
  BASE_URL +:+ "/repos/" +:+ owner +:+ "/" +:+ repo +:+ "/issues/"
  +:+ Py.str_of_int issue_number.

Definition not_found (owner repo : string) (issue_number : Z) : exn :=
  Exn ValueError ("Issue #" +:+ Py.str_of_int issue_number +:+ " not found in "
                  +:+ owner +:+ "/" +:+ repo +:+ ". "
                  +:+ "Please check the repository and issue number.").

Definition rate_limited : exn :=
  Exn ValueError ("GitHub API rate limit exceeded. "
                  +:+ "Please add a GITHUB_TOKEN to your .env file for higher limits.").

Definition fetch_issue (s : Session) (owner repo : string) (issue_number : Z)
  : IO RawIssue :=
  let url := issue_url owner repo issue_number in
  ([EvGetIssue url],
   match get_issue s url with
   | Fetched payload => Return payload
   | HttpStatusError status msg =>
       if status =? 404 then Raise (not_found owner repo issue_number)
       else if status =? 403 then Raise rate_limited
       else Raise (Exn ValueError ("GitHub API error: " +:+ msg))
   | Failed e =>
       if is_RequestException e
       then Raise (Exn ValueError ("Failed to connect to GitHub API: " +:+ exn_str e))
       else Raise e
   end).

Definition comments_url (owner repo : string) (issue_number : Z) : string :=
  issue_url owner repo issue_number +:+ "/comments".

Definition fetch_comments (s : Session) (owner repo : string) (issue_number : Z)
  : IO (list RawComment) :=
  let url := comments_url owner repo issue_number in
  ([EvGetComments url],
   match get_comments s url with
   | Fetched payload => Return payload
   | HttpStatusError _ _ => Return []
   | Failed e => if is_RequestException e then Return [] else Raise e
   end).

(** [[label["name"] for label in ...]] *)
Fixpoint label_names (ls : list RawLabel) : result (list string) :=
  match ls with
  | [] => Return []
  | l :: ls' =>
      match label_name l with
      | None => Raise (Exn KeyError "'name'")
      | Some n => rbind (label_names ls') (fun ns => Return (n :: ns))
      end
  end.

(** [comment.get("user", {}).get("login", "unknown")] *)
Definition comment_author (c : RawComment) : result string :=
  match rc_user c with
  | UserAbsent => Return "unknown"
  | UserNull => Raise (Exn AttributeError "'NoneType' object has no attribute 'get'")
  | UserObject login => Return (default "unknown" login)
  end.

Fixpoint comment_records (cs : list RawComment) : result (list CommentRecord) :=
  match cs with
  | [] => Return []
  | c :: cs' =>
      rbind (comment_author c) (fun a =>
      rbind (comment_records cs') (fun rs =>
      Return ({| author := Some a;
                 body := Some (default "" (rc_body c));
                 created_at := Some (default "" (rc_created_at c)) |} :: rs)))
  end.

(** The dictionary that [get_issue_data] builds from the two payloads. *)
Definition issue_record (issue : RawIssue) (comments : list RawComment)
  : result IssueRecord :=
  rbind (label_names (default [] (ri_labels issue))) (fun names =>
  rbind (comment_records comments) (fun records =>
  Return {| title := Some (default "" (ri_title issue));
            issue_body := Some (default "" (ri_body issue));
            state := Some (default "" (ri_state issue));
            labels := Some names;
            comments_count := Some (default 0 (ri_comments issue));
            comments := Some records;
            issue_created_at := Some (default "" (ri_created_at issue));
            html_url := Some (default "" (ri_html_url issue)) |})).

Definition get_issue_data (s : Session) (repo_url : string) (issue_number : Z)
  : IO IssueRecord :=
  (do parsed <- ([], parse_repo_url repo_url);
   let '(owner, repo) := parsed in
   do issue <- fetch_issue s owner repo issue_number;
   do comments <- fetch_comments s owner repo issue_number;
   ([], issue_record issue comments))%io.

End GitHubClient.

(** ** Decoded JSON and Python dictionaries *)

(** What [json.loads] builds: [None], [bool], [int], [float] (its 64 bits),
    [str], [list] and [dict]. *)
Inductive json :=
| JNull
| JBool (b : bool)
| JInt (n : Z)
| JFloat (bits : Z)
| JStr (s : string)
| JArr (l : list json)
| JObj (d : list (string * json)).

(** A [dict] with string keys, in insertion order, each key once. *)
Abbreviation dict := (list (string * json)).

(** [d.get(k)] *)
Fixpoint dict_get (k : string) (d : dict) : option json :=
  match d with
  | [] => None
  | (k', v) :: d' => if String.eqb k k' then Some v else dict_get k d'
  end.

(** [d[k] = v]: an existing key keeps its place, a new key goes last. *)
Fixpoint dict_set (k : string) (v : json) (d : dict) : dict :=
  match d with
  | [] => [(k, v)]
  | (k', v') :: d' =>
      if String.eqb k k' then (k', v) :: d' else (k', v') :: dict_set k v d'
  end.

(** [k in d] *)
Definition dict_has (k : string) (d : dict) : bool :=
  match dict_get k d with Some _ => true | None => false end.

(** The libraries the source calls and this development does not look
    into: [json.loads] (which returns a value or raises [JSONDecodeError]),
    [repr], the validation of a [str] field by [pydantic] (which accepts
    a value, possibly converting it, or rejects it) and the text of its
    [ValidationError]. *)
Inductive decoded :=
| Decoded (data : json)
| DecodeError (msg : string).

Class Libraries := {
  json_loads : string -> decoded;
  py_repr : json -> string;
  validate_str : json -> option string;
  validation_error : dict -> string }.

(** ** llm_analyzer.py *)

Module LLMAnalyzer.
Import GitHubClient.

(** The language model: the text of the answer to [prompt] on the given
    attempt ([response.text]), or the exception raised on the way. *)
Record Model := { generate_content : string -> nat -> result string }.

(** *** create_prompt *)

(** The body as the prompt shows it. *)
Definition prompt_body (body : string) : string :=
  if (4000 <? String.length body)%nat
  then Py.take 4000 body +:+ Py.nl +:+ "... (truncated for length)"
  else body.

(** The comment body as the prompt shows it. *)
Definition prompt_comment_body (comment_body : string) : string :=
  if (500 <? String.length comment_body)%nat
  then Py.take 500 comment_body +:+ "..."
  else comment_body.

(** One turn of the loop [for i, comment in enumerate(comments_list, 1)]:
    what it adds to [comments_text]. *)
Definition format_comment (i : Z) (comment : CommentRecord) : string :=
  let comment_body := prompt_comment_body (default "" (body comment)) in
  Py.nl +:+ "Comment " +:+ Py.str_of_int i +:+ " by "
  +:+ default "unknown" (author comment) +:+ ":" +:+ Py.nl
  +:+ comment_body +:+ Py.nl.

Fixpoint format_comments (i : Z) (comments_list : list CommentRecord) : string :=
  match comments_list with
  | [] => EmptyString
  | comment :: rest => format_comment i comment +:+ format_comments (i + 1) rest
  end.

Definition comments_text (issue_data : IssueRecord) : string :=
  match comments issue_data with
  | Some (c :: cs) => format_comments 1 (firstn 10 (c :: cs))
  | _ => "No comments yet."
  end.

Definition labels_text (issue_data : IssueRecord) : string :=
  match labels issue_data with
  | Some (l :: ls) => Py.join ", " (l :: ls)
  | _ => "None"
  end.

(** The fixed text of the prompt, up to the title. *)
Definition prompt_head_lines : list string :=
  [
    "You are an expert GitHub issue analyst. Analyze the following GitHub issue and provide a structured JSON response.";
    "";
    "**IMPORTANT**: You must respond with ONLY valid JSON in the exact format specified below. Do not include any markdown, explanations, or text outside the JSON object.";
    "";
    "Required JSON Format:";
    "{";
    "  " +:+ Py.dq +:+ "summary" +:+ Py.dq +:+ ": " +:+ Py.dq +:+ "A comprehensive, multi-sentence paragraph (approx 50-70 words) fully explaining the issue context, the problem, and the proposed solution." +:+ Py.dq +:+ ",";
    "  " +:+ Py.dq +:+ "type" +:+ Py.dq +:+ ": " +:+ Py.dq +:+ "One of: bug, feature_request, documentation, question, or other" +:+ Py.dq +:+ ",";
    "  " +:+ Py.dq +:+ "priority_score" +:+ Py.dq +:+ ": " +:+ Py.dq +:+ "A number from 1-5 where 1=low, 2=minor, 3=moderate, 4=high, 5=critical. Include a full sentence justification." +:+ Py.dq +:+ ",";
    "  " +:+ Py.dq +:+ "suggested_labels" +:+ Py.dq +:+ ": [" +:+ Py.dq +:+ "2-3 relevant labels" +:+ Py.dq +:+ "],";
    "  " +:+ Py.dq +:+ "potential_impact" +:+ Py.dq +:+ ": " +:+ Py.dq +:+ "A detailed paragraph explaining the specific consequences for users, developers, and the business if this is not addressed." +:+ Py.dq;
    "}";
    "";
    "**Few-Shot Examples:**";
    "";
    "Example 1 - Bug Report:";
    "Issue Title: " +:+ Py.dq +:+ "Application crashes when clicking submit button" +:+ Py.dq;
    "Issue Body: " +:+ Py.dq +:+ "When I click the submit button on the login form, the app crashes immediately. This happens consistently on iOS 17." +:+ Py.dq;
    "Analysis:";
    "{";
    "  " +:+ Py.dq +:+ "summary" +:+ Py.dq +:+ ": " +:+ Py.dq +:+ "Login form submit button causes consistent app crashes on iOS 17" +:+ Py.dq +:+ ",";
    "  " +:+ Py.dq +:+ "type" +:+ Py.dq +:+ ": " +:+ Py.dq +:+ "bug" +:+ Py.dq +:+ ",";
    "  " +:+ Py.dq +:+ "priority_score" +:+ Py.dq +:+ ": " +:+ Py.dq +:+ "5 - Critical: Blocks core functionality (login) for all iOS 17 users" +:+ Py.dq +:+ ",";
    "  " +:+ Py.dq +:+ "suggested_labels" +:+ Py.dq +:+ ": [" +:+ Py.dq +:+ "bug" +:+ Py.dq +:+ ", " +:+ Py.dq +:+ "crash" +:+ Py.dq +:+ ", " +:+ Py.dq +:+ "ios" +:+ Py.dq +:+ ", " +:+ Py.dq +:+ "login" +:+ Py.dq +:+ "],";
    "  " +:+ Py.dq +:+ "potential_impact" +:+ Py.dq +:+ ": " +:+ Py.dq +:+ "Users cannot log in on iOS 17, completely blocking app access for this user segment" +:+ Py.dq;
    "}";
    "";
    "Example 2 - Feature Request:";
    "Issue Title: " +:+ Py.dq +:+ "Add dark mode support" +:+ Py.dq;
    "Issue Body: " +:+ Py.dq +:+ "It would be great to have a dark mode option for better viewing at night." +:+ Py.dq;
    "Analysis:";
    "{";
    "  " +:+ Py.dq +:+ "summary" +:+ Py.dq +:+ ": " +:+ Py.dq +:+ "Request for dark mode theme option for improved nighttime viewing experience" +:+ Py.dq +:+ ",";
    "  " +:+ Py.dq +:+ "type" +:+ Py.dq +:+ ": " +:+ Py.dq +:+ "feature_request" +:+ Py.dq +:+ ",";
    "  " +:+ Py.dq +:+ "priority_score" +:+ Py.dq +:+ ": " +:+ Py.dq +:+ "2 - Low: Nice-to-have enhancement, not blocking any functionality" +:+ Py.dq +:+ ",";
    "  " +:+ Py.dq +:+ "suggested_labels" +:+ Py.dq +:+ ": [" +:+ Py.dq +:+ "enhancement" +:+ Py.dq +:+ ", " +:+ Py.dq +:+ "ui" +:+ Py.dq +:+ ", " +:+ Py.dq +:+ "dark-mode" +:+ Py.dq +:+ "],";
    "  " +:+ Py.dq +:+ "potential_impact" +:+ Py.dq +:+ ": " +:+ Py.dq +:+ "Would improve user experience for users who prefer dark interfaces, but no current functionality is broken" +:+ Py.dq;
    "}";
    "";
    "Example 3 - Question:";
    "Issue Title: " +:+ Py.dq +:+ "How to configure SSL certificates?" +:+ Py.dq;
    "Issue Body: " +:+ Py.dq +:+ "I'm trying to set up SSL but can't find documentation on where to place the certificates." +:+ Py.dq;
    "Analysis:";
    "{";
    "  " +:+ Py.dq +:+ "summary" +:+ Py.dq +:+ ": " +:+ Py.dq +:+ "User needs guidance on SSL certificate configuration and file placement" +:+ Py.dq +:+ ",";
    "  " +:+ Py.dq +:+ "type" +:+ Py.dq +:+ ": " +:+ Py.dq +:+ "question" +:+ Py.dq +:+ ",";
    "  " +:+ Py.dq +:+ "priority_score" +:+ Py.dq +:+ ": " +:+ Py.dq +:+ "3 - Moderate: Indicates documentation gap affecting user onboarding" +:+ Py.dq +:+ ",";
    "  " +:+ Py.dq +:+ "suggested_labels" +:+ Py.dq +:+ ": [" +:+ Py.dq +:+ "question" +:+ Py.dq +:+ ", " +:+ Py.dq +:+ "documentation" +:+ Py.dq +:+ ", " +:+ Py.dq +:+ "ssl" +:+ Py.dq +:+ "],";
    "  " +:+ Py.dq +:+ "potential_impact" +:+ Py.dq +:+ ": " +:+ Py.dq +:+ "May indicate unclear documentation that could confuse other users during setup" +:+ Py.dq;
    "}";
    "";
    "---";
    "";
    "Now analyze this issue:";
    "";
    "**Issue Title:** "
  ].

Definition prompt_head : string := Py.join Py.nl prompt_head_lines.

Definition create_prompt (issue_data : IssueRecord) : string :=
  let body := prompt_body (default "" (issue_body issue_data)) in
  prompt_head +:+ default "No title" (title issue_data)
  +:+ Py.nl +:+ Py.nl +:+ "**Issue Body:**" +:+ Py.nl
  +:+ (if String.eqb body "" then "No description provided" else body)
  +:+ Py.nl +:+ Py.nl +:+ "**Comments:**" +:+ Py.nl
  +:+ comments_text issue_data
  +:+ Py.nl +:+ Py.nl +:+ "**Existing Labels:** " +:+ labels_text issue_data
  +:+ Py.nl +:+ Py.nl +:+ "Provide your analysis as valid JSON only:".

(** *** parse_response *)

Definition fence : string := "```".

(** [line.strip().startswith(fence)] *)
Definition is_fence_line (line : string) : bool :=
  Py.startswith (Py.strip line) fence.

(** The loop over [enumerate(lines)] that finds the fenced span. *)
Fixpoint fence_scan (lines : list string) (i start_idx end_idx : nat) : nat * nat :=
  match lines with
  | [] => (start_idx, end_idx)
  | line :: rest =>
      if is_fence_line line
      then if (start_idx =? 0)%nat
           then fence_scan rest (S i) (i + 1)%nat end_idx
           else (start_idx, i)
      else fence_scan rest (S i) start_idx end_idx
  end.

(** The removal of a Markdown code block. *)
Definition unfence (response_text : string) : string :=
  if Py.startswith response_text fence
  then
    let lines := Py.split "010" response_text in
    let '(start_idx, end_idx) := fence_scan lines 0 0 (length lines) in
    Py.join Py.nl (Py.slice start_idx end_idx lines)
  else response_text.

Definition required_fields : list string :=
  ["summary"; "type"; "priority_score"; "suggested_labels"; "potential_impact"].

Definition valid_types : list string :=
  ["bug"; "feature_request"; "documentation"; "question"; "other"].

(** [s in l] for strings *)
Definition str_in (s : string) (l : list string) : bool := existsb (String.eqb s) l.

(** [sub in s] for strings *)
Fixpoint str_contains (s sub : string) : bool :=
  String.prefix sub s
  || match s with
     | EmptyString => false
     | String _ s' => str_contains s' sub
     end.

Definition type_name (data : json) : string :=
  match data with
  | JNull => "NoneType"
  | JBool _ => "bool"
  | JInt _ => "int"
  | JFloat _ => "float"
  | JStr _ => "str"
  | JArr _ => "list"
  | JObj _ => "dict"
  end.

(** [field in data] *)
Definition contains (data : json) (field : string) : result bool :=
  match data with
  | JObj d => Return (dict_has field d)
  | JArr l =>
      Return (existsb (fun x => match x with
                                | JStr s => String.eqb s field
                                | _ => false
                                end) l)
  | JStr s => Return (str_contains s field)
  | _ => Raise (Exn TypeError ("argument of type '" +:+ type_name data
                               +:+ "' is not iterable"))
  end.

(** [data[key]] for a string [key] *)
Definition subscript (data : json) (key : string) : result json :=
  match data with
  | JObj d =>
      match dict_get key d with
      | Some v => Return v
      | None => Raise (Exn KeyError ("'" +:+ key +:+ "'"))
      end
  | JArr _ => Raise (Exn TypeError "list indices must be integers or slices, not str")
  | JStr _ => Raise (Exn TypeError "string indices must be integers, not 'str'")
  | _ => Raise (Exn TypeError ("'" +:+ type_name data +:+ "' object is not subscriptable"))
  end.

(** [data[key] = v] *)
Definition assign (data : json) (key : string) (v : json) : result json :=
  match data with
  | JObj d => Return (JObj (dict_set key v d))
  | JArr _ => Raise (Exn TypeError "list indices must be integers or slices, not str")
  | _ => Raise (Exn TypeError ("'" +:+ type_name data
                               +:+ "' object does not support item assignment"))
  end.

(** The loop [for field in required_fields]. *)
Fixpoint check_required (fields : list string) (data : json) : result unit :=
  match fields with
  | [] => Return tt
  | field :: rest =>
      rbind (contains data field) (fun present =>
      if present then check_required rest data
      else Raise (Exn ValueError ("Missing required field: " +:+ field)))
  end.

(** [data["type"] not in valid_types] is false only for a valid string. *)
Definition is_valid_type (v : json) : bool :=
  match v with
  | JStr s => str_in s valid_types
  | _ => false
  end.

(** [isinstance(v, list)] *)
Definition is_list (v : json) : bool :=
  match v with JArr _ => true | _ => false end.

Section WithLibraries.
Context `{Libraries}.

(** [str(v)] *)
Definition py_str (v : json) : string :=
  match v with
  | JStr s => s
  | JNull => "None"
  | JBool true => "True"
  | JBool false => "False"
  | JInt n => Py.str_of_int n
  | _ => py_repr v
  end.

(** What follows [json.loads] inside the [try] block. *)
Definition validate (data : json) : result json :=
  rbind (check_required required_fields data) (fun _ =>
  rbind (subscript data "type") (fun t =>
  rbind (if is_valid_type t then Return data
         else assign data "type" (JStr "other")) (fun data =>
  rbind (subscript data "suggested_labels") (fun l =>
  if is_list l then Return data
  else assign data "suggested_labels" (JArr [JStr (py_str l)]))))).

Definition parse_response (response_text : string) : result json :=
  let response_text := unfence (Py.strip response_text) in
  match json_loads response_text with
  | Decoded data => validate data
  | DecodeError msg =>
      Raise (Exn ValueError ("Failed to parse LLM response as JSON: " +:+ msg
                             +:+ Py.nl +:+ "Response: "
                             +:+ Py.take 200 response_text))
  end.

(** *** analyze_issue *)

Definition max_retries : nat := 2.

(** [str(last_error)] *)
Definition str_last_error (last_error : option exn) : string :=
  match last_error with
  | Some e => exn_str e
  | None => "None"
  end.

Definition all_failed (last_error : option exn) : exn :=
  Exn ValueError ("LLM analysis failed after " +:+ Py.str_of_int (Z.of_nat max_retries)
                  +:+ " attempts: " +:+ str_last_error last_error).

(** The body of the inner [try]: one call of the model and the parsing of
    its answer. *)
Definition attempt_once (m : Model) (prompt : string) (attempt : nat) : IO json :=
  (do response_text <- ([EvGenerate prompt], generate_content m prompt attempt);
   ([], parse_response response_text))%io.

(** The loop [for attempt in range(max_retries)] and the [raise] after
    it; [attempts] is what is left of the range. *)
Fixpoint retry_loop (m : Model) (prompt : string) (attempts : list nat)
  (last_error : option exn) : IO json :=
  match attempts with
  | [] => raise (all_failed last_error)
  | attempt :: rest =>
      try_except (attempt_once m prompt attempt)
                 (fun e => retry_loop m prompt rest (Some e))
  end.

(** The fallback response of the outer [except]. *)
Definition fallback (e : exn) : json :=
  JObj [ ("summary", JStr ("Analysis unavailable: " +:+ exn_str e));
         ("type", JStr "other");
         ("priority_score", JStr "3 - Unable to determine automatically");
         ("suggested_labels", JArr [JStr "needs-triage"]);
         ("potential_impact", JStr "Unable to analyze due to LLM error") ].

Definition analyze_issue (m : Model) (issue_data : IssueRecord) : IO json :=
  try_except
    (let prompt := create_prompt issue_data in
     retry_loop m prompt (seq 0 max_retries) None)
    (fun e => ret (fallback e)).

End WithLibraries.

End LLMAnalyzer.

(** ** app.py *)

Module App.
Import GitHubClient.

(** The settings of [config.py] that the handler reads.  Clock readings
    and [CACHE_TTL] are integers, in the unit of the clock. *)
Class Config := {
  CACHE_ENABLED : bool;
  CACHE_TTL : Z }.

(** The defaults of [config.py]: [CACHE_ENABLED = "true"] and
    [CACHE_TTL = "3600"]. *)
Definition default_config : Config :=
  {| CACHE_ENABLED := true; CACHE_TTL := 3600 |}.

Record AnalyzeRequest := {
  repo_url : string;
  issue_number : Z }.

Record AnalysisResponse := {
  summary : string;
  type_ : string;
  priority_score : string;
  suggested_labels : list string;
  potential_impact : string;
  metadata : dict }.

(** [cache: Dict[str, tuple]], that is [{cache_key: (data, timestamp)}] *)
Abbreviation cache_t := (gmap string (dict * Z)).

(** What one request sees of the outside: the hosting API, the language
    model, and the readings of [time.time()] in [get_from_cache] and in
    [set_cache]. *)
Record World := {
  session : Session;
  model : LLMAnalyzer.Model;
  time_lookup : Z;
  time_store : Z }.

(** What the client receives. *)
Inductive http_response :=
| Ok200 (response : AnalysisResponse)
| HTTPException (status_code : Z) (detail : string).

(** A step of the handler: it may call the network, raise, and change the
    cache. *)
Definition Handler (A : Type) : Type := cache_t -> IO A * cache_t.

Definition hbind {A B : Type} (m : Handler A) (f : A -> Handler B) : Handler B :=
  fun cache =>
    match m cache with
    | ((t, Return a), cache') =>
        let '((t', r), cache'') := f a cache' in ((t ++ t', r), cache'')
    | ((t, Raise e), cache') => ((t, Raise e), cache')
    end.

Definition lift {A : Type} (m : IO A) : Handler A := fun cache => (m, cache).

Declare Scope handler_scope.
Delimit Scope handler_scope with handler.
Notation "'do' x <- m ; k" := (hbind m (fun x => k))
  (at level 10, x name, m at level 100, k at level 200) : handler_scope.

Definition get_cache_key (repo_url : string) (issue_number : Z) : string :=
  repo_url +:+ "::" +:+ Py.str_of_int issue_number.

Section WithConfig.
Context `{Config} `{Libraries}.

Definition get_from_cache (now : Z) (cache_key : string) : Handler (option dict) :=
  fun cache =>
    if negb CACHE_ENABLED then (ret None, cache)
    else
      match cache !! cache_key with
      | Some (data, timestamp) =>
          if now - timestamp <? CACHE_TTL
          then (ret (Some data), cache)
          else (ret None, delete cache_key cache)
      | None => (ret None, cache)
      end.

Definition set_cache (now : Z) (cache_key : string) (data : dict) : Handler unit :=
  fun cache =>
    if CACHE_ENABLED
    then (ret tt, <[cache_key := (data, now)]> cache)
    else (ret tt, cache).

(** [clear_cache]: [cache.clear()] *)
Definition clear_cache : Handler string :=
  fun _ => (ret "Cache cleared successfully", ∅).

(** A [str] field of the response model. *)
Definition str_field (d : dict) (k : string) : option string :=
  match dict_get k d with
  | Some v => validate_str v
  | None => None
  end.

(** The [suggested_labels: list[str]] field. *)
Fixpoint str_list (l : list json) : option (list string) :=
  match l with
  | [] => Some []
  | v :: l' =>
      match validate_str v, str_list l' with
      | Some s, Some ss => Some (s :: ss)
      | _, _ => None
      end
  end.

Definition labels_field (d : dict) : option (list string) :=
  match dict_get "suggested_labels" d with
  | Some (JArr l) => str_list l
  | _ => None
  end.

(** The [metadata: Dict = Field(default_factory=dict)] field. *)
Definition metadata_field (d : dict) : option dict :=
  match dict_get "metadata" d with
  | Some (JObj m) => Some m
  | Some _ => None
  | None => Some []
  end.

(** The model [AnalysisResponse] built from the entries of [d]: the
    response, or [ValidationError]. *)
Definition make_response (d : dict) : result AnalysisResponse :=
  match str_field d "summary", str_field d "type", str_field d "priority_score",
        labels_field d, str_field d "potential_impact", metadata_field d with
  | Some s, Some t, Some p, Some l, Some i, Some m =>
      Return {| summary := s; type_ := t; priority_score := p;
                suggested_labels := l; potential_impact := i; metadata := m |}
  | _, _, _, _, _, _ => Raise (Exn ValidationError (validation_error d))
  end.

(** The [metadata] entry of [response_data]. *)
Definition metadata_of (issue_data : IssueRecord) : dict :=
  [ ("issue_url", JStr (default "" (html_url issue_data)));
    ("issue_state", JStr (default "" (state issue_data)));
    ("comments_count", JInt (default 0 (comments_count issue_data)));
    ("created_at", JStr (default "" (issue_created_at issue_data)));
    ("cached", JBool false) ].

(** [{**analysis, "metadata": {...}}] *)
Definition response_data_of (analysis : json) (issue_data : IssueRecord)
  : result dict :=
  match analysis with
  | JObj a => Return (dict_set "metadata" (JObj (metadata_of issue_data)) a)
  | _ => Raise (Exn TypeError "argument after ** must be a mapping")
  end.

(** The [try] block of the handler. *)
Definition analyze_issue_body (w : World) (request : AnalyzeRequest)
  : Handler AnalysisResponse :=
  (let cache_key := get_cache_key (repo_url request) (issue_number request) in
   do cached_data <- get_from_cache (time_lookup w) cache_key;
   match cached_data with
   | Some (entry :: rest) => lift ([], make_response (entry :: rest))
   | _ =>
       do issue_data <- lift (get_issue_data (session w) (repo_url request)
                                (issue_number request));
       do analysis <- lift (LLMAnalyzer.analyze_issue (model w) issue_data);
       do response_data <- lift ([], response_data_of analysis issue_data);
       do _ <- set_cache (time_store w) cache_key response_data;
       lift ([], make_response response_data)
   end)%handler.

(** The two [except] clauses. *)
Definition http_exception (e : exn) : http_response :=
  if is_ValueError e
  then HTTPException 400 (exn_str e)
  else HTTPException 500 ("Internal server error: " +:+ exn_str e).

(** [POST /api/analyze]: the calls made, the response and the cache
    afterwards. *)
Definition analyze_issue (w : World) (request : AnalyzeRequest) (cache : cache_t)
  : list event * http_response * cache_t :=
  match analyze_issue_body w request cache with
  | ((t, Return response), cache') => (t, Ok200 response, cache')
  | ((t, Raise e), cache') => (t, http_exception e, cache')
  end.

(** *** The server

    The handlers are coroutines that never suspend, so requests are served
    one after another.  The cache starts empty ([cache = {}]). *)

Inductive request :=
| Analyze (w : World) (r : AnalyzeRequest)   (* POST /api/analyze *)
| ClearCache.                                (* DELETE /api/cache *)

Inductive reply :=
| AnalyzeReply (calls : list event) (response : http_response)
| ClearReply (message : string).

Definition serve (rq : request) (cache : cache_t) : reply * cache_t :=
  match rq with
  | Analyze w r =>
      let '(t, response, cache') := analyze_issue w r cache in
      (AnalyzeReply t response, cache')
  | ClearCache =>
      match clear_cache cache with
      | ((_, Return message), cache') => (ClearReply message, cache')
      | ((_, Raise e), cache') => (ClearReply (exn_str e), cache')
      end
  end.

(** The replies to a sequence of requests, and the cache after them. *)
Fixpoint run (rqs : list request) (cache : cache_t) : list reply * cache_t :=
  match rqs with
  | [] => ([], cache)
  | rq :: rest =>
      let '(rp, cache') := serve rq cache in
      let '(rps, cache'') := run rest cache' in
      (rp :: rps, cache'')
  end.

End WithConfig.

End App.

(** ** app.py: the request model *)

Module AppRequest.
Import App.

(** [validate_repo_url], the validator of the field [repo_url] *)
Definition validate_repo_url (v : string) : result string :=
  if negb (LLMAnalyzer.str_contains v "github.com")
  then Raise (Exn ValueError "Must be a valid GitHub repository URL")
  else Return (Py.strip v).

(** [AnalyzeRequest(repo_url=v, issue_number=n)] for a [str] and an
    [int]: the request, or [None] when the validator of [repo_url] raises
    or the constraint [gt=0] of [issue_number] does not hold (the model
    raises [ValidationError] then, and the handler is not called). *)
Definition new_request (v : string) (n : Z) : option AnalyzeRequest :=
  match validate_repo_url v with
  | Return u =>
      if 0 <? n then Some {| repo_url := u; issue_number := n |} else None
  | Raise _ => None
  end.

End AppRequest.

(** ** config.py: the cache switch *)

Module ConfigPy.

(** [c.lower()] for one character (code points below 256): the letters
    [A] to [Z], and the capital letters of Latin-1, which lie from 192 to
    222 with the multiplication sign (215) among them. *)
Definition lower_char (c : ascii) : ascii :=
  let n := nat_of_ascii c in
  if (((65 <=? n) && (n <=? 90))
      || ((192 <=? n) && (n <=? 222) && negb (n =? 215)))%nat
  then ascii_of_nat (n + 32)
  else c.

(** [s.lower()] *)
Fixpoint lower (s : string) : string :=
  match s with
  | EmptyString => EmptyString
  | String c s' => String (lower_char c) (lower s')
  end.

(** [os.getenv(name, default)], the environment being a map from names to
    values *)
Definition getenv (environ : string -> option string) (name default : string)
  : string :=
  match environ name with
  | Some value => value
  | None => default
  end.

(** [CACHE_ENABLED = os.getenv("CACHE_ENABLED", "true").lower() == "true"] *)
Definition CACHE_ENABLED (environ : string -> option string) : bool :=
  String.eqb (lower (getenv environ "CACHE_ENABLED" "true")) "true".

End ConfigPy.

(** ** A decoder and a run-time for the examples

    The properties of Part III hold for any [Libraries].  To run the code
    on concrete inputs this section provides one: a decoder for the
    fragment of JSON without fractions, exponents and [\u] escapes (texts
    outside the fragment are rejected), [repr] for values without floats
    and strings without quotes, and the strict validation of [str]. *)

Module Fragment.

Definition is_json_space (c : ascii) : bool :=
  let n := nat_of_ascii c in ((n =? 32) || (n =? 9) || (n =? 10) || (n =? 13))%nat.

Definition is_digit (c : ascii) : bool :=
  let n := nat_of_ascii c in ((48 <=? n) && (n <=? 57))%nat.

Definition digit_value (c : ascii) : Z := Z.of_nat (nat_of_ascii c) - 48.

Fixpoint read_digits (acc : Z) (s : string) : Z * string :=
  match s with
  | String c s' => if is_digit c then read_digits (10 * acc + digit_value c) s' else (acc, s)
  | EmptyString => (acc, s)
  end.

(** An unsigned integer: a single [0], or digits that do not start with
    [0].  A fraction or an exponent after it is outside the fragment. *)
Definition read_nat (s : string) : option (Z * string) :=
  match s with
  | String c s' =>
      if is_digit c then
        let '(n, rest) := if Ascii.eqb c "0" then (0, s') else read_digits 0 s in
        match rest with
        | String d _ =>
            if Ascii.eqb d "." || Ascii.eqb d "e" || Ascii.eqb d "E"
            then None else Some (n, rest)
        | EmptyString => Some (n, rest)
        end
      else None
  | EmptyString => None
  end.

(** The characters of a string, after its opening quote. *)
Fixpoint read_string (s : string) : option (string * string) :=
  match s with
  | EmptyString => None
  | String c s' =>
      if Ascii.eqb c "034" then Some (EmptyString, s')
      else if Ascii.eqb c "\" then
        match s' with
        | String e s'' =>
            let unescaped :=
              if Ascii.eqb e "n" then Some "010"%char
              else if Ascii.eqb e "t" then Some "009"%char
              else if Ascii.eqb e "r" then Some "013"%char
              else if Ascii.eqb e "b" then Some "008"%char
              else if Ascii.eqb e "f" then Some "012"%char
              else if Ascii.eqb e "034" || Ascii.eqb e "\" || Ascii.eqb e "/"
                   then Some e
              else None in
            match unescaped, read_string s'' with
            | Some u, Some (t, rest) => Some (String u t, rest)
            | _, _ => None
            end
        | EmptyString => None
        end
      else if (nat_of_ascii c <? 32)%nat then None
      else match read_string s' with
           | Some (t, rest) => Some (String c t, rest)
           | None => None
           end
  end.

Definition skip_ws (s : string) : string := Py.lstrip_by is_json_space s.

(** A value at the start of [s], and the text after it. *)
Fixpoint value (fuel : nat) (s : string) : option (json * string) :=
  match fuel with
  | O => None
  | S fuel' =>
      match s with
      | String "{" s' =>
          match skip_ws s' with
          | String "}" rest => Some (JObj [], rest)
          | s'' => match members fuel' [] s'' with
                   | Some (d, rest) => Some (JObj d, rest)
                   | None => None
                   end
          end
      | String "[" s' =>
          match skip_ws s' with
          | String "]" rest => Some (JArr [], rest)
          | s'' => match elements fuel' s'' with
                   | Some (l, rest) => Some (JArr l, rest)
                   | None => None
                   end
          end
      | String "034" s' =>
          match read_string s' with
          | Some (t, rest) => Some (JStr t, rest)
          | None => None
          end
      | String "-" s' =>
          match read_nat s' with
          | Some (n, rest) => Some (JInt (- n), rest)
          | None => None
          end
      | _ =>
          if String.prefix "true" s then Some (JBool true, Py.drop 4 s)
          else if String.prefix "false" s then Some (JBool false, Py.drop 5 s)
          else if String.prefix "null" s then Some (JNull, Py.drop 4 s)
          else match read_nat s with
               | Some (n, rest) => Some (JInt n, rest)
               | None => None
               end
      end
  end

(** The members of an object, after the opening brace: a repeated key
    keeps its place and takes the last value. *)
with members (fuel : nat) (acc : dict) (s : string) : option (dict * string) :=
  match fuel with
  | O => None
  | S fuel' =>
      match s with
      | String "034" s' =>
          match read_string s' with
          | Some (k, rest) =>
              match skip_ws rest with
              | String ":" rest' =>
                  match value fuel' (skip_ws rest') with
                  | Some (v, rest'') =>
                      let acc' := dict_set k v acc in
                      match skip_ws rest'' with
                      | String "," more => members fuel' acc' (skip_ws more)
                      | String "}" after => Some (acc', after)
                      | _ => None
                      end
                  | None => None
                  end
              | _ => None
              end
          | None => None
          end
      | _ => None
      end
  end

(** The elements of an array, after the opening bracket. *)
with elements (fuel : nat) (s : string) : option (list json * string) :=
  match fuel with
  | O => None
  | S fuel' =>
      match value fuel' s with
      | Some (v, rest) =>
          match skip_ws rest with
          | String "," more =>
              match elements fuel' (skip_ws more) with
              | Some (l, after) => Some (v :: l, after)
              | None => None
              end
          | String "]" after => Some ([v], after)
          | _ => None
          end
      | None => None
      end
  end.

Definition loads (s : string) : decoded :=
  match value (S (String.length s)) (skip_ws s) with
  | Some (v, rest) =>
      match skip_ws rest with
      | EmptyString => Decoded v
      | _ => DecodeError "Extra data"
      end
  | None => DecodeError "Expecting value"
  end.

(** [repr] of a value without floats whose strings need no escape. *)
Fixpoint repr (v : json) : string :=
  match v with
  | JNull => "None"
  | JBool true => "True"
  | JBool false => "False"
  | JInt n => Py.str_of_int n
  | JFloat _ => "nan"
  | JStr s => "'" +:+ s +:+ "'"
  | JArr l => "[" +:+ Py.join ", " (map repr l) +:+ "]"
  | JObj d =>
      "{" +:+ Py.join ", " (map (fun kv => "'" +:+ fst kv +:+ "': " +:+ repr (snd kv)) d)
      +:+ "}"
  end.

Definition strict_str (v : json) : option string :=
  match v with JStr s => Some s | _ => None end.

Definition libraries : Libraries :=
  {| json_loads := loads;
     py_repr := repr;
     validate_str := strict_str;
     validation_error := fun _ => "validation error for AnalysisResponse" |}.

End Fragment.

(** ** A scenario: one issue, and the ways the outside can behave *)

Module Scenario.
Import GitHubClient.

(** [s] between double quotes *)
Definition quoted (s : string) : string := Py.dq +:+ s +:+ Py.dq.

(** One member of a JSON object: a quoted key and a quoted string. *)
Definition member (k v : string) : string := quoted k +:+ ": " +:+ quoted v.

Definition issue : RawIssue :=
  {| ri_title := Some "Found a bug";
     ri_body := Some "It crashes when I click submit.";
     ri_state := Some "open";
     ri_labels := Some [ {| label_name := Some "bug" |} ];
     ri_comments := Some 1;
     ri_created_at := Some "2011-04-22T13:33:48Z";
     ri_html_url := Some "https://github.com/octocat/Hello-World/issues/1347" |}.

Definition comment : RawComment :=
  {| rc_user := UserObject (Some "octocat");
     rc_body := Some "Me too";
     rc_created_at := Some "2011-04-14T16:00:49Z" |}.

(** The record that [get_issue_data] builds from them. *)
Definition record : IssueRecord :=
  {| title := Some "Found a bug";
     issue_body := Some "It crashes when I click submit.";
     state := Some "open";
     labels := Some ["bug"];
     comments_count := Some 1;
     comments := Some [ {| author := Some "octocat"; body := Some "Me too";
                           created_at := Some "2011-04-14T16:00:49Z" |} ];
     issue_created_at := Some "2011-04-22T13:33:48Z";
     html_url := Some "https://github.com/octocat/Hello-World/issues/1347" |}.

(** The hosting API answers both requests. *)
Definition healthy : Session :=
  {| get_issue := fun _ => Fetched issue;
     get_comments := fun _ => Fetched [comment] |}.

(** The comments request times out. *)
Definition no_comments : Session :=
  {| get_issue := fun _ => Fetched issue;
     get_comments := fun _ => Failed (Exn Timeout "Read timed out. (read timeout=10)") |}.

(** The hosting API answers the issue request with status 500. *)
Definition server_error : Session :=
  {| get_issue := fun _ =>
       HttpStatusError 500 "500 Server Error: Internal Server Error for url";
     get_comments := fun _ => Fetched [] |}.

(** The hosting API cannot be reached. *)
Definition unreachable : Session :=
  {| get_issue := fun _ => Failed (Exn ConnectionError "Max retries exceeded");
     get_comments := fun _ => Failed (Exn ConnectionError "Max retries exceeded") |}.

(** An answer of the model: a fenced block whose object has a [type]
    that is not valid and a [suggested_labels] that is not a list. *)
Definition answer_lines : list string :=
  [ "{" +:+ member "summary" "Crash on submit" +:+ ",";
    " " +:+ member "type" "typo" +:+ ",";
    " " +:+ member "priority_score" "4 - High: blocks the form" +:+ ",";
    " " +:+ member "suggested_labels" "bug" +:+ ",";
    " " +:+ member "potential_impact" "Users cannot submit the form" +:+ "}" ].

Definition answer : string :=
  Py.join Py.nl ("```json" :: answer_lines ++ ["```"]) +:+ Py.nl.

(** The same object without [potential_impact], and not fenced. *)
Definition incomplete_answer : string :=
  "{" +:+ member "summary" "Crash on submit" +:+ ", "
  +:+ member "type" "bug" +:+ ", "
  +:+ member "priority_score" "4 - High" +:+ ", "
  +:+ quoted "suggested_labels" +:+ ": [" +:+ quoted "bug" +:+ "]}".

(** The model answers at once. *)
Definition helpful : LLMAnalyzer.Model :=
  {| LLMAnalyzer.generate_content := fun _ _ => Return answer |}.

(** The model raises on the first attempt and answers prose on the
    second. *)
Definition failing : LLMAnalyzer.Model :=
  {| LLMAnalyzer.generate_content := fun _ attempt =>
       match attempt with
       | O => Raise (Exn OtherException "503 The model is overloaded")
       | _ => Return "I cannot analyze this issue."
       end |}.

Definition request : App.AnalyzeRequest :=
  {| App.repo_url := "https://github.com/octocat/Hello-World";
     App.issue_number := 1347 |}.

(** A request about another issue of the same repository. *)
Definition other_request : App.AnalyzeRequest :=
  {| App.repo_url := "https://github.com/octocat/Hello-World";
     App.issue_number := 1348 |}.

(** The first request, at time 1000 (stored at 1002), and a second one
    an hour less one second later, when nothing outside answers any more. *)
Definition first_world : App.World :=
  {| App.session := healthy; App.model := helpful;
     App.time_lookup := 1000; App.time_store := 1002 |}.

Definition second_world : App.World :=
  {| App.session := unreachable; App.model := failing;
     App.time_lookup := 4599; App.time_store := 4600 |}.

(** What the first request is answered, the two coercions made. *)
Definition expected_response : App.AnalysisResponse :=
  {| App.summary := "Crash on submit";
     App.type_ := "other";
     App.priority_score := "4 - High: blocks the form";
     App.suggested_labels := ["bug"];
     App.potential_impact := "Users cannot submit the form";
     App.metadata :=
       [ ("issue_url", JStr "https://github.com/octocat/Hello-World/issues/1347");
         ("issue_state", JStr "open");
         ("comments_count", JInt 1);
         ("created_at", JStr "2011-04-22T13:33:48Z");
         ("cached", JBool false) ] |}.

Definition world_of (s : Session) : App.World :=
  {| App.session := s; App.model := helpful;
     App.time_lookup := 1000; App.time_store := 1002 |}.

End Scenario.

(** ** More of the scenario *)

Module MoreScenario.
Import GitHubClient Scenario.

(** Caching switched off ([CACHE_ENABLED=false]). *)
Definition caching_off : App.Config :=
  {| App.CACHE_ENABLED := false; App.CACHE_TTL := 3600 |}.

(** An answer whose [summary] is a number, not a string. *)
Definition numeric_summary_answer : string :=
  "{" +:+ quoted "summary" +:+ ": 5, "
  +:+ member "type" "bug" +:+ ", "
  +:+ member "priority_score" "4 - High" +:+ ", "
  +:+ quoted "suggested_labels" +:+ ": [" +:+ quoted "bug" +:+ "], "
  +:+ member "potential_impact" "Users cannot submit the form" +:+ "}".

Definition careless : LLMAnalyzer.Model :=
  {| LLMAnalyzer.generate_content := fun _ _ => Return numeric_summary_answer |}.

Definition careless_world : App.World :=
  {| App.session := healthy; App.model := careless;
     App.time_lookup := 1000; App.time_store := 1002 |}.

(** The model fails once, then answers. *)
Definition slow_starter : LLMAnalyzer.Model :=
  {| LLMAnalyzer.generate_content := fun _ attempt =>
       match attempt with
       | O => Raise (Exn OtherException "503 The model is overloaded")
       | _ => Return answer
       end |}.

(** An issue with a label that has no name, and a comment whose user is
    [null]. *)
Definition nameless_label_issue : RawIssue :=
  {| ri_title := Some "Found a bug";
     ri_body := None;
     ri_state := Some "open";
     ri_labels := Some [ {| label_name := Some "bug" |}; {| label_name := None |} ];
     ri_comments := Some 0;
     ri_created_at := Some "2011-04-22T13:33:48Z";
     ri_html_url := Some "https://github.com/octocat/Hello-World/issues/1347" |}.

Definition ghost_comment : RawComment :=
  {| rc_user := UserNull; rc_body := Some "Me too"; rc_created_at := None |}.

Definition anonymous_comment : RawComment :=
  {| rc_user := UserAbsent; rc_body := None; rc_created_at := None |}.

(** The hosting API answers the issue request with status 404. *)
Definition missing_issue : Session :=
  {| get_issue := fun _ => HttpStatusError 404 "404 Client Error: Not Found for url";
     get_comments := fun _ => Fetched [] |}.

(** The hosting API answers, the model never does. *)
Definition unhelpful_world : App.World :=
  {| App.session := healthy; App.model := failing;
     App.time_lookup := 1000; App.time_store := 1002 |}.

(** The comments request raises something [requests] does not know. *)
Definition broken_comments : Session :=
  {| get_issue := fun _ => Fetched issue;
     get_comments := fun _ => Failed (Exn OtherException "recursion depth exceeded") |}.

End MoreScenario.

(* ===================================================================== *)
(** * Part II: the vocabulary of the properties *)
(* ===================================================================== *)

Section Vocabulary.
Import GitHubClient LLMAnalyzer App.
Context `{Config} `{Libraries}.

(** ** Repository URLs *)

(** No character of [s] is a slash. *)
Fixpoint no_slash (s : string) : bool :=
  match s with
  | EmptyString => true
  | String c s' => negb (Ascii.eqb c "/") && no_slash s'
  end.

(** A path segment: one or more characters other than the slash, which is
    what [[^/]+] stands for. *)
Definition segment (w : string) : Prop := w <> "" /\ no_slash w = true.

(** [matches p s g]: a prefix of [s] is in the language of the sequence
    [p], with the groups [g].  This says what a match is, not which one
    the engine picks. *)
Fixpoint matches (p : list Re.item) (s : string) (g : list string) : Prop :=
  match p with
  | [] => g = []
  | Re.Lit l :: p' => exists s', s = l +:+ s' /\ matches p' s' g
  | Re.OptLit l :: p' => (exists s', s = l +:+ s' /\ matches p' s' g) \/ matches p' s g
  | Re.Eos :: p' => Re.at_end s = true /\ matches p' s g
  | Re.Group _ :: p' =>
      exists w s' g', segment w /\ s = w +:+ s' /\ g = w :: g' /\ matches p' s' g'
  end.

(** [p] matches somewhere in [url], with the groups [g]. *)
Definition found (p : list Re.item) (url : string) (g : list string) : Prop :=
  exists pre s, url = pre +:+ s /\ matches p s g.

(** The strict form: [github.com/], an owner, a slash and a name at the
    end of the URL, where an optional [.git], an optional slash and an
    optional final line feed may follow the name. *)
Definition strict_form (url owner name : string) : Prop :=
  exists pre git slash eol,
    url = pre +:+ "github.com/" +:+ owner +:+ "/" +:+ name +:+ git +:+ slash +:+ eol
    /\ segment owner /\ segment name
    /\ (git = "" \/ git = ".git") /\ (slash = "" \/ slash = "/")
    /\ (eol = "" \/ eol = Py.nl).

(** The loose form: [github.com/], an owner, a slash and a name anywhere
    in the URL. *)
Definition loose_form (url owner name : string) : Prop :=
  exists pre rest,
    url = pre +:+ "github.com/" +:+ owner +:+ "/" +:+ name +:+ rest
    /\ segment owner /\ segment name.

(** ** Retrieval *)

(** The comments request failed in one of the ways [requests] reports: an
    error status, a timeout, a connection failure, or another
    [RequestException]. *)
Definition comments_fetch_failed (o : get_outcome (list RawComment)) : Prop :=
  match o with
  | Fetched _ => False
  | HttpStatusError _ _ => True
  | Failed e => is_RequestException e = true
  end.

(** The same session with an empty comment thread everywhere. *)
Definition without_comments (s : Session) : Session :=
  {| get_issue := get_issue s; get_comments := fun _ => Fetched [] |}.

(** ** The prompt *)

(** All that the prompt retains of a comment. *)
Definition comment_view (c : CommentRecord) : string * string :=
  (default "unknown" (author c), prompt_comment_body (default "" (body c))).

(** All that the prompt retains of an issue record: the title, the body
    as shown, the first ten comments and the labels. *)
Definition prompt_view (r : IssueRecord)
  : string * string * list (string * string) * list string :=
  (default "No title" (title r),
   prompt_body (default "" (issue_body r)),
   map comment_view (firstn 10 (default [] (comments r))),
   default [] (labels r)).

(** The record [r] with another list of comments. *)
Definition with_comments (r : IssueRecord) (cs : list CommentRecord) : IssueRecord :=
  {| title := title r; issue_body := issue_body r; state := state r;
     labels := labels r; comments_count := comments_count r;
     comments := Some cs; issue_created_at := issue_created_at r;
     html_url := html_url r |}.

(** ** The answer of the model *)

(** A line: a string with no line feed in it. *)
Fixpoint no_nl (s : string) : bool :=
  match s with
  | EmptyString => true
  | String c s' => negb (Ascii.eqb c "010") && no_nl s'
  end.

(** The first required field that [d] lacks, if any. *)
Definition first_missing (d : dict) : option string :=
  find (fun f => negb (dict_has f d)) required_fields.

(** The dictionary after the two coercions. *)
Definition coerced (d : dict) (t l : json) : dict :=
  let d1 := if is_valid_type t then d else dict_set "type" (JStr "other") d in
  if is_list l then d1 else dict_set "suggested_labels" (JArr [JStr (py_str l)]) d1.

(** What one attempt comes to: the answer of the model, parsed. *)
Definition attempt_result (m : Model) (prompt : string) (attempt : nat) : result json :=
  rbind (generate_content m prompt attempt) parse_response.

(** [isinstance(v, str)] *)
Definition is_str (v : json) : bool :=
  match v with JStr _ => true | _ => false end.

(** The schema of an analysis: the five fields, [type] one of the five
    valid strings, [suggested_labels] a list of strings, the three others
    strings. *)
Definition conforms_to_schema (d : dict) : bool :=
  match dict_get "summary" d, dict_get "type" d, dict_get "priority_score" d,
        dict_get "suggested_labels" d, dict_get "potential_impact" d with
  | Some (JStr _), Some (JStr t), Some (JStr _), Some (JArr l), Some (JStr _) =>
      str_in t valid_types && forallb is_str l
  | _, _, _, _, _ => false
  end.

(** ** The handler and the server *)

(** The reply of the handler to the outcome of its [try] block. *)
Definition respond (r : result AnalysisResponse) : http_response :=
  match r with
  | Return response => Ok200 response
  | Raise e => http_exception e
  end.

(** The three ways a request is served: from the cache; by a retrieval
    that fails; by a retrieval and an analysis, whose result is stored. *)
Inductive served (w : World) (request : AnalyzeRequest) (cache : cache_t)
  : list event * http_response * cache_t -> Prop :=
| served_hit data ts :
    CACHE_ENABLED = true ->
    cache !! get_cache_key (repo_url request) (issue_number request) = Some (data, ts) ->
    time_lookup w - ts < CACHE_TTL ->
    data <> [] ->
    served w request cache ([], respond (make_response data), cache)
| served_failed t e cache' :
    get_issue_data (session w) (repo_url request) (issue_number request)
    = (t, Raise e) ->
    (get_from_cache (time_lookup w)
       (get_cache_key (repo_url request) (issue_number request)) cache).2 = cache' ->
    served w request cache (t, http_exception e, cache')
| served_computed t1 t2 issue_data a cache' :
    get_issue_data (session w) (repo_url request) (issue_number request)
    = (t1, Return issue_data) ->
    LLMAnalyzer.analyze_issue (model w) issue_data = (t2, Return (JObj a)) ->
    (get_from_cache (time_lookup w)
       (get_cache_key (repo_url request) (issue_number request)) cache).2 = cache' ->
    served w request cache
      (t1 ++ t2,
       respond (make_response (dict_set "metadata" (JObj (metadata_of issue_data)) a)),
       if CACHE_ENABLED
       then <[get_cache_key (repo_url request) (issue_number request) :=
                (dict_set "metadata" (JObj (metadata_of issue_data)) a, time_store w)]>
              cache'
       else cache').

(** The entry was stored with the flag [cached] set to [False]. *)
Definition entry_not_flagged (data : dict) : Prop :=
  exists m, dict_get "metadata" data = Some (JObj m)
            /\ dict_get "cached" m = Some (JBool false).

Definition cache_not_flagged (cache : cache_t) : Prop :=
  forall k data ts, cache !! k = Some (data, ts) -> entry_not_flagged data.

(** The response does not say that it comes from the cache. *)
Definition not_flagged (rp : reply) : Prop :=
  match rp with
  | AnalyzeReply _ (Ok200 response) =>
      dict_get "cached" (metadata response) = Some (JBool false)
  | _ => True
  end.

(** A request that leaves the entry under [key] alone: an analysis with
    another key. *)
Definition other_key (key : string) (rq : request) : Prop :=
  match rq with
  | Analyze _ r => get_cache_key (repo_url r) (issue_number r) <> key
  | ClearCache => False
  end.

End Vocabulary.

(** ** Further vocabulary *)

Section MoreVocabulary.
Import GitHubClient LLMAnalyzer App.
Context `{Config} `{Libraries}.

(** No character of [s] is a colon. *)
Fixpoint no_colon (s : string) : bool :=
  match s with
  | EmptyString => true
  | String c s' => negb (Ascii.eqb c ":") && no_colon s'
  end.

(** What every analysis has, parsed or fallback: the five required
    fields, a [type] that is one of the five valid strings, and a
    [suggested_labels] that is a list. *)
Definition well_shaped (d : dict) : bool :=
  forallb (fun f => dict_has f d) required_fields
  && match dict_get "type" d with Some t => is_valid_type t | None => false end
  && match dict_get "suggested_labels" d with Some l => is_list l | None => false end.

(** A raw comment, normalized: the author defaults to ["unknown"], the
    body and the date to the empty string. *)
Definition normalized_comment (c : RawComment) : CommentRecord :=
  {| author := Some match rc_user c with
                    | UserObject (Some login) => login
                    | _ => "unknown"
                    end;
     body := Some (default "" (rc_body c));
     created_at := Some (default "" (rc_created_at c)) |}.

(** An issue and its comments, normalized: labels and comments in the
    order of the payloads, one for one. *)
Definition normalized (issue : RawIssue) (cs : list RawComment) : IssueRecord :=
  {| title := Some (default "" (ri_title issue));
     issue_body := Some (default "" (ri_body issue));
     state := Some (default "" (ri_state issue));
     labels := Some (map (fun l => default "" (label_name l))
                         (default [] (ri_labels issue)));
     comments_count := Some (default 0 (ri_comments issue));
     comments := Some (map normalized_comment cs);
     issue_created_at := Some (default "" (ri_created_at issue));
     html_url := Some (default "" (ri_html_url issue)) |}.

(** The response that carries the fallback analysis for the error [e]. *)
Definition fallback_response (e : exn) (issue_data : IssueRecord) : AnalysisResponse :=
  {| summary := "Analysis unavailable: " +:+ exn_str e;
     type_ := "other";
     priority_score := "3 - Unable to determine automatically";
     suggested_labels := ["needs-triage"];
     potential_impact := "Unable to analyze due to LLM error";
     metadata := metadata_of issue_data |}.

(** The calls of the retriever for a parsed reference. *)
Definition issue_call (owner repo : string) (n : Z) : event :=
  EvGetIssue (issue_url owner repo n).

Definition comments_call (owner repo : string) (n : Z) : event :=
  EvGetComments (comments_url owner repo n).

End MoreVocabulary.

(* ===================================================================== *)
(** * Part III: the properties *)
(* ===================================================================== *)

(** ** Strings *)

Lemma append_nil_l (s : string) : "" +:+ s = s.
Proof. reflexivity. Qed.

Lemma append_cons (c : ascii) (a b : string) :
  String c a +:+ b = String c (a +:+ b).
Proof. reflexivity. Qed.

Lemma append_nil_r (s : string) : s +:+ "" = s.
Proof.
  induction s as [|c s IH]; [reflexivity |].
  now rewrite append_cons, IH.
Qed.

Lemma append_assoc (a b c : string) : (a +:+ b) +:+ c = a +:+ (b +:+ c).
Proof.
  induction a as [|x a IH]; [reflexivity |].
  now rewrite !append_cons, IH.
Qed.

Lemma length_append (a b : string) :
  String.length (a +:+ b) = (String.length a + String.length b)%nat.
Proof.
  induction a as [|x a IH]; [reflexivity |].
  rewrite append_cons; simpl; now rewrite IH.
Qed.

Lemma append_inv_tail (a b t : string) : a +:+ t = b +:+ t -> a = b.
Proof.
  revert b; induction a as [|x a IH]; intros [|y b] E.
  - reflexivity.
  - apply (f_equal String.length) in E.
    rewrite !length_append in E; simpl in E; lia.
  - apply (f_equal String.length) in E.
    rewrite !length_append in E; simpl in E; lia.
  - rewrite !append_cons in E. injection E as -> E. f_equal. now apply IH.
Qed.

Example strip_ex : Py.strip (" " +:+ Py.nl +:+ "ab c " +:+ Py.nl) = "ab c".
Proof. reflexivity. Qed.

Example replace_ex : Py.replace ".git" "" "a.git.g.gitit" = "a.git".
Proof. reflexivity. Qed.

Example split_ex :
  Py.split "010"%char ("a" +:+ Py.nl +:+ Py.nl +:+ "b") = ["a"; ""; "b"].
Proof. reflexivity. Qed.

(** ** The code on the scenario *)

Section ScenarioRuns.
Import GitHubClient LLMAnalyzer Scenario.
#[local] Existing Instance Fragment.libraries.
#[local] Existing Instance App.default_config.

Example parse_trailing_slash :
  parse_repo_url "https://github.com/octocat/Hello-World/"
  = Return ("octocat", "Hello-World").
Proof. reflexivity. Qed.

Example parse_issue_page :
  parse_repo_url "https://github.com/octocat/Hello-World/issues/12"
  = Return ("octocat", "Hello-World").
Proof. reflexivity. Qed.

(** Every [.git] goes, not only a suffix. *)
Example parse_inner_git :
  parse_repo_url "github.com/a/my.github.io/" = Return ("a", "myhub.io").
Proof. reflexivity. Qed.

Example loads_answer :
  json_loads (Py.join Py.nl answer_lines)
  = Decoded (JObj [ ("summary", JStr "Crash on submit");
                    ("type", JStr "typo");
                    ("priority_score", JStr "4 - High: blocks the form");
                    ("suggested_labels", JStr "bug");
                    ("potential_impact", JStr "Users cannot submit the form") ]).
Proof. vm_compute. reflexivity. Qed.

Example parse_response_answer :
  parse_response answer
  = Return (JObj [ ("summary", JStr "Crash on submit");
                   ("type", JStr "other");
                   ("priority_score", JStr "4 - High: blocks the form");
                   ("suggested_labels", JArr [JStr "bug"]);
                   ("potential_impact", JStr "Users cannot submit the form") ]).
Proof. vm_compute. reflexivity. Qed.

Example parse_response_incomplete :
  parse_response incomplete_answer
  = Raise (Exn ValueError "Missing required field: potential_impact").
Proof. vm_compute. reflexivity. Qed.

End ScenarioRuns.

(** ** The fingerprint cache *)

Section Cache.
Context `{App.Config}.
Import App.

(** C9. The cache key is a function of the URL and the issue number (equal
    arguments give equal keys), and with the same issue number two
    different URLs never share a key, whether or not they name the same
    repository. *)
Theorem get_cache_key_separates_urls (u1 u2 : string) (n : Z) :
  get_cache_key u1 n = get_cache_key u1 n
  /\ (u1 <> u2 -> get_cache_key u1 n <> get_cache_key u2 n).
Proof.
  split; [reflexivity |].
  intros Hne E. apply Hne. unfold get_cache_key in E.
  now apply append_inv_tail in E.
Qed.

(** C2. The contract of the cache lookup.  It makes no call and never
    raises; it returns a value exactly when caching is enabled, the key is
    present and the entry is younger than the time to live, and the value
    is then the stored one, the cache being left as it was; with caching
    disabled it returns nothing; an entry that is present and expired is
    deleted and nothing is returned. *)
Theorem get_from_cache_contract (now : Z) (key : string) (cache : cache_t) :
  (get_from_cache now key cache).1.1 = []
  /\ (exists o, (get_from_cache now key cache).1.2 = Return o)
  /\ (forall v,
        (get_from_cache now key cache).1.2 = Return (Some v)
        <-> CACHE_ENABLED = true
            /\ exists ts, cache !! key = Some (v, ts) /\ now - ts < CACHE_TTL)
  /\ (forall v, (get_from_cache now key cache).1.2 = Return (Some v) ->
                (get_from_cache now key cache).2 = cache)
  /\ (CACHE_ENABLED = false ->
      get_from_cache now key cache = (ret None, cache))
  /\ (forall v ts,
        CACHE_ENABLED = true -> cache !! key = Some (v, ts) ->
        CACHE_TTL <= now - ts ->
        get_from_cache now key cache = (ret None, delete key cache)
        /\ delete key cache !! key = None).
Proof.
  unfold get_from_cache.
  destruct CACHE_ENABLED eqn:En; simpl.
  - destruct (cache !! key) as [[data ts]|] eqn:L.
    + destruct (Z.ltb_spec (now - ts) CACHE_TTL) as [Age|Age]; simpl.
      * split_and!; eauto; try discriminate.
        -- intros v; split.
           ++ intros [= <-]; eauto.
           ++ intros (_ & ts' & [= -> ->] & _); reflexivity.
        -- intros v ts' _ [= -> ->]; lia.
      * split_and!; eauto; try discriminate.
        -- intros v; split; [discriminate |].
           intros (_ & ts' & [= -> ->] & ?); lia.
        -- intros v ts' _ _ _; split; [reflexivity | apply lookup_delete_eq].
    + split_and!; eauto; try discriminate.
      intros v; split; [discriminate |].
      intros (_ & ts' & ? & _); discriminate.
  - split_and!; eauto; try discriminate.
    intros v; split; [discriminate |].
    intros (? & _); discriminate.
Qed.

End Cache.

(** ** Regular expressions: what a match is *)

Lemma prefix_append (l s : string) : String.prefix l (l +:+ s) = true.
Proof.
  induction l as [|c l IH]; [now destruct s |].
  rewrite append_cons; simpl. now destruct (ascii_dec c c).
Qed.

Lemma drop_append (l s : string) : Py.drop (String.length l) (l +:+ s) = s.
Proof.
  induction l as [|c l IH]; [now destruct s |].
  rewrite append_cons; simpl. exact IH.
Qed.

Lemma prefix_split (l s : string) :
  String.prefix l s = true -> s = l +:+ Py.drop (String.length l) s.
Proof.
  revert s; induction l as [|c l IH]; intros s Hp.
  - now destruct s.
  - destruct s as [|d s]; [discriminate |].
    simpl in Hp. destruct (ascii_dec c d) as [->|]; [| discriminate].
    rewrite append_cons; simpl. f_equal. now apply IH.
Qed.

Lemma grow_sound (lazy : bool) (k : string -> option (list string))
  (s acc : string) (g : list string) :
  Re.grow lazy k acc s = Some g ->
  exists w rest g',
    segment w /\ s = w +:+ rest /\ k rest = Some g' /\ g = (acc +:+ w) :: g'.
Proof.
  revert acc g; induction s as [|c s IH]; intros acc g Hg; [discriminate |].
  simpl in Hg.
  destruct (Ascii.eqb c "/") eqn:Hc; [discriminate |].
  assert (Hstop : forall g0, k s = Some g0 ->
            exists w rest g', segment w /\ String c s = w +:+ rest
                              /\ k rest = Some g'
                              /\ (acc +:+ String c "") :: g0 = (acc +:+ w) :: g').
  { intros g0 Hk. exists (String c ""), s, g0.
    repeat split; [discriminate | simpl; now rewrite Hc | exact Hk]. }
  assert (Hmore : forall g0, Re.grow lazy k (acc +:+ String c "") s = Some g0 ->
            exists w rest g', segment w /\ String c s = w +:+ rest
                              /\ k rest = Some g' /\ g0 = (acc +:+ w) :: g').
  { intros g0 Hr. destruct (IH _ _ Hr) as (w & rest & g' & [Hw1 Hw2] & -> & Hk & ->).
    exists (String c w), rest, g'.
    repeat split; [discriminate | simpl; now rewrite Hc, Hw2 | exact Hk |].
    now rewrite append_assoc. }
  destruct lazy.
  - destruct (k s) as [g0|] eqn:Hk.
    + injection Hg as <-. now apply Hstop.
    + now apply Hmore.
  - destruct (Re.grow false k (acc +:+ String c "") s) as [g0|] eqn:Hr.
    + injection Hg as <-. now apply Hmore.
    + destruct (k s) as [g0|] eqn:Hk; [| discriminate].
      injection Hg as <-. now apply Hstop.
Qed.

Lemma grow_complete (lazy : bool) (k : string -> option (list string))
  (w rest acc : string) (g' : list string) :
  segment w -> k rest = Some g' ->
  exists g, Re.grow lazy k acc (w +:+ rest) = Some g.
Proof.
  intros [Hne Hns]; revert acc; induction w as [|c w IH]; intros acc Hk;
    [congruence |].
  simpl in Hns. apply andb_true_iff in Hns as [Hc Hns].
  apply negb_true_iff in Hc.
  rewrite append_cons; simpl; rewrite Hc.
  destruct w as [|d w].
  - rewrite append_nil_l, Hk.
    destruct lazy; [eauto |].
    destruct (Re.grow false k (acc +:+ String c "") rest); eauto.
  - destruct (IH ltac:(discriminate) Hns (acc +:+ String c "") Hk) as [g Hg].
    rewrite Hg.
    destruct lazy; [| eauto].
    destruct (k (String d w +:+ rest)); eauto.
Qed.

Lemma match_here_sound (p : list Re.item) (s : string) (g : list string) :
  Re.match_here p s = Some g -> matches p s g.
Proof.
  revert s g; induction p as [|[l|l|lazy|] p IH]; intros s g Hm; simpl in Hm.
  - now injection Hm as <-.
  - destruct (String.prefix l s) eqn:Hp; [| discriminate].
    exists (Py.drop (String.length l) s). split; [now apply prefix_split | auto].
  - destruct (String.prefix l s) eqn:Hp.
    + destruct (Re.match_here p (Py.drop (String.length l) s)) as [g0|] eqn:Hd.
      * injection Hm as <-. left.
        exists (Py.drop (String.length l) s). split; [now apply prefix_split | auto].
      * right; auto.
    + right; auto.
  - apply grow_sound in Hm as (w & rest & g' & Hw & -> & Hk & ->).
    exists w, rest, g'. repeat split; try apply Hw; auto.
  - destruct (Re.at_end s) eqn:He; [| discriminate]. split; auto.
Qed.

Lemma match_here_complete (p : list Re.item) (s : string) (g : list string) :
  matches p s g -> exists g', Re.match_here p s = Some g'.
Proof.
  revert s g; induction p as [|[l|l|lazy|] p IH]; intros s g Hm; simpl in Hm |- *.
  - eauto.
  - destruct Hm as (s' & -> & Hm). rewrite prefix_append, drop_append. eauto.
  - destruct Hm as [(s' & -> & Hm) | Hm].
    + rewrite prefix_append, drop_append.
      destruct (IH _ _ Hm) as [g' ->]. eauto.
    + destruct (IH _ _ Hm) as [g' Hg'].
      destruct (String.prefix l s); [| eauto].
      destruct (Re.match_here p (Py.drop (String.length l) s)); eauto.
  - destruct Hm as (w & s' & g' & Hw & -> & -> & Hm).
    destruct (IH _ _ Hm) as [g0 Hg0]. eapply grow_complete; eauto.
  - destruct Hm as [He Hm]. rewrite He. eauto.
Qed.

Lemma search_sound (p : list Re.item) (url : string) (g : list string) :
  Re.search p url = Some g -> found p url g.
Proof.
  induction url as [|c url IH]; simpl.
  - destruct (Re.match_here p "") eqn:Hm; [| discriminate].
    intros [= <-]. exists "", "". split; [reflexivity | now apply match_here_sound].
  - destruct (Re.match_here p (String c url)) eqn:Hm.
    + intros [= <-]. exists "", (String c url).
      split; [reflexivity | now apply match_here_sound].
    + intros Hs. destruct (IH Hs) as (pre & s & -> & Hms).
      exists (String c pre), s. split; [reflexivity | exact Hms].
Qed.

Lemma search_complete (p : list Re.item) (url : string) (g : list string) :
  found p url g -> exists g', Re.search p url = Some g'.
Proof.
  intros (pre & s & -> & Hm).
  induction pre as [|c pre IH].
  - rewrite append_nil_l. destruct (match_here_complete _ _ _ Hm) as [g' Hg'].
    exists g'. destruct s; simpl; now rewrite Hg'.
  - rewrite append_cons; simpl.
    destruct (Re.match_here p (String c (pre +:+ s))); eauto.
Qed.

(** The engine finds nothing exactly when there is nothing to find. *)
Lemma search_none_iff (p : list Re.item) (url : string) :
  Re.search p url = None <-> forall g, ~ found p url g.
Proof.
  split.
  - intros Hn g Hf. destruct (search_complete _ _ _ Hf) as [g' Hg']. congruence.
  - intros Hnf. destruct (Re.search p url) as [g|] eqn:Hs; [| reflexivity].
    exfalso. eapply Hnf, search_sound, Hs.
Qed.

(** ** parse_repo_url *)

Section ParseRepoUrl.
Import GitHubClient.

Lemma at_end_iff (s : string) : Re.at_end s = true <-> s = "" \/ s = Py.nl.
Proof.
  destruct s as [|c [|d s]]; simpl.
  - intuition.
  - rewrite Ascii.eqb_eq. split.
    + intros ->; now right.
    + intros [|[= ->]]; [discriminate | reflexivity].
  - split; [discriminate | intros [|]; discriminate].
Qed.

Lemma found_strict_iff (url : string) (g : list string) :
  found strict_pattern url g
  <-> exists owner name, g = [owner; name] /\ strict_form url owner name.
Proof.
  unfold found, strict_form, strict_pattern; simpl. split.
  - intros (pre & s & -> & s1 & -> & o & s2 & g1 & Ho & -> & -> & s3 & -> &
            n & s4 & g2 & Hn & -> & -> & Hgit).
    exists o, n.
    assert (Hend : forall (s : string) (g : list string), Re.at_end s = true /\ g = [] ->
                   g = [] /\ (s = "" \/ s = Py.nl)).
    { intros s g [He ->]. split; [reflexivity | now apply at_end_iff]. }
    assert (Hslash : forall (s : string) (g : list string),
              (exists s', s = "/" +:+ s' /\ Re.at_end s' = true /\ g = [])
              \/ (Re.at_end s = true /\ g = []) ->
              g = [] /\ exists slash eol, s = slash +:+ eol
                   /\ (slash = "" \/ slash = "/") /\ (eol = "" \/ eol = Py.nl)).
    { intros s g [(s' & -> & H)|H]; apply Hend in H as [-> H].
      - split; [reflexivity |]. exists "/", s'. auto.
      - split; [reflexivity |]. exists "", s. auto. }
    destruct Hgit as [(s5 & -> & H)|H]; apply Hslash in H as (-> & slash & eol & -> & Hs & He).
    + split; [reflexivity |]. exists pre, ".git", slash, eol. auto 10.
    + split; [reflexivity |]. exists pre, "", slash, eol. auto 10.
  - intros (o & n & -> & pre & git & slash & eol & -> & Ho & Hn & Hgit & Hs & He).
    exists pre, ("github.com/" +:+ o +:+ "/" +:+ n +:+ git +:+ slash +:+ eol).
    split; [reflexivity |].
    exists (o +:+ "/" +:+ n +:+ git +:+ slash +:+ eol). split; [reflexivity |].
    exists o, ("/" +:+ n +:+ git +:+ slash +:+ eol), [n]. repeat split; try apply Ho.
    exists (n +:+ git +:+ slash +:+ eol). split; [reflexivity |].
    exists n, (git +:+ slash +:+ eol), []. repeat split; try apply Hn.
    assert (Hend : Re.at_end eol = true) by now apply at_end_iff.
    destruct Hgit as [-> | ->]; [right | left; exists (slash +:+ eol); split; [reflexivity |]];
      (destruct Hs as [-> | ->]; [right; auto | left; exists eol; auto]).
Qed.

Lemma found_loose_iff (url : string) (g : list string) :
  found loose_pattern url g
  <-> exists owner name, g = [owner; name] /\ loose_form url owner name.
Proof.
  unfold found, loose_form, loose_pattern; simpl. split.
  - intros (pre & s & -> & s1 & -> & o & s2 & g1 & Ho & -> & -> & s3 & -> &
            n & s4 & g2 & Hn & -> & -> & ->).
    exists o, n. split; [reflexivity |]. exists pre, s4. auto.
  - intros (o & n & -> & pre & rest & -> & Ho & Hn).
    exists pre, ("github.com/" +:+ o +:+ "/" +:+ n +:+ rest). split; [reflexivity |].
    exists (o +:+ "/" +:+ n +:+ rest). split; [reflexivity |].
    exists o, ("/" +:+ n +:+ rest), [n]. repeat split; try apply Ho.
    exists (n +:+ rest). split; [reflexivity |].
    exists n, rest, []. repeat split; apply Hn.
Qed.

(** A URL of the strict form is of the loose form too. *)
Lemma strict_form_loose (url owner name : string) :
  strict_form url owner name -> loose_form url owner name.
Proof.
  intros (pre & git & slash & eol & -> & Ho & Hn & _).
  exists pre, (git +:+ slash +:+ eol). auto.
Qed.

Lemma rstrip_by_cons (p : ascii -> bool) (c : ascii) (s : string) :
  Py.rstrip_by p (String c s)
  = match Py.rstrip_by p s with
    | EmptyString => if p c then EmptyString else String c EmptyString
    | t => String c t
    end.
Proof. reflexivity. Qed.

(** [rstrip('/')] leaves a segment as it is. *)
Lemma rstrip_segment (w : string) :
  no_slash w = true -> Py.rstrip_char "/" w = w.
Proof.
  unfold Py.rstrip_char. induction w as [|c w IH]; [reflexivity |].
  cbn [no_slash]. intros [Hc Hw]%andb_true_iff.
  rewrite rstrip_by_cons, (IH Hw).
  destruct w; [| reflexivity].
  apply negb_true_iff in Hc. rewrite Ascii.eqb_sym in Hc. now rewrite Hc.
Qed.

(** C7. [parse_repo_url] tries the strict pattern and then the loose one
    and answers with the first match: the owner, and the name with every
    [.git] removed (a trailing slash, were there one, would go first).
    It raises the invalid-reference error exactly when the URL is of
    neither form.  The three URLs of the specification behave as stated. *)
Theorem parse_repo_url_first_match (url : string) :
  (forall owner repo,
     parse_repo_url url = Return (owner, repo) ->
     exists name,
       repo = Py.replace ".git" "" (Py.rstrip_char "/" name)
       /\ repo = Py.replace ".git" "" name
       /\ (strict_form url owner name
           \/ (~ (exists o n, strict_form url o n) /\ loose_form url owner name)))
  /\ (parse_repo_url url = Raise (invalid_url url)
      <-> ~ (exists o n, strict_form url o n) /\ ~ (exists o n, loose_form url o n))
  /\ ((exists owner repo, parse_repo_url url = Return (owner, repo))
      \/ parse_repo_url url = Raise (invalid_url url))
  /\ parse_repo_url "https://github.com/octocat/Hello-World"
     = Return ("octocat", "Hello-World")
  /\ parse_repo_url "https://github.com/octocat/Hello-World.git"
     = Return ("octocat", "Hello-World")
  /\ parse_repo_url "not a url" = Raise (invalid_url "not a url").
Proof.
  assert (Hclean : forall name, segment name ->
            clean_repo name = Py.replace ".git" "" name).
  { intros name [_ Hn]. unfold clean_repo. now rewrite rstrip_segment. }
  unfold parse_repo_url, patterns; simpl.
  destruct (Re.search strict_pattern url) as [g|] eqn:Hs.
  - apply search_sound, found_strict_iff in Hs as (o & n & -> & Hf).
    assert (Hn : segment n) by (destruct Hf as (? & ? & ? & ? & ? & ? & ? & ?); assumption).
    split_and!; try reflexivity.
    + intros owner repo [= <- <-]. exists n.
      split_and!; [reflexivity | now apply Hclean | now left].
    + split; [discriminate |]. intros [Hno _]. exfalso; apply Hno; eauto.
    + left; eauto.
  - pose proof (proj1 (search_none_iff _ _) Hs) as Hno.
    assert (Hno' : ~ (exists o n, strict_form url o n)).
    { intros (o & n & Hf). apply (Hno [o; n]), found_strict_iff; eauto. }
    destruct (Re.search loose_pattern url) as [g|] eqn:Hl.
    + apply search_sound, found_loose_iff in Hl as (o & n & -> & Hf).
      assert (Hn : segment n) by (destruct Hf as (? & ? & ? & ? & ?); assumption).
      split_and!; try reflexivity.
      * intros owner repo [= <- <-]. exists n.
        split_and!; [reflexivity | now apply Hclean | now right].
      * split; [discriminate |]. intros [_ Hnl]. exfalso; apply Hnl; eauto.
      * left; eauto.
    + pose proof (proj1 (search_none_iff _ _) Hl) as Hnl.
      split_and!; try reflexivity.
      * discriminate.
      * split; [| reflexivity]. intros _. split; [exact Hno' |].
        intros (o & n & Hf). apply (Hnl [o; n]), found_loose_iff; eauto.
      * now right.
Qed.

End ParseRepoUrl.

(** ** The issue retriever *)

Section Retriever.
Import GitHubClient.

Lemma comments_fetch_failed_kinds (status : Z) (msg : string) :
  comments_fetch_failed (HttpStatusError status msg)
  /\ comments_fetch_failed (Failed (Exn Timeout msg))
  /\ comments_fetch_failed (Failed (Exn ConnectionError msg)).
Proof. repeat split. Qed.

Lemma bind_ret_l {A B : Type} (a : A) (f : A -> IO B) :
  bind ([], Return a) f = f a.
Proof. unfold bind. now destruct (f a). Qed.

Lemma get_issue_data_parsed (s : Session) (repo_url owner repo : string) (n : Z) :
  parse_repo_url repo_url = Return (owner, repo) ->
  get_issue_data s repo_url n
  = bind (fetch_issue s owner repo n) (fun issue =>
    bind (fetch_comments s owner repo n) (fun comments =>
    ([], issue_record issue comments))).
Proof. intros Hp. unfold get_issue_data. now rewrite Hp, bind_ret_l. Qed.

(** C5. A failed comments request never fails the caller.  Whatever the
    owner, the repository and the issue number, [fetch_comments] then
    returns the empty list; and when the URL parses, the issue request
    succeeds and its labels are well formed, [get_issue_data] returns the
    record of the issue with [comments] empty, the very record an empty
    comment thread would give. *)
Theorem fetch_comments_never_fails (s : Session) (owner repo : string) (n : Z) :
  comments_fetch_failed (get_comments s (comments_url owner repo n)) ->
  fetch_comments s owner repo n = ([EvGetComments (comments_url owner repo n)], Return [])
  /\ (forall repo_url,
        parse_repo_url repo_url = Return (owner, repo) ->
        get_issue_data s repo_url n = get_issue_data (without_comments s) repo_url n)
  /\ (forall repo_url issue names,
        parse_repo_url repo_url = Return (owner, repo) ->
        get_issue s (issue_url owner repo n) = Fetched issue ->
        label_names (default [] (ri_labels issue)) = Return names ->
        exists record,
          get_issue_data s repo_url n
          = ([EvGetIssue (issue_url owner repo n);
              EvGetComments (comments_url owner repo n)], Return record)
          /\ comments record = Some []
          /\ issue_record issue [] = Return record).
Proof.
  intros Hfail.
  assert (Hfc : fetch_comments s owner repo n
                = ([EvGetComments (comments_url owner repo n)], Return [])).
  { unfold fetch_comments.
    destruct (get_comments s (comments_url owner repo n)) as [p|st msg|e];
      simpl in Hfail; [contradiction | reflexivity | now rewrite Hfail]. }
  split_and!.
  - exact Hfc.
  - intros repo_url Hp. rewrite !(get_issue_data_parsed _ _ _ _ _ Hp), Hfc.
    reflexivity.
  - intros repo_url issue names Hp Hi Hl.
    rewrite (get_issue_data_parsed _ _ _ _ _ Hp), Hfc.
    unfold fetch_issue, issue_record. rewrite Hi. simpl. rewrite Hl. simpl.
    eexists; split_and!; reflexivity.
Qed.

End Retriever.

(** ** create_prompt *)

Section CreatePrompt.
Import GitHubClient LLMAnalyzer.

Lemma length_take (n : nat) (s : string) :
  String.length (Py.take n s) = Nat.min n (String.length s).
Proof.
  revert s; induction n as [|n IH]; intros [|c s]; simpl; auto.
Qed.

Lemma length_take_le (n : nat) (s : string) :
  (n <= String.length s)%nat -> String.length (Py.take n s) = n.
Proof. rewrite length_take. lia. Qed.

(** [s[:n]] is the beginning of [s]. *)
Lemma take_drop (n : nat) (s : string) : Py.take n s +:+ Py.drop n s = s.
Proof.
  revert s; induction n as [|n IH]; intros [|c s]; simpl; try reflexivity.
  rewrite append_cons. now rewrite IH.
Qed.

Lemma format_comments_view (i : Z) (cs cs' : list CommentRecord) :
  map comment_view cs = map comment_view cs' ->
  format_comments i cs = format_comments i cs'.
Proof.
  revert i cs'; induction cs as [|c cs IH]; intros i [|c' cs'] E;
    try discriminate; [reflexivity |].
  cbn [map] in E. unfold comment_view at 1 3 in E.
  injection E as Ea Eb E. cbn [format_comments].
  rewrite (IH (i + 1) cs' E). f_equal.
  unfold format_comment. now rewrite Ea, Eb.
Qed.

Lemma comments_text_view (r r' : IssueRecord) :
  map comment_view (firstn 10 (default [] (comments r)))
  = map comment_view (firstn 10 (default [] (comments r'))) ->
  comments_text r = comments_text r'.
Proof.
  unfold comments_text.
  destruct (comments r) as [[|c cs]|], (comments r') as [[|c' cs']|];
    try reflexivity; try discriminate.
  intros E. now apply format_comments_view.
Qed.

Lemma labels_text_view (r r' : IssueRecord) :
  default [] (labels r) = default [] (labels r') -> labels_text r = labels_text r'.
Proof.
  unfold labels_text.
  destruct (labels r) as [[|l ls]|], (labels r') as [[|l' ls']|];
    try reflexivity; try discriminate.
  cbn [default]. now intros [= -> ->].
Qed.

(** C8. [create_prompt] is a function of the issue record alone, and of a
    bounded part of it: two records with the same title, the same labels,
    the same body as shown and the same first ten comments as shown give
    the same prompt.  The body is shown whole up to 4000 characters and
    otherwise cut to its first 4000 characters, followed by the truncation
    marker; the comments after the tenth are dropped; a comment body is
    shown whole up to 500 characters and otherwise cut to its first 500
    characters, followed by an ellipsis. *)
Theorem create_prompt_deterministic_and_bounded (r : IssueRecord) :
  (forall r', prompt_view r' = prompt_view r -> create_prompt r' = create_prompt r)
  /\ create_prompt r
     = prompt_head +:+ default "No title" (title r)
       +:+ Py.nl +:+ Py.nl +:+ "**Issue Body:**" +:+ Py.nl
       +:+ (if String.eqb (prompt_body (default "" (issue_body r))) ""
            then "No description provided"
            else prompt_body (default "" (issue_body r)))
       +:+ Py.nl +:+ Py.nl +:+ "**Comments:**" +:+ Py.nl
       +:+ match default [] (comments r) with
           | [] => "No comments yet."
           | cs => format_comments 1 (firstn 10 cs)
           end
       +:+ Py.nl +:+ Py.nl +:+ "**Existing Labels:** " +:+ labels_text r
       +:+ Py.nl +:+ Py.nl +:+ "Provide your analysis as valid JSON only:"
  /\ (forall b : string,
        ((String.length b <= 4000)%nat -> prompt_body b = b)
        /\ ((4000 < String.length b)%nat ->
            prompt_body b = Py.take 4000 b +:+ Py.nl +:+ "... (truncated for length)"
            /\ String.length (Py.take 4000 b) = 4000%nat
            /\ exists rest, b = Py.take 4000 b +:+ rest))
  /\ (forall cs, create_prompt (with_comments r cs)
                 = create_prompt (with_comments r (firstn 10 cs)))
  /\ (forall (i : Z) (c : CommentRecord) (cs : list CommentRecord),
        format_comments i (c :: cs)
        = Py.nl +:+ "Comment " +:+ Py.str_of_int i +:+ " by "
          +:+ default "unknown" (author c) +:+ ":" +:+ Py.nl
          +:+ prompt_comment_body (default "" (body c)) +:+ Py.nl
          +:+ format_comments (i + 1) cs)
  /\ (forall b : string,
        ((String.length b <= 500)%nat -> prompt_comment_body b = b)
        /\ ((500 < String.length b)%nat ->
            prompt_comment_body b = Py.take 500 b +:+ "..."
            /\ String.length (Py.take 500 b) = 500%nat
            /\ exists rest, b = Py.take 500 b +:+ rest)).
Proof.
  assert (Hview : forall r1 r2, prompt_view r1 = prompt_view r2 ->
                                create_prompt r1 = create_prompt r2).
  { intros r1 r2 E. unfold prompt_view in E. injection E as Et Eb Ec El.
    unfold create_prompt. rewrite Et, Eb.
    now rewrite (comments_text_view _ _ Ec), (labels_text_view _ _ El). }
  split_and!.
  - intros r' E. now apply Hview.
  - unfold create_prompt, comments_text.
    now destruct (comments r) as [[|c cs]|].
  - intros b. unfold prompt_body. split; intros Hlen.
    + destruct (Nat.ltb_spec 4000 (String.length b)); [lia | reflexivity].
    + destruct (Nat.ltb_spec 4000 (String.length b)); [| lia].
      split_and!; [reflexivity | apply length_take_le; lia |].
      exists (Py.drop 4000 b). now rewrite take_drop.
  - intros cs. apply Hview. unfold prompt_view, with_comments; simpl.
    do 2 f_equal. now rewrite firstn_firstn.
  - intros i c cs. simpl. unfold format_comment.
    now rewrite !append_assoc.
  - intros b. unfold prompt_comment_body. split; intros Hlen.
    + destruct (Nat.ltb_spec 500 (String.length b)); [lia | reflexivity].
    + destruct (Nat.ltb_spec 500 (String.length b)); [| lia].
      split_and!; [reflexivity | apply length_take_le; lia |].
      exists (Py.drop 500 b). now rewrite take_drop.
Qed.

End CreatePrompt.

(** ** parse_response *)

Section ParseResponse.
Import LLMAnalyzer.
Context `{Libraries}.

Lemma join_cons (sep x y : string) (l : list string) :
  Py.join sep (x :: y :: l) = x +:+ sep +:+ Py.join sep (y :: l).
Proof. reflexivity. Qed.

Lemma split_cons (sep c : ascii) (s : string) :
  Py.split sep (String c s)
  = if Ascii.eqb c sep then EmptyString :: Py.split sep s
    else match Py.split sep s with
         | l :: ls => String c l :: ls
         | [] => [String c EmptyString]
         end.
Proof. reflexivity. Qed.

Lemma split_line (l : string) : no_nl l = true -> Py.split "010" l = [l].
Proof.
  induction l as [|c l IH]; [reflexivity |].
  cbn [no_nl]. intros [Hc Hl]%andb_true_iff. apply negb_true_iff in Hc.
  now rewrite split_cons, Hc, (IH Hl).
Qed.

Lemma split_line_nl (l s : string) :
  no_nl l = true -> Py.split "010" (l +:+ Py.nl +:+ s) = l :: Py.split "010" s.
Proof.
  induction l as [|c l IH].
  - intros _. reflexivity.
  - cbn [no_nl]. intros [Hc Hl]%andb_true_iff. apply negb_true_iff in Hc.
    now rewrite append_cons, split_cons, Hc, (IH Hl).
Qed.

(** Splitting what was joined gives the lines back. *)
Lemma split_join (ls : list string) :
  ls <> [] -> Forall (fun l => no_nl l = true) ls ->
  Py.split "010" (Py.join Py.nl ls) = ls.
Proof.
  induction ls as [|x [|y ls] IH]; intros Hne Hall; [congruence | |].
  - apply split_line. now inversion Hall.
  - inversion Hall as [|? ? Hx Hrest]; subst.
    rewrite join_cons, split_line_nl by assumption.
    f_equal. now apply IH.
Qed.

Lemma prefix_append_l (p x y : string) :
  String.prefix p x = true -> String.prefix p (x +:+ y) = true.
Proof.
  revert x; induction p as [|c p IH]; intros x Hp; [now destruct (x +:+ y) |].
  destruct x as [|d x]; [discriminate |].
  rewrite append_cons. simpl in Hp |- *.
  destruct (ascii_dec c d); [now apply IH | discriminate].
Qed.

Lemma startswith_join (first : string) (rest : list string) (p : string) :
  Py.startswith first p = true -> Py.startswith (Py.join Py.nl (first :: rest)) p = true.
Proof.
  unfold Py.startswith. destruct rest as [|y rest]; [auto |].
  rewrite join_cons. apply prefix_append_l.
Qed.

Lemma rstrip_by_keep (p : ascii -> bool) (c : ascii) (s : string) :
  p c = false -> Py.rstrip_by p (String c s) = String c (Py.rstrip_by p s).
Proof.
  intros Hc. rewrite rstrip_by_cons.
  destruct (Py.rstrip_by p s); [now rewrite Hc | reflexivity].
Qed.

(** A line that starts with the fence is a fence line. *)
Lemma starts_with_fence_is_fence_line (line : string) :
  Py.startswith line fence = true -> is_fence_line line = true.
Proof.
  unfold is_fence_line, Py.startswith, fence. intros Hp.
  apply prefix_split in Hp.
  generalize dependent (Py.drop (String.length "```") line). intros rest ->.
  unfold Py.strip.
  change ("```" +:+ rest) with (String "`" (String "`" (String "`" rest))).
  cbn [Py.lstrip_by]. change (Py.is_space "`") with false. cbn iota.
  rewrite !rstrip_by_keep by reflexivity.
  apply (prefix_append "```").
Qed.

(** The scan, once inside the block, stops at the next fence line. *)
Lemma fence_scan_closed (interior : list string) (closing : string)
  (rest : list string) (i start_idx end_idx : nat) :
  start_idx <> 0%nat ->
  Forall (fun l => is_fence_line l = false) interior ->
  is_fence_line closing = true ->
  fence_scan (interior ++ closing :: rest) i start_idx end_idx
  = (start_idx, (i + length interior)%nat).
Proof.
  intros Hs Hin Hc. revert i; induction Hin as [|l interior Hl _ IH]; intros i.
  - simpl. rewrite Hc. destruct (Nat.eqb_spec start_idx 0); [congruence |].
    f_equal; lia.
  - simpl. rewrite Hl, IH. f_equal; lia.
Qed.

(** With no closing fence line the span runs to the end. *)
Lemma fence_scan_open (interior : list string) (i start_idx end_idx : nat) :
  Forall (fun l => is_fence_line l = false) interior ->
  fence_scan interior i start_idx end_idx = (start_idx, end_idx).
Proof.
  intros Hin. revert i; induction Hin as [|l interior Hl _ IH]; intros i;
    [reflexivity |].
  simpl. now rewrite Hl, IH.
Qed.

Lemma slice_interior {A : Type} (first : A) (interior rest : list A) :
  Py.slice 1 (1 + length interior) (first :: interior ++ rest) = interior.
Proof.
  unfold Py.slice.
  change (skipn 1 (first :: interior ++ rest)) with (interior ++ rest).
  replace (1 + length interior - 1)%nat with (length interior) by lia.
  apply take_app_length.
Qed.

(** What [unfence] keeps of a fenced block: the lines between the opening
    fence line and the next one. *)
Lemma unfence_fenced (first : string) (interior : list string) (closing : string)
  (rest : list string) :
  Py.startswith first fence = true ->
  Forall (fun l => no_nl l = true) (first :: interior ++ closing :: rest) ->
  Forall (fun l => is_fence_line l = false) interior ->
  is_fence_line closing = true ->
  unfence (Py.join Py.nl (first :: interior ++ closing :: rest))
  = Py.join Py.nl interior.
Proof.
  intros Hf Hall Hin Hc. unfold unfence.
  rewrite (startswith_join _ _ _ Hf), split_join by (assumption || discriminate).
  cbn [fence_scan]. rewrite (starts_with_fence_is_fence_line _ Hf).
  cbn [Nat.eqb]. rewrite fence_scan_closed by (assumption || discriminate).
  now rewrite slice_interior.
Qed.

(** Without a closing fence line everything after the first line is kept. *)
Lemma unfence_open (first : string) (interior : list string) :
  Py.startswith first fence = true ->
  Forall (fun l => no_nl l = true) (first :: interior) ->
  Forall (fun l => is_fence_line l = false) interior ->
  unfence (Py.join Py.nl (first :: interior)) = Py.join Py.nl interior.
Proof.
  intros Hf Hall Hin. unfold unfence.
  rewrite (startswith_join _ _ _ Hf), split_join by (assumption || discriminate).
  cbn [fence_scan]. rewrite (starts_with_fence_is_fence_line _ Hf).
  cbn [Nat.eqb]. rewrite fence_scan_open by assumption.
  pose proof (slice_interior first interior []) as Hs.
  rewrite app_nil_r in Hs. cbn [length]. f_equal. exact Hs.
Qed.

Lemma dict_get_set_eq (k : string) (v : json) (d : dict) :
  dict_get k (dict_set k v d) = Some v.
Proof.
  induction d as [|[k' v'] d IH]; simpl.
  - now rewrite String.eqb_refl.
  - destruct (String.eqb k k') eqn:E; simpl; rewrite E; auto.
Qed.

Lemma dict_get_set_ne (k k' : string) (v : json) (d : dict) :
  k <> k' -> dict_get k' (dict_set k v d) = dict_get k' d.
Proof.
  intros Hne. induction d as [|[k0 v0] d IH]; simpl.
  - destruct (String.eqb_spec k' k); [congruence | reflexivity].
  - destruct (String.eqb_spec k k0) as [->|]; simpl.
    + destruct (String.eqb_spec k' k0); [congruence | reflexivity].
    + now rewrite IH.
Qed.

Lemma check_required_dict (fields : list string) (d : dict) :
  check_required fields (JObj d)
  = match find (fun f => negb (dict_has f d)) fields with
    | Some f => Raise (Exn ValueError ("Missing required field: " +:+ f))
    | None => Return tt
    end.
Proof.
  induction fields as [|f fields IH]; [reflexivity |].
  simpl. destruct (dict_has f d); simpl; [exact IH | reflexivity].
Qed.

Lemma validate_dict (d : dict) (t l : json) :
  first_missing d = None ->
  dict_get "type" d = Some t -> dict_get "suggested_labels" d = Some l ->
  validate (JObj d) = Return (JObj (coerced d t l)).
Proof.
  intros Hm Ht Hl. unfold validate, coerced.
  rewrite check_required_dict. fold (first_missing d). rewrite Hm.
  cbn [rbind subscript]. rewrite Ht. cbn [rbind].
  destruct (is_valid_type t); cbn [rbind assign subscript].
  - rewrite Hl. cbn [rbind]. now destruct (is_list l).
  - rewrite dict_get_set_ne, Hl by discriminate. cbn [rbind].
    now destruct (is_list l).
Qed.

Lemma validate_missing (d : dict) (f : string) :
  first_missing d = Some f ->
  validate (JObj d) = Raise (Exn ValueError ("Missing required field: " +:+ f)).
Proof.
  intros Hm. unfold validate. rewrite check_required_dict.
  fold (first_missing d). now rewrite Hm.
Qed.

(** Validation lets only dictionaries through, and returns dictionaries. *)
Lemma validate_returns_dict (data v : json) :
  validate data = Return v -> (exists d, data = JObj d) /\ (exists d', v = JObj d').
Proof.
  unfold validate. destruct data as [| b | n | bits | s | l | d];
    try discriminate.
  - destruct (check_required required_fields (JStr s)); discriminate.
  - destruct (check_required required_fields (JArr l)); discriminate.
  - destruct (check_required required_fields (JObj d)); [| discriminate].
    cbn [rbind subscript].
    destruct (dict_get "type" d) as [t|]; [| discriminate]. cbn [rbind].
    destruct (is_valid_type t); cbn [rbind assign subscript].
    + destruct (dict_get "suggested_labels" d) as [l|]; [| discriminate].
      cbn [rbind]. destruct (is_list l); intros [= <-]; eauto.
    + destruct (dict_get "suggested_labels" _) as [l|]; [| discriminate].
      cbn [rbind]. destruct (is_list l); intros [= <-]; eauto.
Qed.

Lemma first_missing_none (d : dict) :
  first_missing d = None <-> forall f, In f required_fields -> dict_has f d = true.
Proof.
  unfold first_missing. split.
  - intros Hn f Hf. apply (find_none _ _ Hn) in Hf.
    now apply negb_false_iff in Hf.
  - intros Hall. destruct (find _ required_fields) as [f|] eqn:E; [| reflexivity].
    apply find_some in E as [Hf Hm]. rewrite (Hall f Hf) in Hm. discriminate.
Qed.

Lemma first_missing_some (d : dict) (f : string) :
  first_missing d = Some f -> In f required_fields /\ dict_has f d = false.
Proof.
  intros E. apply find_some in E as [Hf Hm]. now apply negb_true_iff in Hm.
Qed.

(** C6. The contract of [parse_response].
    - When the stripped text is a fenced block (a first line that starts
      with the fence, then lines that are not fence lines, then a fence
      line, then anything), only the lines between the two fence lines
      are decoded and validated.
    - When the decoded object lacks one of the five required fields, the
      call fails with [ValueError], naming the first missing field.
    - When the five fields are present the call succeeds: a [type] that
      is not one of the five valid strings becomes ["other"], a
      [suggested_labels] that is not a list becomes the one-element list
      of its [str], and nothing else changes.
    - A decoded value that is not an object has no field: the call fails
      as well. *)
Theorem parse_response_contract (raw : string) :
  (forall first interior closing rest,
     Py.strip raw = Py.join Py.nl (first :: interior ++ closing :: rest) ->
     Py.startswith first fence = true ->
     Forall (fun l => no_nl l = true) (first :: interior ++ closing :: rest) ->
     Forall (fun l => is_fence_line l = false) interior ->
     is_fence_line closing = true ->
     parse_response raw
     = match json_loads (Py.join Py.nl interior) with
       | Decoded data => validate data
       | DecodeError msg =>
           Raise (Exn ValueError
                    ("Failed to parse LLM response as JSON: " +:+ msg +:+ Py.nl
                     +:+ "Response: " +:+ Py.take 200 (Py.join Py.nl interior)))
       end)
  /\ (forall d f,
        json_loads (unfence (Py.strip raw)) = Decoded (JObj d) ->
        In f required_fields -> dict_has f d = false ->
        exists f',
          first_missing d = Some f' /\ In f' required_fields
          /\ dict_has f' d = false
          /\ parse_response raw
             = Raise (Exn ValueError ("Missing required field: " +:+ f')))
  /\ (forall d t l,
        json_loads (unfence (Py.strip raw)) = Decoded (JObj d) ->
        (forall f, In f required_fields -> dict_has f d = true) ->
        dict_get "type" d = Some t ->
        dict_get "suggested_labels" d = Some l ->
        exists d',
          parse_response raw = Return (JObj d')
          /\ dict_get "type" d' = Some (if is_valid_type t then t else JStr "other")
          /\ dict_get "suggested_labels" d'
             = Some (if is_list l then l else JArr [JStr (py_str l)])
          /\ forall k, k <> "type" -> k <> "suggested_labels" ->
                       dict_get k d' = dict_get k d)
  /\ (forall data,
        json_loads (unfence (Py.strip raw)) = Decoded data ->
        (forall d, data <> JObj d) ->
        exists e, parse_response raw = Raise e).
Proof.
  split_and!.
  - intros first interior closing rest Hraw Hf Hall Hin Hc.
    unfold parse_response. rewrite Hraw, unfence_fenced by assumption.
    reflexivity.
  - intros d f Hd Hf Hm. unfold parse_response. rewrite Hd.
    destruct (first_missing d) as [f'|] eqn:E.
    + destruct (first_missing_some _ _ E) as [Hf' Hm'].
      exists f'. split_and!; auto. now apply validate_missing.
    + rewrite first_missing_none in E. rewrite (E f Hf) in Hm. discriminate.
  - intros d t l Hd Hall Ht Hl. unfold parse_response. rewrite Hd.
    apply first_missing_none in Hall.
    rewrite (validate_dict d t l Hall Ht Hl).
    exists (coerced d t l). unfold coerced. split_and!.
    + reflexivity.
    + destruct (is_valid_type t), (is_list l);
        rewrite ?dict_get_set_ne by discriminate;
        rewrite ?dict_get_set_eq; auto.
    + destruct (is_valid_type t), (is_list l);
        rewrite ?dict_get_set_eq; auto;
        rewrite ?dict_get_set_ne by discriminate; auto.
    + intros k Hk1 Hk2.
      destruct (is_valid_type t), (is_list l);
        rewrite ?dict_get_set_ne by congruence; reflexivity.
  - intros data Hd Hnot. unfold parse_response. rewrite Hd.
    destruct (validate data) as [v|e] eqn:Hv; [| eauto].
    apply validate_returns_dict in Hv as [[d ->] _]. now destruct (Hnot d).
Qed.

End ParseResponse.

(** ** analyze_issue of the engine *)

Section AnalyzeIssue.
Import GitHubClient LLMAnalyzer.
Context `{Libraries}.

Lemma attempt_once_result (m : Model) (prompt : string) (attempt : nat) :
  attempt_once m prompt attempt = ([EvGenerate prompt], attempt_result m prompt attempt).
Proof.
  unfold attempt_once, attempt_result, bind.
  destruct (generate_content m prompt attempt); reflexivity.
Qed.

Lemma parse_response_returns_dict (text : string) (v : json) :
  parse_response text = Return v -> exists d, v = JObj d.
Proof.
  unfold parse_response. destruct (json_loads _); [| discriminate].
  intros Hv. now apply validate_returns_dict in Hv.
Qed.

Lemma attempt_returns_dict (m : Model) (prompt : string) (k : nat) (v : json) :
  attempt_result m prompt k = Return v -> exists d, v = JObj d.
Proof.
  unfold attempt_result. destruct (generate_content m prompt k); [| discriminate].
  apply parse_response_returns_dict.
Qed.

(** The loop returns a dictionary or raises. *)
Lemma retry_loop_returns_dict (m : Model) (prompt : string) (attempts : list nat)
  (last_error : option exn) (t : list event) (v : json) :
  retry_loop m prompt attempts last_error = (t, Return v) -> exists d, v = JObj d.
Proof.
  revert last_error t; induction attempts as [|k attempts IH]; intros last_error t.
  - discriminate.
  - cbn [retry_loop]. rewrite attempt_once_result. unfold try_except.
    destruct (attempt_result m prompt k) as [a|e] eqn:E.
    + intros [= <- <-]. eapply attempt_returns_dict, E.
    + destruct (retry_loop m prompt attempts (Some e)) as [t' r] eqn:R.
      intros [= <- ->]. eapply IH, R.
Qed.

(** The engine always returns, and returns a dictionary. *)
Lemma engine_returns_dict (m : Model) (issue_data : IssueRecord) :
  exists t d, analyze_issue m issue_data = (t, Return (JObj d)).
Proof.
  unfold analyze_issue, try_except.
  destruct (retry_loop m (create_prompt issue_data) (seq 0 max_retries) None)
    as [t [v|e]] eqn:R.
  - destruct (retry_loop_returns_dict _ _ _ _ _ _ R) as [d ->]. eauto.
  - unfold fallback. cbn [ret]. eauto.
Qed.

(** C1. [analyze_issue] never raises: whatever the issue record and the
    model, it returns a dictionary.  When the call of the model or the
    parsing of its answer fails on both attempts, the model has been
    called twice and the result is the fallback: it conforms to the
    schema, its summary embeds the reason of the failure (the error of
    the last attempt), its type is ["other"], its priority says that it
    could not be determined, its labels are [["needs-triage"]] and its
    impact states the failure.  The response model of the handler accepts
    it, if it accepts strings as they are. *)
Theorem analyze_issue_never_raises (m : Model) (issue_data : IssueRecord) :
  (exists t d, analyze_issue m issue_data = (t, Return (JObj d)))
  /\ (forall e0 e1,
        attempt_result m (create_prompt issue_data) 0 = Raise e0 ->
        attempt_result m (create_prompt issue_data) 1 = Raise e1 ->
        exists d,
          analyze_issue m issue_data
          = ([EvGenerate (create_prompt issue_data);
              EvGenerate (create_prompt issue_data)], Return (JObj d))
          /\ conforms_to_schema d = true
          /\ dict_get "summary" d
             = Some (JStr ("Analysis unavailable: "
                           +:+ "LLM analysis failed after 2 attempts: "
                           +:+ exn_str e1))
          /\ dict_get "type" d = Some (JStr "other")
          /\ dict_get "priority_score" d
             = Some (JStr "3 - Unable to determine automatically")
          /\ dict_get "suggested_labels" d = Some (JArr [JStr "needs-triage"])
          /\ dict_get "potential_impact" d
             = Some (JStr "Unable to analyze due to LLM error")
          /\ ((forall s, validate_str (JStr s) = Some s) ->
              forall meta,
                App.make_response (dict_set "metadata" (JObj meta) d)
                = Return {| App.summary := "Analysis unavailable: "
                              +:+ "LLM analysis failed after 2 attempts: "
                              +:+ exn_str e1;
                            App.type_ := "other";
                            App.priority_score := "3 - Unable to determine automatically";
                            App.suggested_labels := ["needs-triage"];
                            App.potential_impact := "Unable to analyze due to LLM error";
                            App.metadata := meta |})).
Proof.
  split.
  - apply engine_returns_dict.
  - intros e0 e1 H0 H1.
    unfold analyze_issue, max_retries. cbn [seq retry_loop].
    rewrite !attempt_once_result, H0, H1.
    unfold try_except, raise, ret, fallback, all_failed, str_last_error.
    cbn [app exn_str].
    eexists. split; [reflexivity |].
    split_and!; try reflexivity.
    intros Hstr meta. unfold App.make_response, App.str_field, App.labels_field,
      App.metadata_field.
    rewrite dict_get_set_eq, !dict_get_set_ne by discriminate.
    cbn [dict_get String.eqb Ascii.eqb Bool.eqb App.str_list].
    now rewrite !Hstr.
Qed.

End AnalyzeIssue.

(** ** The request handler *)

Section Handler.
Import GitHubClient App.
Context `{Config} `{Libraries}.

Lemma dict_set_nonempty (k : string) (v : json) (d : dict) : dict_set k v d <> [].
Proof. destruct d as [|[k' v'] d]; simpl; [| destruct (String.eqb k k')]; discriminate. Qed.

(** The path through the [try] block once the cache has been looked up
    in vain. *)
Lemma analyze_issue_miss (w : World) (request : AnalyzeRequest) (cache cache' : cache_t)
  (o : option dict) :
  get_from_cache (time_lookup w)
    (get_cache_key (repo_url request) (issue_number request)) cache
  = (ret o, cache') ->
  o = None \/ o = Some [] ->
  served w request cache (analyze_issue w request cache).
Proof.
  intros Hlook Ho. unfold analyze_issue, analyze_issue_body, hbind.
  rewrite Hlook. unfold ret.
  assert (Hc : (get_from_cache (time_lookup w)
                  (get_cache_key (repo_url request) (issue_number request)) cache).2
               = cache') by now rewrite Hlook.
  destruct (get_issue_data (session w) (repo_url request) (issue_number request))
    as [t1 [issue_data|e]] eqn:Hget.
  - destruct (engine_returns_dict (model w) issue_data) as (t2 & a & Hllm).
    pose proof (served_computed w request cache _ _ _ _ _ Hget Hllm Hc) as Hs.
    destruct Ho as [-> | ->]; unfold lift; rewrite Hllm; cbn [response_data_of];
      unfold set_cache; destruct CACHE_ENABLED;
      destruct (make_response _) eqn:Hm; cbn [app ret] in *;
      rewrite ?app_nil_r; exact Hs.
  - pose proof (served_failed w request cache _ _ _ Hget Hc) as Hs.
    destruct Ho as [-> | ->]; unfold lift; cbn [app]; exact Hs.
Qed.

(** Every request is served in one of the three ways. *)
Lemma analyze_issue_served (w : World) (request : AnalyzeRequest) (cache : cache_t) :
  served w request cache (analyze_issue w request cache).
Proof.
  destruct (get_from_cache (time_lookup w)
              (get_cache_key (repo_url request) (issue_number request)) cache)
    as [[t r] cache'] eqn:Hlook.
  pose proof Hlook as Hlook'. unfold get_from_cache in Hlook'.
  destruct CACHE_ENABLED eqn:En; cbn [negb] in Hlook'.
  - destruct (cache !! _) as [[data ts]|] eqn:L.
    + destruct (Z.ltb_spec (time_lookup w - ts) CACHE_TTL) as [Age|Age].
      * injection Hlook' as <- <- <-.
        destruct data as [|entry rest].
        -- eapply analyze_issue_miss; [exact Hlook | now right].
        -- unfold analyze_issue, analyze_issue_body, hbind. rewrite Hlook.
           unfold ret, lift.
           pose proof (served_hit w request cache (entry :: rest) ts En L Age
                         ltac:(discriminate)) as Hs.
           destruct (make_response (entry :: rest)); exact Hs.
      * injection Hlook' as <- <- <-.
        eapply analyze_issue_miss; [exact Hlook | now left].
    + injection Hlook' as <- <- <-.
      eapply analyze_issue_miss; [exact Hlook | now left].
  - injection Hlook' as <- <- <-.
    eapply analyze_issue_miss; [exact Hlook | now left].
Qed.

End Handler.

Section HandlerProperties.
Import GitHubClient App.
Context `{Config} `{Libraries}.

(** A cache hit: the stored data is validated and returned, nothing is
    called and the cache is left as it is. *)
Lemma analyze_issue_hit (w : World) (request : AnalyzeRequest) (cache : cache_t)
  (data : dict) (ts : Z) :
  CACHE_ENABLED = true ->
  cache !! get_cache_key (repo_url request) (issue_number request) = Some (data, ts) ->
  time_lookup w - ts < CACHE_TTL ->
  data <> [] ->
  analyze_issue w request cache = ([], respond (make_response data), cache).
Proof.
  intros En L Age Hne.
  unfold analyze_issue, analyze_issue_body, hbind, get_from_cache.
  rewrite En, L. cbn [negb].
  destruct (Z.ltb_spec (time_lookup w - ts) CACHE_TTL); [| lia].
  unfold ret, lift. destruct data as [|entry rest]; [congruence |].
  now destruct (make_response (entry :: rest)).
Qed.

Lemma respond_ok (r : result AnalysisResponse) (response : AnalysisResponse) :
  respond r = Ok200 response -> r = Return response.
Proof.
  destruct r as [a|e]; simpl.
  - now intros [= ->].
  - unfold http_exception. destruct (is_ValueError e); discriminate.
Qed.

Lemma lookup_leaves_other_keys (now : Z) (k k' : string) (cache : cache_t) :
  k' <> k -> (get_from_cache now k' cache).2 !! k = cache !! k.
Proof.
  intros Hne. unfold get_from_cache.
  destruct (negb CACHE_ENABLED); [reflexivity |].
  destruct (cache !! k') as [[data ts]|]; [| reflexivity].
  destruct (now - ts <? CACHE_TTL); [reflexivity |].
  cbn [snd]. now apply lookup_delete_ne.
Qed.

Lemma served_leaves_other_keys (w : World) (r : AnalyzeRequest) (cache : cache_t)
  (out : list event * http_response * cache_t) (k : string) :
  served w r cache out ->
  get_cache_key (repo_url r) (issue_number r) <> k ->
  out.2 !! k = cache !! k.
Proof.
  intros Hs Hne.
  destruct Hs as [data ts En L Age Hd
                 | t e c Hget Hc
                 | t1 t2 issue_data a c Hget Hllm Hc]; cbn [snd].
  - reflexivity.
  - subst c. now apply lookup_leaves_other_keys.
  - subst c. destruct CACHE_ENABLED.
    + rewrite lookup_insert_ne by assumption. now apply lookup_leaves_other_keys.
    + now apply lookup_leaves_other_keys.
Qed.

(** Requests with other keys leave the entry under [k] as it is. *)
Lemma run_leaves_other_keys (rqs : list request) (cache : cache_t) (k : string) :
  Forall (other_key k) rqs -> (run rqs cache).2 !! k = cache !! k.
Proof.
  intros Hall. revert cache; induction Hall as [|rq rqs Hrq _ IH]; intros cache;
    [reflexivity |].
  cbn [run]. destruct (serve rq cache) as [rp cache'] eqn:Hserve.
  specialize (IH cache'). destruct (run rqs cache') as [rps cache''].
  cbn [snd] in IH |- *. rewrite IH.
  destruct rq as [w r|]; [| contradiction]. cbn [serve other_key] in Hserve, Hrq.
  pose proof (served_leaves_other_keys w r cache _ k
                (analyze_issue_served w r cache) Hrq) as Hk.
  destruct (analyze_issue w r cache) as [[t response] c].
  now injection Hserve as _ <-.
Qed.

(** C3. With caching enabled, let a first request be answered with an
    analysis after calls to the outside (it was not itself served from the
    cache).  Then an identical request whose lookup comes less than
    [CACHE_TTL] after the first one, with any number of requests for other
    keys served in between, is answered with the same analysis, calls
    neither the retriever nor the engine, whatever they would have
    answered, and leaves the cache as it is. *)
Theorem second_request_served_from_cache (w1 w2 : World) (request : AnalyzeRequest)
  (cache0 cache1 : cache_t) (calls : list event) (response : AnalysisResponse)
  (between : list App.request) :
  CACHE_ENABLED = true ->
  analyze_issue w1 request cache0 = (calls, Ok200 response, cache1) ->
  calls <> [] ->
  time_lookup w1 <= time_store w1 ->
  time_lookup w2 - time_lookup w1 < CACHE_TTL ->
  Forall (other_key (get_cache_key (repo_url request) (issue_number request))) between ->
  analyze_issue w2 request (run between cache1).2
  = ([], Ok200 response, (run between cache1).2).
Proof.
  intros En Hfirst Hcalls Hclock Hsoon Hbetween.
  pose proof (analyze_issue_served w1 request cache0) as Hs.
  rewrite Hfirst in Hs.
  remember (calls, Ok200 response, cache1) as out eqn:Hout.
  destruct Hs as [data ts _ L Age Hne
                 | t e c Hget Hc
                 | t1 t2 issue_data a c Hget Hllm Hc];
    injection Hout as Hcalls' Hresp Hcache.
  - congruence.
  - unfold http_exception in Hresp. destruct (is_ValueError e); discriminate.
  - apply respond_ok in Hresp.
    rewrite En in Hcache. subst cache1.
    rewrite (analyze_issue_hit w2 request _
               (dict_set "metadata" (JObj (metadata_of issue_data)) a)
               (time_store w1) En).
    + now rewrite Hresp.
    + rewrite (run_leaves_other_keys _ _ _ Hbetween). apply lookup_insert_eq.
    + lia.
    + apply dict_set_nonempty.
Qed.

Lemma make_response_metadata (d : dict) (response : AnalysisResponse) :
  make_response d = Return response -> metadata_field d = Some (metadata response).
Proof.
  unfold make_response.
  destruct (str_field d "summary"), (str_field d "type"),
    (str_field d "priority_score"), (labels_field d),
    (str_field d "potential_impact"), (metadata_field d);
    try discriminate.
  now intros [= <-].
Qed.

Lemma respond_not_flagged (t : list event) (data : dict) :
  entry_not_flagged data -> not_flagged (AnalyzeReply t (respond (make_response data))).
Proof.
  intros (m & Hm & Hc). destruct (make_response data) as [response|e] eqn:E; simpl.
  - apply make_response_metadata in E. unfold metadata_field in E.
    rewrite Hm in E. now injection E as <-.
  - unfold http_exception. now destruct (is_ValueError e).
Qed.

Lemma fresh_entry_not_flagged (issue_data : IssueRecord) (a : dict) :
  entry_not_flagged (dict_set "metadata" (JObj (metadata_of issue_data)) a).
Proof.
  exists (metadata_of issue_data). split; [apply dict_get_set_eq | reflexivity].
Qed.

Lemma lookup_keeps_not_flagged (now : Z) (key : string) (cache : cache_t) :
  cache_not_flagged cache -> cache_not_flagged (get_from_cache now key cache).2.
Proof.
  intros Hc. unfold get_from_cache.
  destruct (negb CACHE_ENABLED); [exact Hc |].
  destruct (cache !! key) as [[data ts]|]; [| exact Hc].
  destruct (now - ts <? CACHE_TTL); [exact Hc |].
  intros k d t Hk. cbn [snd] in Hk.
  apply lookup_delete_Some in Hk as [_ Hk]. eapply Hc, Hk.
Qed.

Lemma served_not_flagged (w : World) (request : AnalyzeRequest) (cache cache' : cache_t)
  (t : list event) (response : http_response) :
  cache_not_flagged cache ->
  served w request cache (t, response, cache') ->
  not_flagged (AnalyzeReply t response) /\ cache_not_flagged cache'.
Proof.
  intros Hc Hs.
  remember (t, response, cache') as out eqn:Hout.
  destruct Hs as [data ts En L Age Hne
                 | t0 e c Hget Hcache
                 | t1 t2 issue_data a c Hget Hllm Hcache];
    injection Hout as Ht Hr Hc'; subst t response cache'.
  - split; [| exact Hc]. apply respond_not_flagged. eapply Hc, L.
  - split; [| subst c; now apply lookup_keeps_not_flagged].
    simpl. unfold http_exception. now destruct (is_ValueError e).
  - split; [apply respond_not_flagged, fresh_entry_not_flagged |].
    pose proof (lookup_keeps_not_flagged (time_lookup w)
                  (get_cache_key (repo_url request) (issue_number request))
                  cache Hc) as Hc'.
    rewrite Hcache in Hc'.
    destruct CACHE_ENABLED; [| exact Hc'].
    intros k d ts Hk. apply lookup_insert_Some in Hk as [[_ [= <- _]] | [_ Hk]].
    + apply fresh_entry_not_flagged.
    + eapply Hc', Hk.
Qed.

Lemma run_not_flagged (rqs : list request) (cache : cache_t) :
  cache_not_flagged cache ->
  Forall not_flagged (run rqs cache).1 /\ cache_not_flagged (run rqs cache).2.
Proof.
  revert cache; induction rqs as [|rq rqs IH]; intros cache Hc.
  - split; [constructor | exact Hc].
  - cbn [run].
    destruct (serve rq cache) as [rp cache'] eqn:Hserve.
    assert (Hstep : not_flagged rp /\ cache_not_flagged cache').
    { destruct rq as [w r|]; cbn [serve] in Hserve.
      - pose proof (analyze_issue_served w r cache) as Hs.
        destruct (analyze_issue w r cache) as [[t response] c].
        injection Hserve as <- <-. eapply served_not_flagged; eassumption.
      - unfold clear_cache, ret in Hserve. injection Hserve as <- <-.
        split; [exact I |]. intros k d ts Hk. now rewrite lookup_empty in Hk. }
    destruct Hstep as [Hrp Hc'].
    destruct (IH cache' Hc') as [Hrps Hfinal].
    destruct (run rqs cache') as [rps cache'']. split; [constructor |]; assumption.
Qed.

(** C10. No response carries [cached = True].  Starting from the empty
    cache, whatever the requests and whatever the outside answers, every
    analysis sent to a client has the flag [cached] of its metadata set to
    [False], and so has every entry of the cache: a hit returns the data
    as it was stored, and it was stored with [cached = False]. *)
Theorem cached_flag_always_false (rqs : list request) :
  Forall not_flagged (run rqs ∅).1
  /\ cache_not_flagged (run rqs ∅).2
  /\ (forall w request cache data ts,
        CACHE_ENABLED = true ->
        cache !! get_cache_key (repo_url request) (issue_number request)
        = Some (data, ts) ->
        time_lookup w - ts < CACHE_TTL -> data <> [] ->
        analyze_issue w request cache = ([], respond (make_response data), cache))
  /\ (forall issue_data,
        dict_get "cached" (metadata_of issue_data) = Some (JBool false)).
Proof.
  assert (Hempty : cache_not_flagged ∅).
  { intros k d ts Hk. now rewrite lookup_empty in Hk. }
  destruct (run_not_flagged rqs ∅ Hempty) as [Hr Hc].
  split_and!; auto.
  intros w request cache data ts. apply analyze_issue_hit.
Qed.

End HandlerProperties.

(** ** Upstream failures *)

Section Upstream.
Import GitHubClient App.
Context `{Config} `{Libraries}.

(** What the handler answers when the issue request fails upstream: every
    failure of [fetch_issue] is raised as a [ValueError], and the handler
    answers a [ValueError] with status 400. *)
Lemma upstream_failure_answered_400 (w : World) (request : AnalyzeRequest)
  (cache : cache_t) (owner repo : string) :
  cache !! get_cache_key (repo_url request) (issue_number request) = None ->
  parse_repo_url (repo_url request) = Return (owner, repo) ->
  (forall status msg,
     get_issue (session w) (issue_url owner repo (issue_number request))
     = HttpStatusError status msg ->
     status <> 404 -> status <> 403 ->
     analyze_issue w request cache
     = ([EvGetIssue (issue_url owner repo (issue_number request))],
        HTTPException 400 ("GitHub API error: " +:+ msg), cache))
  /\ (forall e,
        get_issue (session w) (issue_url owner repo (issue_number request))
        = Failed e ->
        is_RequestException e = true ->
        analyze_issue w request cache
        = ([EvGetIssue (issue_url owner repo (issue_number request))],
           HTTPException 400 ("Failed to connect to GitHub API: " +:+ exn_str e),
           cache)).
Proof.
  intros L Hp.
  assert (Hbody : forall e,
            fetch_issue (session w) owner repo (issue_number request)
            = ([EvGetIssue (issue_url owner repo (issue_number request))], Raise e) ->
            is_ValueError e = true ->
            analyze_issue w request cache
            = ([EvGetIssue (issue_url owner repo (issue_number request))],
               HTTPException 400 (exn_str e), cache)).
  { intros e Hf Hv.
    unfold analyze_issue, analyze_issue_body, hbind, get_from_cache.
    rewrite L, (get_issue_data_parsed _ _ _ _ _ Hp), Hf.
    unfold http_exception; destruct (negb CACHE_ENABLED); cbn; now rewrite Hv. }
  split.
  - intros status msg Hg H404 H403. rewrite (Hbody (Exn ValueError ("GitHub API error: " +:+ msg))).
    + reflexivity.
    + unfold fetch_issue. rewrite Hg.
      destruct (Z.eqb_spec status 404); [congruence |].
      destruct (Z.eqb_spec status 403); [congruence | reflexivity].
    + reflexivity.
  - intros e Hg He.
    rewrite (Hbody (Exn ValueError ("Failed to connect to GitHub API: " +:+ exn_str e))).
    + reflexivity.
    + unfold fetch_issue. now rewrite Hg, He.
    + reflexivity.
Qed.

(** The errors that are the client's: a URL that does not parse, an issue
    that does not exist, a rate limit.  They are answered with status 400
    too. *)
Lemma client_errors_answered_400 (w : World) (request : AnalyzeRequest)
  (cache : cache_t) :
  cache !! get_cache_key (repo_url request) (issue_number request) = None ->
  (parse_repo_url (repo_url request) = Raise (invalid_url (repo_url request)) ->
   analyze_issue w request cache
   = ([], HTTPException 400 (exn_str (invalid_url (repo_url request))), cache))
  /\ (forall owner repo status msg,
        parse_repo_url (repo_url request) = Return (owner, repo) ->
        get_issue (session w) (issue_url owner repo (issue_number request))
        = HttpStatusError status msg ->
        status = 404 \/ status = 403 ->
        analyze_issue w request cache
        = ([EvGetIssue (issue_url owner repo (issue_number request))],
           HTTPException 400
             (exn_str (if status =? 404
                       then not_found owner repo (issue_number request)
                       else rate_limited)),
           cache)).
Proof.
  intros L. split.
  - intros Hp.
    unfold analyze_issue, analyze_issue_body, hbind, get_from_cache, get_issue_data.
    rewrite L, Hp. now destruct (negb CACHE_ENABLED).
  - intros owner repo status msg Hp Hg Hs.
    unfold analyze_issue, analyze_issue_body, hbind, get_from_cache.
    rewrite L, (get_issue_data_parsed _ _ _ _ _ Hp).
    unfold fetch_issue. rewrite Hg.
    destruct Hs as [-> | ->]; now destruct (negb CACHE_ENABLED).
Qed.

End Upstream.

(** C4 (the code departs from it). In the scenario, with the defaults of
    [config.py] and an empty cache: when the hosting API answers the issue
    request with status 500, and when it cannot be reached, the client
    receives status 400, not a status of the 500 class. *)
Theorem upstream_failures_answered_400_not_500 `{Libraries} :
  @App.analyze_issue App.default_config _ (Scenario.world_of Scenario.server_error)
    Scenario.request ∅
  = ([EvGetIssue "https://api.github.com/repos/octocat/Hello-World/issues/1347"],
     App.HTTPException 400
       "GitHub API error: 500 Server Error: Internal Server Error for url", ∅)
  /\ @App.analyze_issue App.default_config _ (Scenario.world_of Scenario.unreachable)
       Scenario.request ∅
     = ([EvGetIssue "https://api.github.com/repos/octocat/Hello-World/issues/1347"],
        App.HTTPException 400
          "Failed to connect to GitHub API: Max retries exceeded", ∅).
Proof.
  split.
  - apply (proj1 (@upstream_failure_answered_400 App.default_config _
                    (Scenario.world_of Scenario.server_error) Scenario.request ∅
                    "octocat" "Hello-World" (lookup_empty _) eq_refl)
             500 "500 Server Error: Internal Server Error for url");
      [reflexivity | discriminate | discriminate].
  - apply (proj2 (@upstream_failure_answered_400 App.default_config _
                    (Scenario.world_of Scenario.unreachable) Scenario.request ∅
                    "octocat" "Hello-World" (lookup_empty _) eq_refl)
             (Exn ConnectionError "Max retries exceeded"));
      reflexivity.
Qed.

(** ** The properties at work on the scenario *)

Section Witnesses.
Import GitHubClient LLMAnalyzer App Scenario.

Example get_issue_data_scenario :
  get_issue_data healthy (repo_url request) (issue_number request)
  = ([EvGetIssue "https://api.github.com/repos/octocat/Hello-World/issues/1347";
      EvGetComments
        "https://api.github.com/repos/octocat/Hello-World/issues/1347/comments"],
     Return record).
Proof. vm_compute. reflexivity. Qed.

Example first_request_scenario :
  (@analyze_issue default_config Fragment.libraries first_world request ∅).1
  = ([EvGetIssue "https://api.github.com/repos/octocat/Hello-World/issues/1347";
      EvGetComments
        "https://api.github.com/repos/octocat/Hello-World/issues/1347/comments";
      EvGenerate (create_prompt record)],
     Ok200 expected_response).
Proof. vm_compute. reflexivity. Qed.

(** Two spellings of one repository: the same owner and name, two keys. *)
Lemma get_cache_key_separates_urls_witness :
  parse_repo_url "https://github.com/octocat/Hello-World"
  = parse_repo_url "https://github.com/octocat/Hello-World.git"
  /\ get_cache_key "https://github.com/octocat/Hello-World" 7
     <> get_cache_key "https://github.com/octocat/Hello-World.git" 7.
Proof.
  split; [reflexivity |].
  apply (proj2 (get_cache_key_separates_urls
                  "https://github.com/octocat/Hello-World"
                  "https://github.com/octocat/Hello-World.git" 7)).
  discriminate.
Defined.

(** An entry stored at time 1000 under the defaults of [config.py]: read
    at time 2000, gone at time 4600. *)
Lemma get_from_cache_contract_witness :
  (@get_from_cache default_config 2000 "k" {[ "k" := ([("type", JStr "bug")], 1000) ]}).1.2
  = Return (Some [("type", JStr "bug")])
  /\ @get_from_cache default_config 4600 "k" {[ "k" := ([("type", JStr "bug")], 1000) ]}
     = (ret None, delete "k" {[ "k" := ([("type", JStr "bug")], 1000) ]}).
Proof.
  split.
  - apply (proj1 (proj2 (proj2 (@get_from_cache_contract default_config 2000 "k"
                                  {[ "k" := ([("type", JStr "bug")], 1000) ]})))).
    split; [reflexivity |].
    exists 1000. split; [apply lookup_singleton_eq | reflexivity].
  - apply (proj2 (proj2 (proj2 (proj2 (proj2
             (@get_from_cache_contract default_config 4600 "k"
                {[ "k" := ([("type", JStr "bug")], 1000) ]})))))
             [("type", JStr "bug")] 1000).
    + reflexivity.
    + apply lookup_singleton_eq.
    + discriminate.
Defined.

(** The comments request times out: no comments, and the record all the
    same. *)
Lemma fetch_comments_never_fails_witness :
  fetch_comments no_comments "octocat" "Hello-World" 1347
  = ([EvGetComments
        "https://api.github.com/repos/octocat/Hello-World/issues/1347/comments"],
     Return [])
  /\ exists r, (get_issue_data no_comments (repo_url request) 1347).2 = Return r
               /\ comments r = Some [].
Proof.
  pose proof (fetch_comments_never_fails no_comments "octocat" "Hello-World" 1347
                eq_refl) as (Hfetch & _ & Hdata).
  split; [exact Hfetch |].
  destruct (Hdata (repo_url request) issue ["bug"] eq_refl eq_refl eq_refl)
    as (r & Hr & Hc & _).
  exists r. now rewrite Hr.
Defined.

(** The fenced answer of the scenario: only the object between the fence
    lines is decoded, and the two coercions are made. *)
Lemma parse_response_contract_witness :
  Py.strip answer = Py.join Py.nl ("```json" :: answer_lines ++ ["```"])
  /\ @parse_response Fragment.libraries answer
     = Return (JObj [ ("summary", JStr "Crash on submit");
                      ("type", JStr "other");
                      ("priority_score", JStr "4 - High: blocks the form");
                      ("suggested_labels", JArr [JStr "bug"]);
                      ("potential_impact", JStr "Users cannot submit the form") ]).
Proof.
  assert (Hstrip : Py.strip answer = Py.join Py.nl ("```json" :: answer_lines ++ ["```"]))
    by (vm_compute; reflexivity).
  split; [exact Hstrip |].
  rewrite (proj1 (@parse_response_contract Fragment.libraries answer)
             "```json" answer_lines "```" [] Hstrip eq_refl).
  - vm_compute. reflexivity.
  - repeat constructor.
  - repeat constructor.
  - reflexivity.
Defined.

(** Eleven comments: the eleventh does not reach the prompt. *)
Lemma create_prompt_deterministic_and_bounded_witness :
  create_prompt
    (with_comments record
       (repeat {| author := Some "a"; body := Some "x"; created_at := None |} 10
        ++ [ {| author := Some "b"; body := Some "first"; created_at := None |} ]))
  = create_prompt
      (with_comments record
         (repeat {| author := Some "a"; body := Some "x"; created_at := None |} 10
          ++ [ {| author := Some "c"; body := Some "second"; created_at := None |} ])).
Proof.
  apply (proj1 (create_prompt_deterministic_and_bounded _)).
  reflexivity.
Defined.

(** The model raises, then answers prose: the fallback. *)
Lemma analyze_issue_never_raises_witness :
  exists d,
    @LLMAnalyzer.analyze_issue Fragment.libraries failing record
    = ([EvGenerate (create_prompt record); EvGenerate (create_prompt record)],
       Return (JObj d))
    /\ dict_get "type" d = Some (JStr "other")
    /\ dict_get "suggested_labels" d = Some (JArr [JStr "needs-triage"]).
Proof.
  destruct (proj2 (@analyze_issue_never_raises Fragment.libraries failing record)
              (Exn OtherException "503 The model is overloaded")
              (Exn ValueError
                 ("Failed to parse LLM response as JSON: Expecting value" +:+ Py.nl
                  +:+ "Response: I cannot analyze this issue."))
              eq_refl eq_refl)
    as (d & Hres & _ & _ & Htype & _ & Hlabels & _).
  exists d. auto.
Defined.

(** The second request of the scenario comes 3599 seconds after the
    first, after a request about another issue, when the hosting API is
    down and the model fails: it is answered from the cache. *)
Lemma second_request_served_from_cache_witness :
  (@analyze_issue default_config Fragment.libraries first_world request ∅).1.2
  = Ok200 expected_response
  /\ @analyze_issue default_config Fragment.libraries second_world request
       (@run default_config Fragment.libraries [Analyze first_world other_request]
          (@analyze_issue default_config Fragment.libraries first_world request ∅).2).2
     = ([], Ok200 expected_response,
        (@run default_config Fragment.libraries [Analyze first_world other_request]
           (@analyze_issue default_config Fragment.libraries first_world request ∅).2).2).
Proof.
  pose proof first_request_scenario as Hfirst.
  destruct (@analyze_issue default_config Fragment.libraries first_world request ∅)
    as [[calls response] cache1] eqn:E.
  cbn [fst snd] in Hfirst |- *. injection Hfirst as -> ->.
  split; [reflexivity |].
  apply (@second_request_served_from_cache default_config Fragment.libraries
           first_world second_world request ∅ cache1 _ expected_response
           [Analyze first_world other_request] eq_refl E).
  - discriminate.
  - discriminate.
  - reflexivity.
  - repeat constructor. discriminate.
Defined.

(** The two requests of the scenario: the second reply comes from the
    cache and says [cached = False]. *)
Lemma cached_flag_always_false_witness :
  exists response,
    (@run default_config Fragment.libraries
       [Analyze first_world request; Analyze second_world request] ∅).1
    !! 1%nat = Some (AnalyzeReply [] (Ok200 response))
    /\ dict_get "cached" (metadata response) = Some (JBool false).
Proof.
  pose proof (proj1 (@cached_flag_always_false default_config Fragment.libraries
                       [Analyze first_world request; Analyze second_world request]))
    as Hall.
  assert (Hrun : (@run default_config Fragment.libraries
                    [Analyze first_world request; Analyze second_world request] ∅).1
                 !! 1%nat = Some (AnalyzeReply [] (Ok200 expected_response)))
    by (vm_compute; reflexivity).
  exists expected_response. split; [exact Hrun |].
  apply (proj1 (Forall_lookup _ _) Hall 1%nat _ Hrun).
Defined.

End Witnesses.

(* ===================================================================== *)
(** * Part IV: further properties of the code *)
(* ===================================================================== *)

From Stdlib Require Import DecimalZ DecimalPos.

(** ** The cache: storing, expiry, keys and clearing *)

Section MoreCache.
Import GitHubClient App.
Context `{Config} `{Libraries}.

(** X1. Storing and looking up.  With caching enabled, what [set_cache]
    stores under a key is what [get_from_cache] returns for that key as
    long as less than [CACHE_TTL] has passed since the store, and the
    lookup leaves the cache as it is.  A store replaces what was stored
    under the key before, time stamp included, and touches no other
    key. *)
Theorem set_cache_then_get_from_cache (stored now : Z) (key : string) (data : dict)
  (cache : cache_t) :
  CACHE_ENABLED = true ->
  now - stored < CACHE_TTL ->
  get_from_cache now key (set_cache stored key data cache).2
  = (ret (Some data), (set_cache stored key data cache).2)
  /\ (forall data0 stored0,
        (set_cache stored key data (set_cache stored0 key data0 cache).2).2
        = (set_cache stored key data cache).2)
  /\ (forall k, k <> key -> (set_cache stored key data cache).2 !! k = cache !! k).
Proof.
  intros En Age. unfold set_cache, get_from_cache. rewrite En. cbn [negb snd].
  split_and!.
  - rewrite lookup_insert_eq.
    destruct (Z.ltb_spec (now - stored) CACHE_TTL); [reflexivity | lia].
  - intros data0 stored0. apply insert_insert_eq.
  - intros k Hk. now apply lookup_insert_ne.
Qed.

(** X2. An expired entry counts as absent.  With caching enabled, a
    request whose key has an entry of age [CACHE_TTL] or more is served
    exactly as it would be had the entry never been there: same calls,
    same response, same cache afterwards; and the calls begin with those
    of the retriever, so the answer is computed afresh. *)
Theorem expired_entry_is_absent (w : World) (request : AnalyzeRequest)
  (cache : cache_t) (data : dict) (ts : Z) :
  CACHE_ENABLED = true ->
  cache !! get_cache_key (repo_url request) (issue_number request) = Some (data, ts) ->
  CACHE_TTL <= time_lookup w - ts ->
  analyze_issue w request cache
  = analyze_issue w request
      (delete (get_cache_key (repo_url request) (issue_number request)) cache)
  /\ exists rest,
       (analyze_issue w request cache).1.1
       = (get_issue_data (session w) (repo_url request) (issue_number request)).1
         ++ rest.
Proof.
  intros En L Old.
  assert (Hlook : get_from_cache (time_lookup w)
                    (get_cache_key (repo_url request) (issue_number request)) cache
                  = (ret None,
                     delete (get_cache_key (repo_url request) (issue_number request))
                       cache)).
  { unfold get_from_cache. rewrite En, L. cbn [negb].
    destruct (Z.ltb_spec (time_lookup w - ts) CACHE_TTL); [lia | reflexivity]. }
  assert (Hlook' : get_from_cache (time_lookup w)
                     (get_cache_key (repo_url request) (issue_number request))
                     (delete (get_cache_key (repo_url request) (issue_number request))
                        cache)
                   = (ret None,
                      delete (get_cache_key (repo_url request) (issue_number request))
                        cache)).
  { unfold get_from_cache. rewrite En, lookup_delete_eq. reflexivity. }
  split.
  - unfold analyze_issue, analyze_issue_body, hbind. now rewrite Hlook, Hlook'.
  - unfold analyze_issue, analyze_issue_body, hbind. rewrite Hlook. unfold ret, lift.
    destruct (get_issue_data (session w) (repo_url request) (issue_number request))
      as [t1 [issue_data|e]]; cbn [fst app].
    + destruct (LLMAnalyzer.analyze_issue (model w) issue_data) as [t2 [a|e]].
      * destruct (response_data_of a issue_data) as [rd|e]; cbn [fst snd app].
        -- destruct (set_cache (time_store w) _ rd _) as [[t3 [u|e]] c];
             destruct (make_response rd); cbn; eauto.
        -- cbn; eauto.
      * cbn; eauto.
    + exists []. now rewrite app_nil_r.
Qed.

Lemma no_colon_uint (d : Decimal.uint) : no_colon (NilEmpty.string_of_uint d) = true.
Proof. induction d; simpl; auto. Qed.

(** The decimal form of an integer has no colon in it. *)
Lemma no_colon_str_of_int (n : Z) : no_colon (Py.str_of_int n) = true.
Proof.
  unfold Py.str_of_int.
  destruct (Z.to_int n) as [d|d]; cbn [NilZero.string_of_int no_colon];
    (destruct d; [reflexivity | apply no_colon_uint ..]).
Qed.

(** Two integers with the same decimal form are equal. *)
Lemma str_of_int_inj (n n' : Z) : Py.str_of_int n = Py.str_of_int n' -> n = n'.
Proof.
  unfold Py.str_of_int. intros E. apply to_int_inj.
  assert (Hnn : forall z, Z.to_int z <> Decimal.Pos Decimal.Nil
                          /\ Z.to_int z <> Decimal.Neg Decimal.Nil).
  { intros [|p|p]; simpl; split; try discriminate;
      intros [= Hp]; now apply Unsigned.to_uint_nonnil in Hp. }
  destruct (Hnn n) as [Hp Hm], (Hnn n') as [Hp' Hm'].
  apply (f_equal NilZero.int_of_string) in E.
  rewrite !NilZero.isi in E by assumption. now injection E.
Qed.

Lemma no_colon_middle (a b : string) : no_colon (a +:+ String ":" b) = false.
Proof.
  induction a as [|c a IH]; [reflexivity |].
  rewrite append_cons. cbn [no_colon]. rewrite IH. apply andb_false_r.
Qed.

(** The text after the last [::] determines the text before it. *)
Lemma split_at_last_colons (u1 u2 d1 d2 : string) :
  no_colon d1 = true -> no_colon d2 = true ->
  u1 +:+ "::" +:+ d1 = u2 +:+ "::" +:+ d2 -> u1 = u2 /\ d1 = d2.
Proof.
  intros H1 H2. revert u2; induction u1 as [|c u1 IH]; intros u2 E.
  - destruct u2 as [|c2 [|c3 u2]];
      rewrite ?append_cons, ?append_nil_l in E.
    + now injection E.
    + injection E as <- E. subst d1. discriminate.
    + injection E as <- <- E. subst d1. now rewrite no_colon_middle in H1.
  - destruct u2 as [|c2 u2].
    + destruct u1 as [|c3 u1]; rewrite ?append_cons, ?append_nil_l in E.
      * injection E as -> E. subst d2. discriminate.
      * injection E as -> -> E. subst d2. now rewrite no_colon_middle in H2.
    + rewrite !append_cons in E. injection E as -> E.
      destruct (IH _ E) as [-> ->]. auto.
Qed.

(** X3. Cache keys never collide: two requests have the same key only if
    they have the same URL and the same issue number, whatever the URLs
    contain, colons included. *)
Theorem get_cache_key_injective (u1 u2 : string) (n1 n2 : Z) :
  get_cache_key u1 n1 = get_cache_key u2 n2 <-> u1 = u2 /\ n1 = n2.
Proof.
  split.
  - unfold get_cache_key. intros E.
    apply split_at_last_colons in E as [-> E]; try apply no_colon_str_of_int.
    split; [reflexivity | now apply str_of_int_inj].
  - now intros [-> ->].
Qed.

End MoreCache.

(** ** The server: clearing, caching switched off, rejected analyses *)

Section MoreServer.
Import GitHubClient App.
Context `{Config} `{Libraries}.

Lemma run_app (before after : list request) (cache : cache_t) :
  run (before ++ after) cache
  = ((run before cache).1 ++ (run after (run before cache).2).1,
     (run after (run before cache).2).2).
Proof.
  revert cache; induction before as [|rq before IH]; intros cache.
  - cbn [app run fst snd]. now destruct (run after cache).
  - cbn [app run]. destruct (serve rq cache) as [rp cache'].
    rewrite IH. destruct (run before cache') as [rps c]. cbn [fst snd].
    reflexivity.
Qed.

(** X4. Clearing forgets everything.  After [DELETE /api/cache] the
    server answers as one that has just started: the replies to the
    requests that follow, and the cache they leave, do not depend on
    anything that happened before the clear. *)
Theorem clear_cache_forgets (before after : list request) (cache : cache_t) :
  run (before ++ ClearCache :: after) cache
  = ((run before cache).1 ++ ClearReply "Cache cleared successfully" :: (run after ∅).1,
     (run after ∅).2).
Proof.
  rewrite run_app. cbn [run serve]. unfold clear_cache, ret.
  now destruct (run after ∅).
Qed.

(** X8. With caching disabled the handler neither reads nor writes the
    cache: the calls and the response are those of a server with an empty
    cache, and the cache is left as it is. *)
Theorem caching_disabled_bypasses_cache (w : World) (request : AnalyzeRequest)
  (cache : cache_t) :
  CACHE_ENABLED = false ->
  analyze_issue w request cache = ((analyze_issue w request ∅).1, cache).
Proof.
  intros En.
  unfold analyze_issue, analyze_issue_body, hbind, get_from_cache, set_cache, lift.
  rewrite En. cbn [negb]. unfold ret.
  destruct (get_issue_data (session w) (repo_url request) (issue_number request))
    as [t1 [issue_data|e]]; [| reflexivity].
  destruct (LLMAnalyzer.analyze_issue (model w) issue_data) as [t2 [a|e]];
    [| reflexivity].
  destruct (response_data_of a issue_data) as [rd|e]; [| reflexivity].
  destruct (make_response rd); reflexivity.
Qed.

Lemma make_response_raises (d : dict) (e : exn) :
  make_response d = Raise e -> e = Exn ValidationError (validation_error d).
Proof.
  unfold make_response.
  destruct (str_field d "summary"), (str_field d "type"),
    (str_field d "priority_score"), (labels_field d),
    (str_field d "potential_impact"), (metadata_field d);
    congruence.
Qed.

(** X7. An analysis that the response model rejects is cached all the
    same, because the handler stores the data before it builds the
    response.  With caching enabled and no entry for the key, if the
    retrieval succeeds and the response model rejects the data built from
    the analysis, the client receives status 400 with the validation
    error, the data is stored, and an identical request less than
    [CACHE_TTL] after the store receives the same 400 without any call. *)
Theorem rejected_analysis_is_cached (w1 w2 : World) (request : AnalyzeRequest)
  (cache0 : cache_t) (issue_data : IssueRecord) (t1 t2 : list event)
  (a : dict) (e : exn) :
  CACHE_ENABLED = true ->
  cache0 !! get_cache_key (repo_url request) (issue_number request) = None ->
  get_issue_data (session w1) (repo_url request) (issue_number request)
  = (t1, Return issue_data) ->
  LLMAnalyzer.analyze_issue (model w1) issue_data = (t2, Return (JObj a)) ->
  make_response (dict_set "metadata" (JObj (metadata_of issue_data)) a) = Raise e ->
  time_lookup w2 - time_store w1 < CACHE_TTL ->
  analyze_issue w1 request cache0
  = (t1 ++ t2, HTTPException 400 (exn_str e),
     <[get_cache_key (repo_url request) (issue_number request) :=
         (dict_set "metadata" (JObj (metadata_of issue_data)) a, time_store w1)]>
       cache0)
  /\ analyze_issue w2 request (analyze_issue w1 request cache0).2
     = ([], HTTPException 400 (exn_str e), (analyze_issue w1 request cache0).2).
Proof.
  intros En L Hget Hllm Hrej Hsoon.
  assert (Hfirst : analyze_issue w1 request cache0
                   = (t1 ++ t2, HTTPException 400 (exn_str e),
                      <[get_cache_key (repo_url request) (issue_number request) :=
                          (dict_set "metadata" (JObj (metadata_of issue_data)) a,
                           time_store w1)]> cache0)).
  { unfold analyze_issue, analyze_issue_body, hbind, get_from_cache, set_cache, lift.
    rewrite En, L. cbn [negb]. unfold ret. rewrite Hget, Hllm.
    cbn [response_data_of]. rewrite Hrej.
    apply make_response_raises in Hrej as ->. cbn. now rewrite !app_nil_r. }
  split; [exact Hfirst |].
  rewrite Hfirst. cbn [snd].
  rewrite (analyze_issue_hit w2 request _
             (dict_set "metadata" (JObj (metadata_of issue_data)) a)
             (time_store w1) En).
  - rewrite Hrej. apply make_response_raises in Hrej as ->. reflexivity.
  - apply lookup_insert_eq.
  - exact Hsoon.
  - apply dict_set_nonempty.
Qed.

End MoreServer.

(** ** The engine: retries and the shape of its result *)

Section MoreEngine.
Import GitHubClient LLMAnalyzer.
Context `{Libraries}.

Lemma dict_has_set (f k : string) (v : json) (d : dict) :
  dict_has f d = true -> dict_has f (dict_set k v d) = true.
Proof.
  unfold dict_has. intros Hf.
  destruct (String.eqb_spec k f) as [->|Hne].
  - now rewrite dict_get_set_eq.
  - now rewrite dict_get_set_ne.
Qed.

Lemma well_shaped_coerced (d : dict) (t l : json) :
  first_missing d = None ->
  dict_get "type" d = Some t -> dict_get "suggested_labels" d = Some l ->
  well_shaped (coerced d t l) = true.
Proof.
  intros Hm Ht Hl. rewrite first_missing_none in Hm.
  unfold well_shaped. rewrite !andb_true_iff. split_and!.
  - apply forallb_forall. intros f Hf. specialize (Hm f Hf). unfold coerced.
    destruct (is_valid_type t), (is_list l); auto using dict_has_set.
  - unfold coerced. destruct (is_valid_type t) eqn:Hv, (is_list l);
      rewrite ?dict_get_set_ne by discriminate;
      rewrite ?dict_get_set_eq, ?Ht; auto.
  - unfold coerced. destruct (is_valid_type t), (is_list l) eqn:Hi;
      rewrite ?dict_get_set_eq; auto;
      rewrite ?dict_get_set_ne by discriminate; rewrite ?Hl; auto.
Qed.

Lemma dict_has_get (f : string) (d : dict) :
  dict_has f d = true -> exists v, dict_get f d = Some v.
Proof. unfold dict_has. destruct (dict_get f d); [eauto | discriminate]. Qed.

Lemma validate_well_shaped (data v : json) :
  validate data = Return v -> exists d, v = JObj d /\ well_shaped d = true.
Proof.
  intros Hv. destruct (validate_returns_dict _ _ Hv) as [[d ->] _].
  destruct (first_missing d) as [f|] eqn:Hm.
  - rewrite (validate_missing _ _ Hm) in Hv. discriminate.
  - pose proof (proj1 (first_missing_none d) Hm) as Hall.
    destruct (dict_has_get "type" d) as [t Ht]; [apply Hall; simpl; auto |].
    destruct (dict_has_get "suggested_labels" d) as [l Hl];
      [apply Hall; simpl; auto |].
    rewrite (validate_dict d t l Hm Ht Hl) in Hv. injection Hv as <-.
    eexists; split; [reflexivity |]. now apply well_shaped_coerced.
Qed.

Lemma parse_response_well_shaped (raw : string) (v : json) :
  parse_response raw = Return v -> exists d, v = JObj d /\ well_shaped d = true.
Proof.
  unfold parse_response. destruct (json_loads _); [| discriminate].
  apply validate_well_shaped.
Qed.

Lemma attempt_well_shaped (m : Model) (prompt : string) (k : nat) (v : json) :
  attempt_result m prompt k = Return v -> exists d, v = JObj d /\ well_shaped d = true.
Proof.
  unfold attempt_result. destruct (generate_content m prompt k); [| discriminate].
  apply parse_response_well_shaped.
Qed.

(** What the two turns of the loop come to. *)
Lemma analyze_issue_two_attempts (m : Model) (issue_data : IssueRecord) :
  analyze_issue m issue_data
  = match attempt_result m (create_prompt issue_data) 0 with
    | Return v => ([EvGenerate (create_prompt issue_data)], Return v)
    | Raise _ =>
        match attempt_result m (create_prompt issue_data) 1 with
        | Return v =>
            ([EvGenerate (create_prompt issue_data);
              EvGenerate (create_prompt issue_data)], Return v)
        | Raise e1 =>
            ([EvGenerate (create_prompt issue_data);
              EvGenerate (create_prompt issue_data)],
             Return (fallback (all_failed (Some e1))))
        end
    end.
Proof.
  unfold analyze_issue, max_retries. cbn [seq retry_loop].
  rewrite !attempt_once_result.
  destruct (attempt_result m (create_prompt issue_data) 0); [reflexivity |].
  destruct (attempt_result m (create_prompt issue_data) 1); reflexivity.
Qed.

(** X9. The retry loop.  The model is called once or twice, never more
    and never less, each time with the same prompt.  When the first
    attempt succeeds its analysis is returned and the model is not called
    again; when it fails and the second succeeds, the analysis of the
    second is returned. *)
Theorem analyze_issue_retries_once (m : Model) (issue_data : IssueRecord) :
  ((analyze_issue m issue_data).1 = [EvGenerate (create_prompt issue_data)]
   \/ (analyze_issue m issue_data).1
      = [EvGenerate (create_prompt issue_data); EvGenerate (create_prompt issue_data)])
  /\ (forall v,
        attempt_result m (create_prompt issue_data) 0 = Return v ->
        analyze_issue m issue_data = ([EvGenerate (create_prompt issue_data)], Return v))
  /\ (forall e0 v,
        attempt_result m (create_prompt issue_data) 0 = Raise e0 ->
        attempt_result m (create_prompt issue_data) 1 = Return v ->
        analyze_issue m issue_data
        = ([EvGenerate (create_prompt issue_data);
            EvGenerate (create_prompt issue_data)], Return v))
  /\ ((analyze_issue m issue_data).1
      = [EvGenerate (create_prompt issue_data); EvGenerate (create_prompt issue_data)]
      -> exists e0, attempt_result m (create_prompt issue_data) 0 = Raise e0).
Proof.
  rewrite analyze_issue_two_attempts. split_and!.
  - destruct (attempt_result m (create_prompt issue_data) 0); [now left |].
    destruct (attempt_result m (create_prompt issue_data) 1); now right.
  - now intros v ->.
  - now intros e0 v -> ->.
  - destruct (attempt_result m (create_prompt issue_data) 0); [discriminate | eauto].
Qed.

(** X10. The shape of every analysis.  Whatever the model answers, the
    dictionary that [analyze_issue] returns has the five required fields,
    a [type] that is one of the five valid strings and a
    [suggested_labels] that is a list; so has every dictionary that
    [parse_response] returns.  Nothing is checked of the other fields and
    of the elements of the list. *)
Theorem analysis_is_well_shaped (m : Model) (issue_data : IssueRecord) :
  (exists t d, analyze_issue m issue_data = (t, Return (JObj d))
               /\ well_shaped d = true)
  /\ (forall raw v, parse_response raw = Return v ->
                    exists d, v = JObj d /\ well_shaped d = true).
Proof.
  split; [| apply parse_response_well_shaped].
  rewrite analyze_issue_two_attempts.
  destruct (attempt_result m (create_prompt issue_data) 0) as [v|e0] eqn:E0.
  - destruct (attempt_well_shaped _ _ _ _ E0) as (d & -> & Hd). eauto.
  - destruct (attempt_result m (create_prompt issue_data) 1) as [v|e1] eqn:E1.
    + destruct (attempt_well_shaped _ _ _ _ E1) as (d & -> & Hd). eauto.
    + unfold fallback. eexists _, _. split; reflexivity.
Qed.

End MoreEngine.

(** ** The retriever: the shape of a parsed reference, normalization *)

Section MoreRetriever.
Import GitHubClient.

Lemma replace_from_no_slash (old : string) (skip : nat) (s : string) :
  no_slash s = true -> no_slash (Py.replace_from old "" skip s) = true.
Proof.
  revert skip; induction s as [|c s IH]; intros skip; [reflexivity |].
  cbn [no_slash]. intros [Hc Hs]%andb_true_iff.
  cbn [Py.replace_from]. destruct skip as [|k]; [| now apply IH].
  destruct (String.prefix old (String c s)).
  - rewrite append_nil_l. now apply IH.
  - cbn [no_slash]. rewrite Hc. now apply IH.
Qed.

Lemma str_contains_cons (c : ascii) (s sub : string) :
  LLMAnalyzer.str_contains (String c s) sub
  = String.prefix sub (String c s) || LLMAnalyzer.str_contains s sub.
Proof. reflexivity. Qed.

(** A text contains what it is built around. *)
Lemma str_contains_middle (pre sub rest : string) :
  LLMAnalyzer.str_contains (pre +:+ sub +:+ rest) sub = true.
Proof.
  induction pre as [|c pre IH].
  - rewrite append_nil_l.
    destruct (sub +:+ rest) eqn:E; cbn [LLMAnalyzer.str_contains];
      rewrite <- E, prefix_append; reflexivity.
  - rewrite append_cons, str_contains_cons, IH. apply orb_true_r.
Qed.

(** What a successful parse found in the URL. *)
Lemma parse_repo_url_found (url owner repo : string) :
  parse_repo_url url = Return (owner, repo) ->
  exists name, loose_form url owner name /\ repo = clean_repo name.
Proof.
  unfold parse_repo_url, patterns. cbn [parse_with].
  destruct (Re.search strict_pattern url) as [g|] eqn:Hs.
  - apply search_sound, found_strict_iff in Hs as (o & n & -> & Hf).
    intros [= <- <-]. exists n. split; [now apply strict_form_loose | reflexivity].
  - destruct (Re.search loose_pattern url) as [g|] eqn:Hl; [| discriminate].
    apply search_sound, found_loose_iff in Hl as (o & n & -> & Hf).
    intros [= <- <-]. eauto.
Qed.

(** X11. The shape of a parsed reference.  When [parse_repo_url]
    succeeds, the URL contains [github.com/], the owner is not empty and
    has no slash in it, and the repository name has no slash in it; but
    the name can be empty, as for a repository called [.git]. *)
Theorem parse_repo_url_result_shape (url owner repo : string) :
  parse_repo_url url = Return (owner, repo) ->
  owner <> "" /\ no_slash owner = true /\ no_slash repo = true
  /\ LLMAnalyzer.str_contains url "github.com/" = true
  /\ parse_repo_url "https://github.com/octocat/.git" = Return ("octocat", "").
Proof.
  intros Hp. apply parse_repo_url_found in Hp as (name & Hf & ->).
  destruct Hf as (pre & rest & -> & [Ho1 Ho2] & [Hn1 Hn2]).
  split_and!; auto.
  - unfold clean_repo, Py.replace. apply replace_from_no_slash.
    now rewrite rstrip_segment.
  - apply str_contains_middle.
Qed.

Lemma label_names_named (ls : list RawLabel) :
  Forall (fun l => label_name l <> None) ls ->
  label_names ls = Return (map (fun l => default "" (label_name l)) ls).
Proof.
  induction 1 as [|l ls Hl _ IH]; [reflexivity |].
  cbn [label_names map]. destruct (label_name l) as [n|]; [| congruence].
  now rewrite IH.
Qed.

Lemma label_names_raise (ls : list RawLabel) (e : exn) :
  label_names ls = Raise e ->
  e = Exn KeyError "'name'" /\ Exists (fun l => label_name l = None) ls.
Proof.
  induction ls as [|l ls IH]; [discriminate |].
  cbn [label_names]. destruct (label_name l) as [n|] eqn:Hl.
  - destruct (label_names ls) as [ns|e']; [discriminate |].
    cbn [rbind]. intros [= <-]. destruct (IH eq_refl) as [-> Hex].
    split; [reflexivity | now right].
  - intros [= <-]. split; [reflexivity | now left].
Qed.

Lemma comment_records_with_users (cs : list RawComment) :
  Forall (fun c => rc_user c <> UserNull) cs ->
  comment_records cs = Return (map normalized_comment cs).
Proof.
  induction 1 as [|c cs Hc _ IH]; [reflexivity |].
  cbn [comment_records map]. rewrite IH.
  unfold comment_author, normalized_comment.
  destruct (rc_user c) as [| |[login|]]; try congruence; reflexivity.
Qed.

Lemma comment_records_raise (cs : list RawComment) (e : exn) :
  comment_records cs = Raise e ->
  e = Exn AttributeError "'NoneType' object has no attribute 'get'"
  /\ Exists (fun c => rc_user c = UserNull) cs.
Proof.
  induction cs as [|c cs IH]; [discriminate |].
  cbn [comment_records]. unfold comment_author.
  destruct (rc_user c) as [| |login] eqn:Hu; cbn [rbind].
  - destruct (comment_records cs) as [rs|e']; [discriminate |].
    cbn [rbind]. intros [= <-]. destruct (IH eq_refl) as [-> Hex].
    split; [reflexivity | now right].
  - intros [= <-]. split; [reflexivity | now left].
  - destruct (comment_records cs) as [rs|e']; [discriminate |].
    cbn [rbind]. intros [= <-]. destruct (IH eq_refl) as [-> Hex].
    split; [reflexivity | now right].
Qed.

Lemma label_names_return (ls : list RawLabel) (names : list string) :
  label_names ls = Return names -> Forall (fun l => label_name l <> None) ls.
Proof.
  revert names; induction ls as [|l ls IH]; intros names; [constructor |].
  cbn [label_names]. destruct (label_name l) as [n|] eqn:Hl; [| discriminate].
  destruct (label_names ls) as [ns|e]; [| discriminate].
  intros _. constructor; [congruence | now apply (IH ns)].
Qed.

Lemma comment_records_return (cs : list RawComment) (recs : list CommentRecord) :
  comment_records cs = Return recs -> Forall (fun c => rc_user c <> UserNull) cs.
Proof.
  revert recs; induction cs as [|c cs IH]; intros recs; [constructor |].
  cbn [comment_records]. unfold comment_author.
  destruct (rc_user c) as [| |login] eqn:Hu; cbn [rbind]; [| discriminate |];
    (destruct (comment_records cs) as [rs|e]; [| discriminate]);
    intros _; (constructor; [congruence | now apply (IH rs)]).
Qed.

(** X13. Normalization.  When every label has a name and no comment has
    a [null] user, the record built from the payloads is the normalized
    one: labels and comments in the order of the payloads, one for one, a
    missing author replaced by ["unknown"], a missing body by the empty
    string.  Every record that is built is the normalized one.  Otherwise
    the construction raises: [KeyError] for a label without a name, and
    else [AttributeError] for a [null] user. *)
Theorem issue_record_normalizes (issue : RawIssue) (cs : list RawComment) :
  (Forall (fun l => label_name l <> None) (default [] (ri_labels issue)) ->
   Forall (fun c => rc_user c <> UserNull) cs ->
   issue_record issue cs = Return (normalized issue cs))
  /\ (forall r, issue_record issue cs = Return r ->
                r = normalized issue cs
                /\ (exists recs, comments r = Some recs /\ length recs = length cs))
  /\ (forall e, issue_record issue cs = Raise e ->
                (e = Exn KeyError "'name'"
                 /\ Exists (fun l => label_name l = None) (default [] (ri_labels issue)))
                \/ (e = Exn AttributeError "'NoneType' object has no attribute 'get'"
                    /\ Forall (fun l => label_name l <> None) (default [] (ri_labels issue))
                    /\ Exists (fun c => rc_user c = UserNull) cs)).
Proof.
  assert (Hok : Forall (fun l => label_name l <> None) (default [] (ri_labels issue)) ->
                Forall (fun c => rc_user c <> UserNull) cs ->
                issue_record issue cs = Return (normalized issue cs)).
  { intros Hl Hc. unfold issue_record.
    now rewrite (label_names_named _ Hl), (comment_records_with_users _ Hc). }
  split_and!.
  - exact Hok.
  - intros r Hr.
    assert (Hl : Forall (fun l => label_name l <> None) (default [] (ri_labels issue))).
    { unfold issue_record in Hr.
      destruct (label_names _) as [names|e] eqn:El; [| discriminate].
      now apply (label_names_return _ names). }
    assert (Hc : Forall (fun c => rc_user c <> UserNull) cs).
    { unfold issue_record in Hr.
      destruct (label_names _) as [names|e]; [| discriminate].
      destruct (comment_records cs) as [recs|e] eqn:Ec; [| discriminate].
      now apply (comment_records_return _ recs). }
    assert (Hn := Hok Hl Hc). assert (r = normalized issue cs) as -> by congruence.
    split; [reflexivity |]. eexists; split; [reflexivity |]. apply length_map.
  - intros e He. unfold issue_record in He.
    destruct (label_names _) as [names|e'] eqn:El.
    + right. cbn [rbind] in He.
      destruct (comment_records cs) as [recs|e''] eqn:Ec; [discriminate |].
      cbn [rbind] in He. injection He as <-.
      destruct (comment_records_raise _ _ Ec) as [-> Hex].
      split_and!; [reflexivity | now apply (label_names_return _ names) | exact Hex].
    + left. cbn [rbind] in He. injection He as <-.
      now apply label_names_raise.
Qed.

End MoreRetriever.

(** ** The handler: its calls, its statuses, the fallback *)

Section MoreHandler.
Import GitHubClient LLMAnalyzer App.
Context `{Config} `{Libraries}.

(** The retriever, step by step. *)
Lemma get_issue_data_steps (s : Session) (url : string) (n : Z) :
  get_issue_data s url n
  = match parse_repo_url url with
    | Raise e => ([], Raise e)
    | Return (owner, repo) =>
        match (fetch_issue s owner repo n).2 with
        | Raise e => ([issue_call owner repo n], Raise e)
        | Return issue =>
            match (fetch_comments s owner repo n).2 with
            | Raise e =>
                ([issue_call owner repo n; comments_call owner repo n], Raise e)
            | Return cs =>
                ([issue_call owner repo n; comments_call owner repo n],
                 issue_record issue cs)
            end
        end
    end.
Proof.
  unfold get_issue_data, bind.
  destruct (parse_repo_url url) as [[owner repo]|e]; [| reflexivity].
  unfold fetch_issue, fetch_comments, issue_call, comments_call. cbn [snd app].
  destruct (match get_issue s (issue_url owner repo n) with
            | Fetched payload => Return payload
            | HttpStatusError status msg => _
            | Failed e => _
            end) as [issue|e]; [| reflexivity].
  destruct (match get_comments s (comments_url owner repo n) with
            | Fetched payload => Return payload
            | HttpStatusError _ _ => Return []
            | Failed e => _
            end) as [cs|e]; [| reflexivity].
  cbn [app]. now destruct (issue_record issue cs).
Qed.

Lemma fetch_issue_returns (s : Session) (owner repo : string) (n : Z) (issue : RawIssue) :
  (fetch_issue s owner repo n).2 = Return issue ->
  get_issue s (issue_url owner repo n) = Fetched issue.
Proof.
  unfold fetch_issue. cbn [snd].
  destruct (get_issue s (issue_url owner repo n)) as [payload|status msg|e].
  - now intros [= ->].
  - destruct (status =? 404); [discriminate |].
    destruct (status =? 403); discriminate.
  - destruct (is_RequestException e); discriminate.
Qed.

(** What [fetch_issue] raises: a [ValueError] of its own, or what the
    request raised when that is no [RequestException]. *)
Lemma fetch_issue_raises (s : Session) (owner repo : string) (n : Z) (e : exn) :
  (fetch_issue s owner repo n).2 = Raise e ->
  is_ValueError e = true
  \/ (get_issue s (issue_url owner repo n) = Failed e /\ is_RequestException e = false).
Proof.
  unfold fetch_issue. cbn [snd].
  destruct (get_issue s (issue_url owner repo n)) as [payload|status msg|e'].
  - discriminate.
  - destruct (status =? 404); [intros [= <-]; now left |].
    destruct (status =? 403); intros [= <-]; now left.
  - destruct (is_RequestException e') eqn:He; intros [= <-]; [now left | now right].
Qed.

Lemma fetch_comments_raises (s : Session) (owner repo : string) (n : Z) (e : exn) :
  (fetch_comments s owner repo n).2 = Raise e ->
  get_comments s (comments_url owner repo n) = Failed e /\ is_RequestException e = false.
Proof.
  unfold fetch_comments. cbn [snd].
  destruct (get_comments s (comments_url owner repo n)) as [payload|status msg|e'];
    try discriminate.
  destruct (is_RequestException e') eqn:He; [discriminate |]. now intros [= <-].
Qed.

Lemma parse_repo_url_raises (url : string) (e : exn) :
  parse_repo_url url = Raise e -> is_ValueError e = true.
Proof.
  unfold parse_repo_url, patterns. cbn [parse_with].
  destruct (Re.search strict_pattern url) as [[|? [|? [|? ?]]]|];
    try (intros [= <-]; reflexivity); try discriminate.
  destruct (Re.search loose_pattern url) as [[|? [|? [|? ?]]]|];
    try (intros [= <-]; reflexivity); discriminate.
Qed.

(** The calls the handler makes, whatever the outcome. *)
Lemma analyze_issue_calls (w : World) (request : AnalyzeRequest) (cache : cache_t) :
  (analyze_issue w request cache).1.1 = []
  \/ (exists e, get_issue_data (session w) (repo_url request) (issue_number request)
                = ((analyze_issue w request cache).1.1, Raise e))
  \/ (exists t1 issue_data,
        get_issue_data (session w) (repo_url request) (issue_number request)
        = (t1, Return issue_data)
        /\ ((analyze_issue w request cache).1.1
            = t1 ++ [EvGenerate (create_prompt issue_data)]
            \/ (analyze_issue w request cache).1.1
               = t1 ++ [EvGenerate (create_prompt issue_data);
                        EvGenerate (create_prompt issue_data)])).
Proof.
  destruct (analyze_issue_served w request cache)
    as [data ts En L Age Hd
       | t e c Hget Hc
       | t1 t2 issue_data a c Hget Hllm Hc]; cbn [fst].
  - now left.
  - right; left. eauto.
  - right; right. exists t1, issue_data. split; [exact Hget |].
    rewrite analyze_issue_two_attempts in Hllm.
    destruct (attempt_result (model w) (create_prompt issue_data) 0);
      [injection Hllm as <- _; now left |].
    destruct (attempt_result (model w) (create_prompt issue_data) 1);
      injection Hllm as <- _; now right.
Qed.

(** X5. The calls of the handler.  One request makes at most four calls
    to the outside.  The issue is requested only for a reference that
    parses, and at the address built from it; the comments are requested
    only after the issue has been fetched; and the model is called only
    after the retrieval has succeeded, with the prompt of the record that
    was retrieved. *)
Theorem handler_call_discipline (w : World) (request : AnalyzeRequest)
  (cache : cache_t) :
  (length (analyze_issue w request cache).1.1 <= 4)%nat
  /\ (forall u, In (EvGetIssue u) (analyze_issue w request cache).1.1 ->
        exists owner repo,
          parse_repo_url (repo_url request) = Return (owner, repo)
          /\ u = issue_url owner repo (issue_number request))
  /\ (forall u, In (EvGetComments u) (analyze_issue w request cache).1.1 ->
        exists owner repo issue,
          parse_repo_url (repo_url request) = Return (owner, repo)
          /\ u = comments_url owner repo (issue_number request)
          /\ get_issue (session w) (issue_url owner repo (issue_number request))
             = Fetched issue)
  /\ (forall p, In (EvGenerate p) (analyze_issue w request cache).1.1 ->
        exists t issue_data,
          get_issue_data (session w) (repo_url request) (issue_number request)
          = (t, Return issue_data)
          /\ p = create_prompt issue_data).
Proof.
  pose proof (get_issue_data_steps (session w) (repo_url request)
                (issue_number request)) as Hsteps.
  assert (Hret : forall t r,
            get_issue_data (session w) (repo_url request) (issue_number request)
            = (t, r) ->
            (length t <= 2)%nat
            /\ (forall u, In (EvGetIssue u) t ->
                  exists owner repo,
                    parse_repo_url (repo_url request) = Return (owner, repo)
                    /\ u = issue_url owner repo (issue_number request))
            /\ (forall u, In (EvGetComments u) t ->
                  exists owner repo issue,
                    parse_repo_url (repo_url request) = Return (owner, repo)
                    /\ u = comments_url owner repo (issue_number request)
                    /\ get_issue (session w)
                         (issue_url owner repo (issue_number request))
                       = Fetched issue)
            /\ (forall p, ~ In (EvGenerate p) t)).
  { intros t r Hget. rewrite Hsteps in Hget.
    destruct (parse_repo_url (repo_url request)) as [[owner repo]|e].
    - destruct (fetch_issue (session w) owner repo (issue_number request)).2
        as [issue|e] eqn:Hi.
      + apply fetch_issue_returns in Hi.
        assert (t = [issue_call owner repo (issue_number request);
                     comments_call owner repo (issue_number request)]) as ->
          by (destruct (fetch_comments _ _ _ _).2; now injection Hget).
        unfold issue_call, comments_call. split_and!.
        * simpl; lia.
        * intros u [[= <-]|[[=]|[]]]. eauto.
        * intros u [[=]|[[= <-]|[]]]. eauto 10.
        * intros p [[=]|[[=]|[]]].
      + injection Hget as <- _. unfold issue_call. split_and!.
        * simpl; lia.
        * intros u [[= <-]|[]]. eauto.
        * intros u [[=]|[]].
        * intros p [[=]|[]].
    - injection Hget as <- _. split_and!; [simpl; lia | | |]; intros ? []. }
  destruct (analyze_issue_calls w request cache)
    as [-> | [[e Hget] | (t1 & issue_data & Hget & Ht)]].
  - split_and!; [simpl; lia | | |]; intros ? [].
  - destruct (Hret _ _ Hget) as (Hlen & Hi & Hc & Hg).
    split_and!; [lia | exact Hi | exact Hc |].
    intros p Hp. now destruct (Hg p).
  - destruct (Hret _ _ Hget) as (Hlen & Hi & Hc & Hg).
    assert (Hin : forall ev, In ev (analyze_issue w request cache).1.1 ->
                             In ev t1 \/ ev = EvGenerate (create_prompt issue_data)).
    { intros ev Hev. destruct Ht as [Ht | Ht]; rewrite Ht in Hev;
        apply in_app_or in Hev as [Hev | Hev]; auto; right;
        simpl in Hev; intuition congruence. }
    split_and!.
    + destruct Ht as [-> | ->]; rewrite length_app; simpl; lia.
    + intros u Hu. destruct (Hin _ Hu) as [Hu' | [=]]. now apply Hi.
    + intros u Hu. destruct (Hin _ Hu) as [Hu' | [=]]. now apply Hc.
    + intros p Hp. destruct (Hin _ Hp) as [Hp' | [= ->]]; [now destruct (Hg p) |].
      eauto.
Qed.

(** X6. Where a status 500 comes from.  An error answer has status 400 or
    500, and 500 only for an exception raised in the retriever that is no
    [ValueError]: what one of the two requests raised when that is no
    [RequestException], the [KeyError] for a label without a name, or the
    [AttributeError] for a comment whose user is [null].  Neither the
    model, nor the parsing of its answer, nor the response model, nor the
    cache ever leads to a 500. *)
Theorem status_500_only_from_retriever (w : World) (request : AnalyzeRequest)
  (cache cache' : cache_t) (t : list event) (s : Z) (d : string) :
  analyze_issue w request cache = (t, HTTPException s d, cache') ->
  (s = 400 \/ s = 500)
  /\ (s = 500 ->
      exists e owner repo,
        d = "Internal server error: " +:+ exn_str e
        /\ is_ValueError e = false
        /\ parse_repo_url (repo_url request) = Return (owner, repo)
        /\ ((get_issue (session w) (issue_url owner repo (issue_number request))
             = Failed e /\ is_RequestException e = false)
            \/ (get_comments (session w)
                  (comments_url owner repo (issue_number request))
                = Failed e /\ is_RequestException e = false)
            \/ e = Exn KeyError "'name'"
            \/ e = Exn AttributeError "'NoneType' object has no attribute 'get'")).
Proof.
  intros Hout.
  assert (Hval : forall data, respond (make_response data) = HTTPException s d ->
                              s = 400).
  { intros data. destruct (make_response data) as [r|e] eqn:Hm; [discriminate |].
    apply make_response_raises in Hm as ->. cbn. now intros [= <- _]. }
  pose proof (analyze_issue_served w request cache) as Hs. rewrite Hout in Hs.
  remember (t, HTTPException s d, cache') as out eqn:Eout.
  destruct Hs as [data ts En L Age Hd
                 | t0 e c Hget Hc
                 | t1 t2 issue_data a c Hget Hllm Hc];
    injection Eout as Et Er Ec.
  - apply Hval in Er. split; [now left | lia].
  - unfold http_exception in Er.
    destruct (is_ValueError e) eqn:Hv; injection Er as <- <-; [split; [now left | lia] |].
    split; [now right |]. intros _.
    rewrite get_issue_data_steps in Hget.
    destruct (parse_repo_url (repo_url request)) as [[owner repo]|e'] eqn:Hp.
    + exists e, owner, repo. split_and!; try reflexivity; [assumption |].
      destruct (fetch_issue (session w) owner repo (issue_number request)).2
        as [issue|e'] eqn:Hi.
      * destruct (fetch_comments (session w) owner repo (issue_number request)).2
          as [cs|e'] eqn:Hcs.
        -- injection Hget as _ Hrec.
           destruct (label_names (default [] (ri_labels issue))) as [names|e'] eqn:El.
           ++ unfold issue_record in Hrec. rewrite El in Hrec. cbn [rbind] in Hrec.
              destruct (comment_records cs) as [recs|e'] eqn:Ecs; [discriminate |].
              cbn [rbind] in Hrec. injection Hrec as <-.
              apply comment_records_raise in Ecs as [-> _]. auto.
           ++ unfold issue_record in Hrec. rewrite El in Hrec. cbn [rbind] in Hrec.
              injection Hrec as <-.
              apply label_names_raise in El as [-> _]. auto.
        -- injection Hget as _ <-. apply fetch_comments_raises in Hcs. auto.
      * injection Hget as _ <-. apply fetch_issue_raises in Hi as [Hi | Hi];
          [congruence | auto].
    + injection Hget as _ <-. apply parse_repo_url_raises in Hp. congruence.
  - apply Hval in Er. split; [now left | lia].
Qed.

(** X12. The fallback is answered with status 200, and cached.  Let the
    response model accept every string as it is.  With caching enabled and
    no entry for the key, when the retrieval succeeds and both attempts of
    the engine fail, the client receives status 200 with the fallback
    analysis, which names the error of the second attempt; the fallback is
    stored, and an identical request less than [CACHE_TTL] after the store
    receives it again without the model being asked. *)
Theorem fallback_is_answered_and_cached (w1 w2 : World) (request : AnalyzeRequest)
  (cache0 : cache_t) (issue_data : IssueRecord) (t1 : list event) (e0 e1 : exn) :
  (forall s, validate_str (JStr s) = Some s) ->
  CACHE_ENABLED = true ->
  cache0 !! get_cache_key (repo_url request) (issue_number request) = None ->
  get_issue_data (session w1) (repo_url request) (issue_number request)
  = (t1, Return issue_data) ->
  attempt_result (model w1) (create_prompt issue_data) 0 = Raise e0 ->
  attempt_result (model w1) (create_prompt issue_data) 1 = Raise e1 ->
  time_lookup w2 - time_store w1 < CACHE_TTL ->
  (analyze_issue w1 request cache0).1
  = (t1 ++ [EvGenerate (create_prompt issue_data);
            EvGenerate (create_prompt issue_data)],
     Ok200 (fallback_response (all_failed (Some e1)) issue_data))
  /\ (exists data,
        (analyze_issue w1 request cache0).2
        = <[get_cache_key (repo_url request) (issue_number request) :=
              (data, time_store w1)]> cache0)
  /\ analyze_issue w2 request (analyze_issue w1 request cache0).2
     = ([], Ok200 (fallback_response (all_failed (Some e1)) issue_data),
        (analyze_issue w1 request cache0).2).
Proof.
  intros Hstr En L Hget Hfail0 Hfail1 Hsoon.
  assert (Hllm : LLMAnalyzer.analyze_issue (model w1) issue_data
                 = ([EvGenerate (create_prompt issue_data);
                     EvGenerate (create_prompt issue_data)],
                    Return (fallback (all_failed (Some e1))))).
  { now rewrite analyze_issue_two_attempts, Hfail0, Hfail1. }
  set (a := [ ("summary", JStr ("Analysis unavailable: "
                                +:+ exn_str (all_failed (Some e1))));
              ("type", JStr "other");
              ("priority_score", JStr "3 - Unable to determine automatically");
              ("suggested_labels", JArr [JStr "needs-triage"]);
              ("potential_impact", JStr "Unable to analyze due to LLM error") ]).
  assert (Hresp : make_response (dict_set "metadata" (JObj (metadata_of issue_data)) a)
                  = Return (fallback_response (all_failed (Some e1)) issue_data)).
  { unfold make_response, str_field, labels_field, metadata_field, a.
    cbn [dict_set dict_get String.eqb Ascii.eqb Bool.eqb str_list].
    now rewrite !Hstr. }
  assert (Hfirst : analyze_issue w1 request cache0
                   = (t1 ++ [EvGenerate (create_prompt issue_data);
                             EvGenerate (create_prompt issue_data)],
                      Ok200 (fallback_response (all_failed (Some e1)) issue_data),
                      <[get_cache_key (repo_url request) (issue_number request) :=
                          (dict_set "metadata" (JObj (metadata_of issue_data)) a,
                           time_store w1)]> cache0)).
  { unfold analyze_issue, analyze_issue_body, hbind, get_from_cache, set_cache, lift.
    rewrite En, L. cbn [negb]. unfold ret. rewrite Hget, Hllm.
    unfold fallback. fold a. cbn [response_data_of]. rewrite Hresp.
    reflexivity. }
  rewrite Hfirst. cbn [fst snd]. split_and!.
  - reflexivity.
  - eauto.
  - rewrite (analyze_issue_hit w2 request _
               (dict_set "metadata" (JObj (metadata_of issue_data)) a)
               (time_store w1) En).
    + now rewrite Hresp.
    + apply lookup_insert_eq.
    + exact Hsoon.
    + apply dict_set_nonempty.
Qed.

(** X17. Failures of the retrieval are not cached.  When there is no
    entry for the key and the retriever raises, the handler answers with
    the status of the exception after the calls of the retriever alone,
    and leaves the cache as it is, so that the same request will call the
    hosting API again.  In particular a status 404 for the issue is
    answered 400 with a message that names the issue and the repository,
    and a status 403 is answered 400 with the advice to set a token; the
    comments are not requested in either case. *)
Theorem retrieval_errors_are_not_cached (w : World) (request : AnalyzeRequest)
  (cache : cache_t) (t : list event) (e : exn) :
  cache !! get_cache_key (repo_url request) (issue_number request) = None ->
  get_issue_data (session w) (repo_url request) (issue_number request)
  = (t, Raise e) ->
  analyze_issue w request cache = (t, http_exception e, cache)
  /\ (forall owner repo status msg,
        parse_repo_url (repo_url request) = Return (owner, repo) ->
        get_issue (session w) (issue_url owner repo (issue_number request))
        = HttpStatusError status msg ->
        t = [EvGetIssue (issue_url owner repo (issue_number request))]
        /\ (status = 404 ->
            http_exception e
            = HTTPException 400
                ("Issue #" +:+ Py.str_of_int (issue_number request)
                 +:+ " not found in " +:+ owner +:+ "/" +:+ repo
                 +:+ ". Please check the repository and issue number."))
        /\ (status = 403 ->
            http_exception e
            = HTTPException 400
                ("GitHub API rate limit exceeded. Please add a GITHUB_TOKEN "
                 +:+ "to your .env file for higher limits."))).
Proof.
  intros L Hget. split.
  - unfold analyze_issue, analyze_issue_body, hbind, get_from_cache, lift.
    rewrite L, Hget. now destruct (negb CACHE_ENABLED).
  - intros owner repo status msg Hp Hg.
    rewrite get_issue_data_steps, Hp in Hget. unfold fetch_issue in Hget.
    rewrite Hg in Hget. cbn [snd] in Hget. unfold issue_call in Hget.
    split_and!.
    + destruct (status =? 404); [now injection Hget |].
      destruct (status =? 403); now injection Hget.
    + intros ->. cbn in Hget. injection Hget as _ <-.
      reflexivity.
    + intros ->. cbn in Hget. injection Hget as _ <-. reflexivity.
Qed.

End MoreHandler.

(** ** The answer of the model: code blocks, and analyses fed back *)

Section MoreParse.
Import LLMAnalyzer.
Context `{Libraries}.

Lemma split_nonempty (sep : ascii) (s : string) : Py.split sep s <> [].
Proof.
  destruct s as [|c s]; [discriminate |].
  rewrite split_cons. destruct (Ascii.eqb c sep); [discriminate |].
  destruct (Py.split sep s); discriminate.
Qed.

Lemma join_one (sep x : string) : Py.join sep [x] = x.
Proof. reflexivity. Qed.

Lemma join_cons_char (sep : string) (c : ascii) (l : string) (ls : list string) :
  Py.join sep (String c l :: ls) = String c (Py.join sep (l :: ls)).
Proof. destruct ls as [|y ls]; [reflexivity |]. now rewrite !join_cons, append_cons. Qed.

(** Joining what was split gives the text back. *)
Lemma join_split (s : string) : Py.join Py.nl (Py.split "010" s) = s.
Proof.
  induction s as [|c s IH]; [reflexivity |].
  rewrite split_cons. destruct (Ascii.eqb_spec c "010") as [->|Hc].
  - pose proof (split_nonempty "010" s) as Hne.
    destruct (Py.split "010" s) as [|l ls]; [congruence |].
    rewrite join_cons, IH. reflexivity.
  - pose proof (split_nonempty "010" s) as Hne.
    destruct (Py.split "010" s) as [|l ls]; [congruence |].
    now rewrite join_cons_char, IH.
Qed.

Lemma split_no_nl (s : string) :
  Forall (fun l => no_nl l = true) (Py.split "010" s).
Proof.
  induction s as [|c s IH]; [repeat constructor |].
  rewrite split_cons. destruct (Ascii.eqb c "010") eqn:Hc.
  - constructor; [reflexivity | exact IH].
  - destruct (Py.split "010" s) as [|l ls]; [repeat constructor; cbn; now rewrite Hc |].
    inversion IH as [|? ? Hl Hls]; subst.
    constructor; [cbn [no_nl]; now rewrite Hc, Hl | exact Hls].
Qed.

Lemma join_snoc (sep : string) (ls : list string) (z : string) :
  ls <> [] -> Py.join sep (ls ++ [z]) = Py.join sep ls +:+ sep +:+ z.
Proof.
  induction ls as [|x [|y ls] IH]; intros Hne; [congruence | reflexivity |].
  change ((x :: y :: ls) ++ [z]) with (x :: y :: (ls ++ [z])).
  rewrite !join_cons.
  change (y :: ls ++ [z]) with ((y :: ls) ++ [z]).
  rewrite IH by discriminate. now rewrite !append_assoc.
Qed.

Lemma append_eq_nil (a b : string) : a +:+ b = "" -> a = "" /\ b = "".
Proof. destruct a; [auto | discriminate]. Qed.

(** [rstrip] looks at the end of the text only. *)
Lemma rstrip_by_app (p : ascii -> bool) (a b : string) :
  Py.rstrip_by p b <> "" -> Py.rstrip_by p (a +:+ b) = a +:+ Py.rstrip_by p b.
Proof.
  intros Hb. induction a as [|c a IH]; [reflexivity |].
  rewrite !append_cons, rstrip_by_cons, IH.
  destruct (a +:+ Py.rstrip_by p b) eqn:E; [| reflexivity].
  apply append_eq_nil in E as [_ E]. congruence.
Qed.

Lemma length_lstrip_by (p : ascii -> bool) (s : string) :
  (String.length (Py.lstrip_by p s) <= String.length s)%nat.
Proof.
  induction s as [|c s IH]; [reflexivity |].
  cbn [Py.lstrip_by]. destruct (p c); simpl; lia.
Qed.

Lemma length_rstrip_by (p : ascii -> bool) (s : string) :
  (String.length (Py.rstrip_by p s) <= String.length s)%nat.
Proof.
  induction s as [|c s IH]; [reflexivity |].
  rewrite rstrip_by_cons. destruct (Py.rstrip_by p s); [destruct (p c) |];
    simpl in *; lia.
Qed.

(** A text that [strip] leaves alone has no white space at its end. *)
Lemma strip_fixed_rstrip (b : string) :
  Py.strip b = b -> Py.rstrip_by Py.is_space b = b.
Proof.
  destruct b as [|c b]; [reflexivity |].
  unfold Py.strip. cbn [Py.lstrip_by]. destruct (Py.is_space c); [| auto].
  intros E. apply (f_equal String.length) in E.
  pose proof (length_rstrip_by Py.is_space (Py.lstrip_by Py.is_space b)).
  pose proof (length_lstrip_by Py.is_space b).
  simpl in E. lia.
Qed.

(** A text that starts with the fence has a first line that does. *)
Lemma startswith_fence_first_line (body : string) :
  Py.startswith body fence = true ->
  exists l ls, Py.split "010" body = l :: ls /\ Py.startswith l fence = true.
Proof.
  unfold Py.startswith, fence. intros Hp. apply prefix_split in Hp.
  generalize dependent (Py.drop (String.length "```") body). intros rest ->.
  change ("```" +:+ rest) with (String "`" (String "`" (String "`" rest))).
  rewrite !split_cons. change (Ascii.eqb "`" "010") with false. cbn iota.
  pose proof (split_nonempty "010" rest) as Hne.
  destruct (Py.split "010" rest) as [|l ls]; [congruence |].
  eexists _, _. split; [reflexivity |]. apply (prefix_append "```").
Qed.

Lemma unfence_not_fenced (body : string) :
  Forall (fun l => is_fence_line l = false) (Py.split "010" body) ->
  unfence body = body.
Proof.
  intros Hall. unfold unfence.
  destruct (Py.startswith body fence) eqn:Hs; [| reflexivity].
  apply startswith_fence_first_line in Hs as (l & ls & El & Hl).
  rewrite El in Hall. inversion Hall as [|? ? Hnot _]; subst.
  apply starts_with_fence_is_fence_line in Hl. congruence.
Qed.

Lemma lstrip_fence (rest : string) :
  Py.lstrip_by Py.is_space (fence +:+ rest) = fence +:+ rest.
Proof. reflexivity. Qed.

(** X15. A code block around the answer changes nothing.  Let [body] be
    a text without white space around it and without a fence line.  Then
    [parse_response] gives for [body] put in a Markdown code block, with
    any language tag after the opening fence, what it gives for [body]
    alone; and the same when the closing fence is missing, provided
    [body] is not empty. *)
Theorem fenced_answer_parses_alike (tag body : string) :
  no_nl tag = true ->
  Py.strip body = body ->
  Forall (fun l => is_fence_line l = false) (Py.split "010" body) ->
  parse_response (fence +:+ tag +:+ Py.nl +:+ body +:+ Py.nl +:+ fence)
  = parse_response body
  /\ (body <> "" ->
      parse_response (fence +:+ tag +:+ Py.nl +:+ body) = parse_response body).
Proof.
  intros Htag Hstrip Hlines.
  pose proof (split_nonempty "010" body) as Hne.
  pose proof (split_no_nl body) as Hnl.
  pose proof (join_split body) as Hjoin.
  assert (Hfirst : Py.startswith (fence +:+ tag) fence = true)
    by apply prefix_append.
  assert (Hfirst_nl : no_nl (fence +:+ tag) = true) by exact Htag.
  assert (Hplain : parse_response body
                   = match json_loads body with
                     | Decoded data => validate data
                     | DecodeError msg =>
                         Raise (Exn ValueError
                                  ("Failed to parse LLM response as JSON: " +:+ msg
                                   +:+ Py.nl +:+ "Response: " +:+ Py.take 200 body))
                     end).
  { unfold parse_response. now rewrite Hstrip, unfence_not_fenced. }
  split.
  - assert (Hstrip' : Py.strip (fence +:+ tag +:+ Py.nl +:+ body +:+ Py.nl +:+ fence)
                      = fence +:+ tag +:+ Py.nl +:+ body +:+ Py.nl +:+ fence).
    { unfold Py.strip. rewrite lstrip_fence.
      replace (fence +:+ tag +:+ Py.nl +:+ body +:+ Py.nl +:+ fence)
        with ((fence +:+ tag +:+ Py.nl +:+ body +:+ Py.nl) +:+ fence)
        by now rewrite !append_assoc.
      now rewrite rstrip_by_app. }
    assert (Htext : fence +:+ tag +:+ Py.nl +:+ body +:+ Py.nl +:+ fence
                    = Py.join Py.nl ((fence +:+ tag)
                                     :: Py.split "010" body ++ [fence])).
    { destruct (Py.split "010" body) as [|l ls] eqn:El; [congruence |].
      change ((l :: ls) ++ [fence]) with (l :: (ls ++ [fence])).
      rewrite join_cons. change (l :: ls ++ [fence]) with ((l :: ls) ++ [fence]).
      rewrite join_snoc by discriminate. rewrite Hjoin.
      now rewrite !append_assoc. }
    rewrite Hplain. unfold parse_response. rewrite Hstrip', Htext.
    rewrite unfence_fenced.
    + now rewrite Hjoin.
    + exact Hfirst.
    + constructor; [exact Hfirst_nl |].
      apply Forall_app. split; [exact Hnl | now repeat constructor].
    + exact Hlines.
    + reflexivity.
  - intros Hbody.
    assert (Hstrip' : Py.strip (fence +:+ tag +:+ Py.nl +:+ body)
                      = fence +:+ tag +:+ Py.nl +:+ body).
    { unfold Py.strip. rewrite lstrip_fence.
      replace (fence +:+ tag +:+ Py.nl +:+ body)
        with ((fence +:+ tag +:+ Py.nl) +:+ body)
        by now rewrite !append_assoc.
      rewrite rstrip_by_app; rewrite (strip_fixed_rstrip _ Hstrip); auto. }
    assert (Htext : fence +:+ tag +:+ Py.nl +:+ body
                    = Py.join Py.nl ((fence +:+ tag) :: Py.split "010" body)).
    { destruct (Py.split "010" body) as [|l ls] eqn:El; [congruence |].
      rewrite join_cons, Hjoin. now rewrite !append_assoc. }
    rewrite Hplain. unfold parse_response. rewrite Hstrip', Htext.
    rewrite unfence_open.
    + now rewrite Hjoin.
    + exact Hfirst.
    + constructor; [exact Hfirst_nl | exact Hnl].
    + exact Hlines.
Qed.

(** A dictionary of the right shape passes the validation unchanged. *)
Lemma validate_well_shaped_fixed (d : dict) :
  well_shaped d = true -> validate (JObj d) = Return (JObj d).
Proof.
  unfold well_shaped. rewrite !andb_true_iff. intros [[Hall Ht] Hl].
  assert (Hm : first_missing d = None).
  { apply first_missing_none. intros f Hf.
    now apply (proj1 (forallb_forall _ _) Hall). }
  destruct (dict_get "type" d) as [t|] eqn:Et; [| discriminate].
  destruct (dict_get "suggested_labels" d) as [l|] eqn:El; [| discriminate].
  rewrite (validate_dict d t l Hm Et El). unfold coerced. now rewrite Ht, Hl.
Qed.

(** X14. An accepted analysis is stable.  What [parse_response] has
    returned passes the same validation unchanged: neither coercion
    applies to it any more, so an answer that decodes to it is returned
    as it is. *)
Theorem accepted_analysis_is_stable (raw : string) (v : json) :
  parse_response raw = Return v ->
  validate v = Return v
  /\ forall raw', json_loads (unfence (Py.strip raw')) = Decoded v ->
                  parse_response raw' = Return v.
Proof.
  intros Hp. apply parse_response_well_shaped in Hp as (d & -> & Hd).
  pose proof (validate_well_shaped_fixed d Hd) as Hv.
  split; [exact Hv |].
  intros raw' Hdec. unfold parse_response. now rewrite Hdec.
Qed.

End MoreParse.

(** ** The request model *)

Section MoreRequest.
Import GitHubClient LLMAnalyzer App AppRequest.

(** A text that contains [sub] is built around it. *)
Lemma str_contains_split (s sub : string) :
  str_contains s sub = true -> exists pre rest, s = pre +:+ sub +:+ rest.
Proof.
  induction s as [|c s IH].
  - cbn [str_contains]. rewrite orb_false_r. intros Hp%prefix_split.
    exists "", (Py.drop (String.length sub) ""). exact Hp.
  - rewrite str_contains_cons. intros [Hp%prefix_split | Hs]%orb_true_iff.
    + exists "", (Py.drop (String.length sub) (String c s)). exact Hp.
    + destruct (IH Hs) as (pre & rest & ->). exists (String c pre), rest.
      now rewrite append_cons.
Qed.

Lemma str_contains_inside (a x b sub : string) :
  str_contains x sub = true -> str_contains (a +:+ x +:+ b) sub = true.
Proof.
  intros (pre & rest & ->)%str_contains_split.
  replace (a +:+ (pre +:+ sub +:+ rest) +:+ b)
    with ((a +:+ pre) +:+ sub +:+ (rest +:+ b))
    by now rewrite !append_assoc.
  apply str_contains_middle.
Qed.

Lemma lstrip_by_suffix (p : ascii -> bool) (s : string) :
  exists a, s = a +:+ Py.lstrip_by p s.
Proof.
  induction s as [|c s [a IH]]; [now exists "" |].
  cbn [Py.lstrip_by]. destruct (p c); [| now exists ""].
  exists (String c a). now rewrite append_cons, <- IH.
Qed.

Lemma rstrip_by_prefix (p : ascii -> bool) (s : string) :
  exists b, s = Py.rstrip_by p s +:+ b.
Proof.
  induction s as [|c s [b IH]]; [now exists "" |].
  rewrite rstrip_by_cons. destruct (Py.rstrip_by p s) as [|d t] eqn:E.
  - destruct (p c).
    + now exists (String c s).
    + exists b. rewrite append_nil_l in IH. now rewrite append_cons, append_nil_l, <- IH.
  - exists b. now rewrite append_cons, <- IH.
Qed.

(** What [strip] leaves was in the text. *)
Lemma str_contains_strip (v sub : string) :
  str_contains (Py.strip v) sub = true -> str_contains v sub = true.
Proof.
  intros Hs. unfold Py.strip in Hs.
  destruct (lstrip_by_suffix Py.is_space v) as [a Ha].
  destruct (rstrip_by_prefix Py.is_space (Py.lstrip_by Py.is_space v)) as [b Hb].
  rewrite Ha, Hb. now apply str_contains_inside.
Qed.

Lemma lstrip_by_keeps (p : ascii -> bool) (pre : string) (m : ascii) (rest : string) :
  p m = false ->
  exists pre', Py.lstrip_by p (pre +:+ String m rest) = pre' +:+ String m rest.
Proof.
  intros Hm. induction pre as [|c pre [pre' IH]].
  - exists "". rewrite !append_nil_l. cbn [Py.lstrip_by]. now rewrite Hm.
  - rewrite append_cons. cbn [Py.lstrip_by]. destruct (p c).
    + now exists pre'.
    + exists (String c pre). now rewrite append_cons.
Qed.

(** [strip] does not remove the host name. *)
Lemma strip_keeps_host (v : string) :
  str_contains v "github.com" = true ->
  str_contains (Py.strip v) "github.com" = true.
Proof.
  intros (pre & rest & ->)%str_contains_split. unfold Py.strip.
  change ("github.com" +:+ rest) with (String "g" ("ithub.co" +:+ String "m" rest)).
  destruct (lstrip_by_keeps Py.is_space pre "g" ("ithub.co" +:+ String "m" rest)
              eq_refl) as [pre' ->].
  replace (pre' +:+ String "g" ("ithub.co" +:+ String "m" rest))
    with ((pre' +:+ "github.co") +:+ String "m" rest)
    by now rewrite append_assoc.
  rewrite rstrip_by_app by (rewrite rstrip_by_keep by reflexivity; discriminate).
  rewrite rstrip_by_keep by reflexivity.
  rewrite append_assoc.
  apply (str_contains_middle pre' "github.com").
Qed.

Lemma rstrip_by_idempotent (p : ascii -> bool) (s : string) :
  Py.rstrip_by p (Py.rstrip_by p s) = Py.rstrip_by p s.
Proof.
  induction s as [|c s IH]; [reflexivity |].
  rewrite rstrip_by_cons. destruct (Py.rstrip_by p s) as [|d t] eqn:E.
  - destruct (p c) eqn:Hc; [reflexivity |].
    rewrite rstrip_by_cons. cbn [Py.rstrip_by]. now rewrite Hc.
  - rewrite rstrip_by_cons, IH. reflexivity.
Qed.

Lemma strip_idempotent (v : string) : Py.strip (Py.strip v) = Py.strip v.
Proof.
  unfold Py.strip.
  assert (Hl : forall t, Py.lstrip_by Py.is_space (Py.lstrip_by Py.is_space t)
                         = Py.lstrip_by Py.is_space t).
  { induction t as [|c t IH]; [reflexivity |].
    cbn [Py.lstrip_by]. destruct (Py.is_space c) eqn:Hc; [exact IH |].
    cbn [Py.lstrip_by]. now rewrite Hc. }
  assert (Hlr : forall t, Py.lstrip_by Py.is_space t = t ->
                          Py.lstrip_by Py.is_space (Py.rstrip_by Py.is_space t)
                          = Py.rstrip_by Py.is_space t).
  { intros [|c t]; [reflexivity |].
    cbn [Py.lstrip_by]. destruct (Py.is_space c) eqn:Hc.
    - intros E. apply (f_equal String.length) in E.
      pose proof (length_lstrip_by Py.is_space t). simpl in E. lia.
    - intros _. rewrite rstrip_by_keep by exact Hc.
      cbn [Py.lstrip_by]. now rewrite Hc. }
  rewrite (Hlr _ (Hl v)). apply rstrip_by_idempotent.
Qed.

Lemma validate_repo_url_stripped (v : string) :
  str_contains v "github.com" = true ->
  validate_repo_url v = Return (Py.strip v).
Proof. unfold validate_repo_url. now intros ->. Qed.

(** X16. The request model.  A request that the model accepts carries
    the URL without the white space around it, which still contains
    [github.com], and a positive issue number; validating it again gives
    it back, and two URLs that differ in the white space around them give
    the same request, hence the same cache key.  Every URL that
    [parse_repo_url] accepts passes the validator; the converse does not
    hold, so the handler can still meet a URL that does not parse. *)
Theorem request_model_contract (v : string) (n : Z) :
  (forall r, new_request v n = Some r ->
     repo_url r = Py.strip v /\ issue_number r = n /\ 0 < n
     /\ str_contains (repo_url r) "github.com" = true
     /\ new_request (repo_url r) (issue_number r) = Some r
     /\ forall v', Py.strip v' = Py.strip v ->
                   new_request v' n = Some r
                   /\ get_cache_key (Py.strip v') n
                      = get_cache_key (repo_url r) (issue_number r))
  /\ (forall owner repo,
        parse_repo_url v = Return (owner, repo) -> 0 < n ->
        new_request v n = Some {| repo_url := Py.strip v; issue_number := n |})
  /\ new_request "github.com" 1
     = Some {| repo_url := "github.com"; issue_number := 1 |}
  /\ parse_repo_url "github.com" = Raise (invalid_url "github.com").
Proof.
  split_and!; [| | reflexivity | reflexivity].
  - intros r Hr. unfold new_request, validate_repo_url in Hr.
    destruct (str_contains v "github.com") eqn:Hc; [| discriminate].
    cbn [negb] in Hr. destruct (Z.ltb_spec 0 n) as [Hn|Hn]; [| discriminate].
    injection Hr as <-. cbn [repo_url issue_number].
    pose proof (strip_keeps_host v Hc) as Hc'.
    assert (Hsame : forall v', Py.strip v' = Py.strip v ->
                               new_request v' n
                               = Some {| repo_url := Py.strip v; issue_number := n |}).
    { intros v' Hv'. unfold new_request.
      rewrite validate_repo_url_stripped
        by (apply str_contains_strip; now rewrite Hv').
      rewrite Hv'. destruct (Z.ltb_spec 0 n); [reflexivity | lia]. }
    split_and!; auto.
    + apply Hsame, strip_idempotent.
    + intros v' Hv'. split; [now apply Hsame | now rewrite Hv'].
  - intros owner repo Hp Hn.
    apply parse_repo_url_found in Hp as (name & (pre & rest & -> & _) & _).
    unfold new_request. rewrite validate_repo_url_stripped.
    + destruct (Z.ltb_spec 0 n); [reflexivity | lia].
    + apply (str_contains_middle pre "github.com"
               ("/" +:+ owner +:+ "/" +:+ name +:+ rest)).
Qed.

End MoreRequest.

(** ** The cache switch *)

Section MoreConfig.
Import ConfigPy.

Ltac by_cases_on_ascii c :=
  destruct c as [[] [] [] [] [] [] [] []]; reflexivity.

Lemma lower_char_t (c : ascii) :
  Ascii.eqb (lower_char c) "t" = Ascii.eqb c "t" || Ascii.eqb c "T".
Proof. by_cases_on_ascii c. Qed.

Lemma lower_char_r (c : ascii) :
  Ascii.eqb (lower_char c) "r" = Ascii.eqb c "r" || Ascii.eqb c "R".
Proof. by_cases_on_ascii c. Qed.

Lemma lower_char_u (c : ascii) :
  Ascii.eqb (lower_char c) "u" = Ascii.eqb c "u" || Ascii.eqb c "U".
Proof. by_cases_on_ascii c. Qed.

Lemma lower_char_e (c : ascii) :
  Ascii.eqb (lower_char c) "e" = Ascii.eqb c "e" || Ascii.eqb c "E".
Proof. by_cases_on_ascii c. Qed.

Lemma eqb_either (c x y : ascii) :
  Ascii.eqb c x || Ascii.eqb c y = true <-> c = x \/ c = y.
Proof. rewrite orb_true_iff, !Ascii.eqb_eq. reflexivity. Qed.

(** The texts that [lower] turns into [true]. *)
Lemma lower_is_true (s : string) :
  lower s = "true"
  <-> exists t r u e,
        s = String t (String r (String u (String e "")))
        /\ (t = "t" \/ t = "T")%char /\ (r = "r" \/ r = "R")%char
        /\ (u = "u" \/ u = "U")%char /\ (e = "e" \/ e = "E")%char.
Proof.
  split.
  - destruct s as [|t [|r [|u [|e [|x s]]]]]; try discriminate.
    cbn [lower]. intros [= Ht Hr Hu He].
    exists t, r, u, e. split; [reflexivity |].
    rewrite <- !eqb_either, <- lower_char_t, <- lower_char_r, <- lower_char_u,
      <- lower_char_e, !Ascii.eqb_eq. auto.
  - intros (t & r & u & e & -> & Ht & Hr & Hu & He).
    rewrite <- eqb_either in Ht, Hr, Hu, He.
    rewrite <- lower_char_t in Ht. rewrite <- lower_char_r in Hr.
    rewrite <- lower_char_u in Hu. rewrite <- lower_char_e in He.
    apply Ascii.eqb_eq in Ht, Hr, Hu, He.
    cbn [lower]. now rewrite Ht, Hr, Hu, He.
Qed.

(** X18. The cache switch.  Caching is enabled exactly when the variable
    [CACHE_ENABLED] is not set, or is set to the word [true] in any mix
    of capital and small letters.  Every other value disables it: [1],
    [yes] and [on] do, and so does [true] with a space before or after
    it. *)
Theorem cache_switch_spellings (environ : string -> option string) :
  (CACHE_ENABLED environ = true
   <-> environ "CACHE_ENABLED" = None
       \/ exists t r u e,
            environ "CACHE_ENABLED" = Some (String t (String r (String u (String e ""))))
            /\ (t = "t" \/ t = "T")%char /\ (r = "r" \/ r = "R")%char
            /\ (u = "u" \/ u = "U")%char /\ (e = "e" \/ e = "E")%char)
  /\ (forall value,
        In value ["1"; "yes"; "on"; "enabled"; " true"; "true "; "false"; ""] ->
        environ "CACHE_ENABLED" = Some value ->
        CACHE_ENABLED environ = false).
Proof.
  unfold CACHE_ENABLED, getenv. split.
  - destruct (environ "CACHE_ENABLED") as [value|].
    + rewrite String.eqb_eq, lower_is_true. split.
      * intros (t & r & u & e & -> & Hc). right. exists t, r, u, e. auto.
      * intros [[=] | (t & r & u & e & [= ->] & Hc)]. exists t, r, u, e. auto.
    + split; [now left | reflexivity].
  - intros value Hin ->.
    repeat (destruct Hin as [<- | Hin]; [reflexivity |]). destruct Hin.
Qed.

End MoreConfig.

(** ** The further properties at work on the scenario *)

Section MoreWitnesses.
Import GitHubClient LLMAnalyzer App AppRequest Scenario MoreScenario.

(** Stored at time 1000, read at time 2000. *)
Lemma set_cache_then_get_from_cache_witness :
  @get_from_cache default_config 2000 "k"
    (@set_cache default_config 1000 "k" [("type", JStr "bug")] ∅).2
  = (ret (Some [("type", JStr "bug")]),
     (@set_cache default_config 1000 "k" [("type", JStr "bug")] ∅).2).
Proof.
  apply (proj1 (@set_cache_then_get_from_cache default_config 1000 2000 "k"
                  [("type", JStr "bug")] ∅ eq_refl eq_refl)).
Defined.

(** An entry stored at time 0 and looked up at time 4599. *)
Lemma expired_entry_is_absent_witness :
  @analyze_issue default_config Fragment.libraries second_world request
    {[ get_cache_key (repo_url request) (issue_number request)
       := ([("type", JStr "bug")], 0) ]}
  = @analyze_issue default_config Fragment.libraries second_world request
      (delete (get_cache_key (repo_url request) (issue_number request))
         {[ get_cache_key (repo_url request) (issue_number request)
            := ([("type", JStr "bug")], 0) ]}).
Proof.
  apply (proj1 (@expired_entry_is_absent default_config Fragment.libraries
                  second_world request _ [("type", JStr "bug")] 0 eq_refl
                  (lookup_singleton_eq _ _) ltac:(discriminate))).
Defined.

(** The comments request raises an exception that [requests] does not
    know: status 500. *)
Lemma status_500_only_from_retriever_witness :
  exists e owner repo,
    "Internal server error: recursion depth exceeded"
    = "Internal server error: " +:+ exn_str e
    /\ is_ValueError e = false
    /\ parse_repo_url (repo_url request) = Return (owner, repo)
    /\ ((get_issue broken_comments (issue_url owner repo (issue_number request))
         = Failed e /\ is_RequestException e = false)
        \/ (get_comments broken_comments
              (comments_url owner repo (issue_number request))
            = Failed e /\ is_RequestException e = false)
        \/ e = Exn KeyError "'name'"
        \/ e = Exn AttributeError "'NoneType' object has no attribute 'get'").
Proof.
  assert (Hrun : @analyze_issue default_config Fragment.libraries
                   (world_of broken_comments) request ∅
                 = ([EvGetIssue
                       "https://api.github.com/repos/octocat/Hello-World/issues/1347";
                     EvGetComments
                       "https://api.github.com/repos/octocat/Hello-World/issues/1347/comments"],
                    HTTPException 500 "Internal server error: recursion depth exceeded",
                    ∅))
    by (vm_compute; reflexivity).
  apply (proj2 (@status_500_only_from_retriever default_config Fragment.libraries
                  (world_of broken_comments) request ∅ ∅ _ 500 _ Hrun)).
  reflexivity.
Defined.

(** The model answers a number for [summary]: the response model rejects
    it, and the second request is answered from the cache. *)
Lemma rejected_analysis_is_cached_witness :
  (@analyze_issue default_config Fragment.libraries careless_world request ∅).1.2
  = HTTPException 400 "validation error for AnalysisResponse"
  /\ @analyze_issue default_config Fragment.libraries second_world request
       (@analyze_issue default_config Fragment.libraries careless_world request ∅).2
     = ([], HTTPException 400 "validation error for AnalysisResponse",
        (@analyze_issue default_config Fragment.libraries careless_world request ∅).2).
Proof.
  assert (Hllm : @LLMAnalyzer.analyze_issue Fragment.libraries careless record
                 = ([EvGenerate (create_prompt record)],
                    Return (JObj [ ("summary", JInt 5);
                                   ("type", JStr "bug");
                                   ("priority_score", JStr "4 - High");
                                   ("suggested_labels", JArr [JStr "bug"]);
                                   ("potential_impact",
                                    JStr "Users cannot submit the form") ])))
    by (vm_compute; reflexivity).
  destruct (@rejected_analysis_is_cached default_config Fragment.libraries
              careless_world second_world request ∅ record _ _ _
              (Exn ValidationError "validation error for AnalysisResponse")
              eq_refl (lookup_empty _) get_issue_data_scenario Hllm eq_refl eq_refl)
    as [Hfirst Hsecond].
  split; [now rewrite Hfirst | exact Hsecond].
Defined.

(** With caching switched off an entry that is there is not used. *)
Lemma caching_disabled_bypasses_cache_witness :
  @analyze_issue caching_off Fragment.libraries first_world request
    {[ get_cache_key (repo_url request) (issue_number request)
       := ([("type", JStr "bug")], 1000) ]}
  = ((@analyze_issue caching_off Fragment.libraries first_world request ∅).1,
     {[ get_cache_key (repo_url request) (issue_number request)
        := ([("type", JStr "bug")], 1000) ]}).
Proof.
  apply (@caching_disabled_bypasses_cache caching_off Fragment.libraries
           first_world request _ eq_refl).
Defined.

(** The model fails once, then answers. *)
Lemma analyze_issue_retries_once_witness :
  @LLMAnalyzer.analyze_issue Fragment.libraries slow_starter record
  = ([EvGenerate (create_prompt record); EvGenerate (create_prompt record)],
     Return (JObj [ ("summary", JStr "Crash on submit");
                    ("type", JStr "other");
                    ("priority_score", JStr "4 - High: blocks the form");
                    ("suggested_labels", JArr [JStr "bug"]);
                    ("potential_impact", JStr "Users cannot submit the form") ])).
Proof.
  apply (proj1 (proj2 (proj2 (@analyze_issue_retries_once Fragment.libraries
                                slow_starter record)))
           (Exn OtherException "503 The model is overloaded")).
  - reflexivity.
  - vm_compute. reflexivity.
Defined.

Lemma parse_repo_url_result_shape_witness :
  "octocat" <> ""
  /\ no_slash "octocat" = true /\ no_slash "Hello-World" = true
  /\ str_contains "https://github.com/octocat/Hello-World.git" "github.com/" = true
  /\ parse_repo_url "https://github.com/octocat/.git" = Return ("octocat", "").
Proof.
  apply (parse_repo_url_result_shape "https://github.com/octocat/Hello-World.git"
           "octocat" "Hello-World" eq_refl).
Defined.

(** The hosting API answers, the model never does: the fallback, twice. *)
Lemma fallback_is_answered_and_cached_witness :
  @analyze_issue default_config Fragment.libraries second_world request
    (@analyze_issue default_config Fragment.libraries unhelpful_world request ∅).2
  = ([],
     Ok200 (fallback_response
              (all_failed
                 (Some (Exn ValueError
                          ("Failed to parse LLM response as JSON: Expecting value"
                           +:+ Py.nl +:+ "Response: I cannot analyze this issue."))))
              record),
     (@analyze_issue default_config Fragment.libraries unhelpful_world request ∅).2).
Proof.
  assert (Hsecond : @attempt_result Fragment.libraries failing (create_prompt record) 1
                    = Raise (Exn ValueError
                               ("Failed to parse LLM response as JSON: Expecting value"
                                +:+ Py.nl
                                +:+ "Response: I cannot analyze this issue.")))
    by (vm_compute; reflexivity).
  apply (proj2 (proj2 (@fallback_is_answered_and_cached default_config
                         Fragment.libraries unhelpful_world second_world request ∅
                         record _
                         (Exn OtherException "503 The model is overloaded") _
                         (fun s => eq_refl) eq_refl (lookup_empty _)
                         get_issue_data_scenario eq_refl Hsecond eq_refl))).
Defined.

(** A label without a name and a comment whose user is [null]: the label
    is met first. *)
Lemma issue_record_normalizes_witness :
  issue_record issue [anonymous_comment] = Return (normalized issue [anonymous_comment])
  /\ ((Exn KeyError "'name'" = Exn KeyError "'name'"
       /\ Exists (fun l => label_name l = None)
            (default [] (ri_labels nameless_label_issue)))
      \/ (Exn KeyError "'name'"
          = Exn AttributeError "'NoneType' object has no attribute 'get'"
          /\ Forall (fun l => label_name l <> None)
               (default [] (ri_labels nameless_label_issue))
          /\ Exists (fun c => rc_user c = UserNull) [ghost_comment])).
Proof.
  split.
  - apply (proj1 (issue_record_normalizes issue [anonymous_comment])).
    + repeat constructor. discriminate.
    + repeat constructor. discriminate.
  - apply (proj2 (proj2 (issue_record_normalizes nameless_label_issue [ghost_comment]))
             (Exn KeyError "'name'")).
    reflexivity.
Defined.

(** The answer of the scenario, accepted once, is accepted as it is. *)
Lemma accepted_analysis_is_stable_witness :
  @validate Fragment.libraries
    (JObj [ ("summary", JStr "Crash on submit");
            ("type", JStr "other");
            ("priority_score", JStr "4 - High: blocks the form");
            ("suggested_labels", JArr [JStr "bug"]);
            ("potential_impact", JStr "Users cannot submit the form") ])
  = Return (JObj [ ("summary", JStr "Crash on submit");
                   ("type", JStr "other");
                   ("priority_score", JStr "4 - High: blocks the form");
                   ("suggested_labels", JArr [JStr "bug"]);
                   ("potential_impact", JStr "Users cannot submit the form") ]).
Proof.
  assert (Hp : @parse_response Fragment.libraries answer
               = Return (JObj [ ("summary", JStr "Crash on submit");
                                ("type", JStr "other");
                                ("priority_score", JStr "4 - High: blocks the form");
                                ("suggested_labels", JArr [JStr "bug"]);
                                ("potential_impact",
                                 JStr "Users cannot submit the form") ]))
    by (vm_compute; reflexivity).
  apply (proj1 (@accepted_analysis_is_stable Fragment.libraries answer _ Hp)).
Defined.

(** The incomplete answer in a code block: the same error. *)
Lemma fenced_answer_parses_alike_witness :
  @parse_response Fragment.libraries
    (fence +:+ "json" +:+ Py.nl +:+ incomplete_answer +:+ Py.nl +:+ fence)
  = @parse_response Fragment.libraries incomplete_answer.
Proof.
  assert (Hstrip : Py.strip incomplete_answer = incomplete_answer)
    by (vm_compute; reflexivity).
  apply (proj1 (@fenced_answer_parses_alike Fragment.libraries "json"
                  incomplete_answer eq_refl Hstrip ltac:(repeat constructor))).
Defined.

(** The issue does not exist: status 400, and nothing is stored. *)
Lemma retrieval_errors_are_not_cached_witness :
  @analyze_issue default_config Fragment.libraries (world_of missing_issue) request ∅
  = ([EvGetIssue "https://api.github.com/repos/octocat/Hello-World/issues/1347"],
     HTTPException 400
       ("Issue #1347 not found in octocat/Hello-World. "
        +:+ "Please check the repository and issue number."),
     ∅).
Proof.
  apply (proj1 (@retrieval_errors_are_not_cached default_config Fragment.libraries
                  (world_of missing_issue) request ∅
                  [EvGetIssue
                     "https://api.github.com/repos/octocat/Hello-World/issues/1347"]
                  (not_found "octocat" "Hello-World" 1347)
                  (lookup_empty _) eq_refl)).
Defined.

End MoreWitnesses.
